(** * remix.init/index.js: the post-generation customizer of the stack

    A shallow embedding of [remix.init/index.js] and the properties of its
    name generator, text and document patchers, package-manager resolver and
    orchestrator.

    Conventions of the embedding.
    - A JavaScript string is a Rocq [string]; one [ascii] stands for one
      UTF-16 code unit (code units below 256).  Regular expressions without
      the [u] flag and [String.prototype.replace] work code unit by code
      unit, which is what the definitions below do.
    - A parsed JSON, YAML or TOML document is a [value], a tree; an object
      is an association list in the order of its keys, as that order shows
      when the document is written back (JavaScript lists integer-like keys
      first; the keys the script touches are names).  A tree shares no
      node: [YAML.parse] gives an anchor and its aliases one object, so a
      workflow written with aliases is not a document of this embedding,
      and what is proved of the in-place edits of lines 12-15 is proved of
      the documents without aliases.
    - A call that can throw returns a [result]; code that touches the file
      system runs in the state-and-error monad [M] over the file map and
      the messages passed to [console.log].
    - An operation of [fs/promises] takes effect where it is started and
      its promise records how it settles; [Promise.all] only collects.  The
      reads of the first phase change nothing and the operations of the
      last phase are on different files of the project, so the order in
      which concurrent operations settle does not show in the files.
    - Functions of the packages the script imports ([path], [crypto],
      [child_process], [semver], [yaml], [@iarna/toml],
      [@npmcli/package-json]) are the fields of a [Host] record. *)

From Stdlib Require Import ZArith NArith Ascii String List Lia Bool.
From stdpp Require Import base tactics option list strings pretty gmap.

Set Default Proof Using "Type".
Local Arguments String.append : simpl nomatch.


(** ** Errors and results *)

(** What a call throws: a [TypeError] of the language, a missing file, an
    error of one of the imported packages, or [Unsupported] where the
    embedding leaves a part of JavaScript out (never thrown by the script,
    see [cleanupDeployWorkflow_supported] and [prodToml_supported]). *)

Inductive error : Type :=
  | TypeError (msg : string)
  | ENOENT (path : string)
  | LibraryError (package msg : string)
  | Unsupported (what : string).

Inductive result (A : Type) : Type :=
  | Ok (a : A)
  | Throw (e : error).
Arguments Ok {A} a.
Arguments Throw {A} e.

Global Instance result_ret : MRet result := fun A a => Ok a.
Global Instance result_bind : MBind result := fun A B k r =>
  match r with
  | Ok a => k a
  | Throw e => Throw e
  end.
Global Instance result_fmap : FMap result := fun A B f r =>
  match r with
  | Ok a => Ok (f a)
  | Throw e => Throw e
  end.

(** ** JavaScript strings *)

Module JS.

(** [s.slice(n)] and [s.slice(0, n)]. *)
Fixpoint drop (n : nat) (s : string) : string :=
  match n, s with
  | O, _ => s
  | S _, EmptyString => EmptyString
  | S k, String _ s' => drop k s'
  end.

Fixpoint take (n : nat) (s : string) : string :=
  match n, s with
  | O, _ => EmptyString
  | S _, EmptyString => EmptyString
  | S k, String c s' => String c (take k s')
  end.

Definition snoc (s : string) (c : ascii) : string := s +:+ String c EmptyString.

Fixpoint all_chars (p : ascii -> bool) (s : string) : bool :=
  match s with
  | EmptyString => true
  | String c s' => p c && all_chars p s'
  end.

Fixpoint map_chars (f : ascii -> ascii) (s : string) : string :=
  match s with
  | EmptyString => EmptyString
  | String c s' => String (f c) (map_chars f s')
  end.

(** [s.startsWith(p)]. *)
Definition starts_with (p s : string) : bool := String.prefix p s.

(** [s.includes(p)]. *)
Fixpoint includes (p s : string) : bool :=
  starts_with p s ||
  match s with
  | EmptyString => false
  | String _ s' => includes p s'
  end.

(** The abstract operation GetSubstitution of ECMA-262 for a match without
    capture groups: [$$] is a dollar sign, [$&] the matched text,
    [$`] the text before the match and [$'] the text after it.  With no
    capture groups [$1]..[$99] and [$<] stay as they are written. *)
Fixpoint GetSubstitution (matched before after replacement : string) : string :=
  match replacement with
  | EmptyString => EmptyString
  | String c tl =>
    if Ascii.eqb c "$" then
      match tl with
      | EmptyString => String c EmptyString
      | String d tl' =>
        if Ascii.eqb d "$" then String "$" (GetSubstitution matched before after tl')
        else if Ascii.eqb d "&" then matched +:+ GetSubstitution matched before after tl'
        else if Ascii.eqb d "`" then before +:+ GetSubstitution matched before after tl'
        else if Ascii.eqb d "'" then after +:+ GetSubstitution matched before after tl'
        else String c (GetSubstitution matched before after tl)
      end
    else String c (GetSubstitution matched before after tl)
  end.

(** [s.replace(pattern, replacement)] with a string pattern: only the first
    occurrence is replaced.  [before] is the text already passed over. *)
Fixpoint replace_from (pattern replacement before s : string) {struct s} : option string :=
  if starts_with pattern s then
    let after := drop (String.length pattern) s in
    Some (GetSubstitution pattern before after replacement +:+ after)
  else
    match s with
    | EmptyString => None
    | String c s' => String c <$> replace_from pattern replacement (snoc before c) s'
    end.

Definition replace (s pattern replacement : string) : string :=
  default s (replace_from pattern replacement EmptyString s).

(** The regular expressions of the script are sequences of one-character
    matchers: a literal character or a character class. *)
Definition RegExp : Type := list (ascii -> bool).

Fixpoint match_here (rx : RegExp) (s : string) : bool :=
  match rx, s with
  | [], _ => true
  | _ :: _, EmptyString => false
  | m :: rx', String c s' => m c && match_here rx' s'
  end.

(** [s.replace(rx, replacement)] for a regular expression with the [g]
    flag: matches are looked for from left to right and do not overlap.
    [skip] counts the characters of the last match still to be passed. *)
Fixpoint replace_all_from (rx : RegExp) (replacement before : string)
    (skip : nat) (s : string) {struct s} : string :=
  match s with
  | EmptyString =>
    match skip, rx with
    | O, [] => GetSubstitution EmptyString before EmptyString replacement
    | _, _ => EmptyString
    end
  | String c s' =>
    match skip with
    | S k => replace_all_from rx replacement (snoc before c) k s'
    | O =>
      if match_here rx s then
        GetSubstitution (take (length rx) s) before (drop (length rx) s) replacement
        +:+ match rx with
            | [] => String c (replace_all_from rx replacement (snoc before c) O s')
            | _ :: rx' => replace_all_from rx replacement (snoc before c) (length rx') s'
            end
      else String c (replace_all_from rx replacement (snoc before c) O s')
    end
  end.

Definition replace_all (s : string) (rx : RegExp) (replacement : string) : string :=
  replace_all_from rx replacement EmptyString O s.

(** The syntax characters of a pattern: [^ $ \ . * + ? ( ) [ ] { } |]. *)
Definition SyntaxCharacter (c : ascii) : bool :=
  existsb (Ascii.eqb c)
    ["^"; "$"; "\"; "."; "*"; "+"; "?"; "("; ")"; "["; "]"; "{"; "}"; "|"]%char.

Definition literal (s : string) : RegExp := map Ascii.eqb (list_ascii_of_string s).

(** [new RegExp(source, 'g')] for the sources the script builds: pattern
    characters and escaped syntax characters.  Any other source is outside
    the fragment and gives [None]. *)
Fixpoint parse_pattern (source : string) : option RegExp :=
  match source with
  | EmptyString => Some []
  | String c tl =>
    if Ascii.eqb c "\" then
      match tl with
      | EmptyString => None
      | String d tl' =>
        if SyntaxCharacter d then cons (Ascii.eqb d) <$> parse_pattern tl' else None
      end
    else if SyntaxCharacter c then None
    else cons (Ascii.eqb c) <$> parse_pattern tl
  end.

Definition new_RegExp (source : string) : result RegExp :=
  match parse_pattern source with
  | Some rx => Ok rx
  | None => Throw (Unsupported "RegExp source outside the literal fragment")
  end.

(** [s.split(sep)] for a separator of one character. *)
Fixpoint split (sep : ascii) (s : string) : list string :=
  match s with
  | EmptyString => [EmptyString]
  | String c s' =>
    if Ascii.eqb c sep then EmptyString :: split sep s'
    else match split sep s' with
         | [] => [String c EmptyString]
         | w :: ws => String c w :: ws
         end
  end.

(** White space and line terminators among the code units below 256. *)
Definition is_white_space (c : ascii) : bool :=
  existsb (N.eqb (N_of_ascii c)) [9; 10; 11; 12; 13; 32; 160]%N.

Fixpoint trim_start (s : string) : string :=
  match s with
  | EmptyString => EmptyString
  | String c s' => if is_white_space c then trim_start s' else s
  end.

(** [s.trim()]. *)
Definition trim (s : string) : string :=
  String.rev (trim_start (String.rev (trim_start s))).

End JS.

(** ** Documents: the values [JSON.parse], [YAML.parse] and [toml.parse] give *)

Local Unset Elimination Schemes.
Inductive value : Type :=
  | VUndefined
  | VNull
  | VBool (b : bool)
  | VNum (digits : string)          (* a number, kept as its decimal text *)
  | VStr (s : string)
  | VArr (items : list value)
  | VObj (props : list (string * value))
  | VHost (class : string).         (* any other object, e.g. a TOML date *)
Local Set Elimination Schemes.

Definition props : Type := list (string * value).

Module Obj.

(** [o[k]] on the property list of an object; a missing key is [undefined]. *)
Fixpoint get (o : props) (k : string) : value :=
  match o with
  | [] => VUndefined
  | (k', v) :: o' => if String.eqb k' k then v else get o' k
  end.

(** [k in o] for an own property. *)
Fixpoint has (o : props) (k : string) : bool :=
  match o with
  | [] => false
  | (k', _) :: o' => String.eqb k' k || has o' k
  end.

(** [o[k] = v]: an existing key keeps its place, a new one goes last. *)
Fixpoint set (o : props) (k : string) (v : value) : props :=
  match o with
  | [] => [(k, v)]
  | (k', v') :: o' => if String.eqb k' k then (k, v) :: o' else (k', v') :: set o' k v
  end.

(** [delete o[k]]. *)
Definition delete (o : props) (k : string) : props :=
  List.filter (fun kv => negb (String.eqb (fst kv) k)) o.

(** [{ ...o, ...o' }]. *)
Definition spread (o o' : props) : props :=
  fold_left (fun acc kv => set acc (fst kv) (snd kv)) o' o.

(** [Object.fromEntries(entries)]. *)
Definition fromEntries (entries : props) : props := spread [] entries.

Definition keys (o : props) : list string := map fst o.

End Obj.

(** The index-keyed view of an array or of the characters of a string. *)
Definition indexed {A} (f : A -> value) (l : list A) : props :=
  imap (fun i x => (pretty i, f x)) l.

Definition char_value (c : ascii) : value := VStr (String c EmptyString).

(** The own enumerable string-keyed properties of [ToObject(v)], which is
    what [Object.entries(v)] and an object spread or rest pattern read;
    [undefined] and [null] have none and throw. *)
Definition own_entries (v : value) : result props :=
  match v with
  | VUndefined => Throw (TypeError "Cannot convert undefined or null to object")
  | VNull => Throw (TypeError "Cannot convert undefined or null to object")
  | VObj o => Ok o
  | VArr l => Ok (indexed id l)
  | VStr s => Ok (indexed char_value (list_ascii_of_string s))
  | VBool _ | VNum _ | VHost _ => Ok []
  end.

(** [v.k] for a data key [k] (the names the script reads are neither
    indices nor built-in property names). *)
Definition get_prop (v : value) (k : string) : result value :=
  match v with
  | VUndefined | VNull =>
      Throw (TypeError ("Cannot read properties of undefined or null: " +:+ k))
  | VObj o => Ok (Obj.get o k)
  | _ => Ok VUndefined
  end.

(** [delete v.k]. *)
Definition delete_prop (v : value) (k : string) : result value :=
  match v with
  | VUndefined | VNull =>
      Throw (TypeError ("Cannot convert undefined or null to object: " +:+ k))
  | VObj o => Ok (VObj (Obj.delete o k))
  | _ => Ok v
  end.

(** [v.k = x].  The script assigns only after reading a property of [v.k]
    or a method of it, so [v] is an object whenever this is reached. *)
Definition set_prop (v : value) (k : string) (x : value) : result value :=
  match v with
  | VObj o => Ok (VObj (Obj.set o k x))
  | VUndefined | VNull =>
      Throw (TypeError ("Cannot set properties of undefined or null: " +:+ k))
  | _ => Throw (Unsupported "assignment to a property of a non-object")
  end.

(** [v.filter(keep)]: only an array has the method. *)
Definition array_filter (v : value) (keep : value -> bool) : result value :=
  match v with
  | VArr l => Ok (VArr (List.filter keep l))
  | VUndefined | VNull => Throw (TypeError "Cannot read properties of undefined or null: filter")
  | _ => Throw (TypeError "filter is not a function")
  end.

(** [v.replace(pattern, replacement)]: only a string has the method. *)
Definition string_replace (v : value) (pattern replacement : string) : result string :=
  match v with
  | VStr s => Ok (JS.replace s pattern replacement)
  | VUndefined | VNull => Throw (TypeError "Cannot read properties of undefined or null: replace")
  | _ => Throw (TypeError "replace is not a function")
  end.

(** [v !== s] for a string literal [s]. *)
Definition strict_ne_string (v : value) (s : string) : bool :=
  match v with
  | VStr s' => negb (String.eqb s' s)
  | _ => true
  end.

(** ** The file system and the packages the script imports *)

Abbreviation files := (gmap string string).

(** [packageJson]: the object [PackageJson.load] gives, with the file it was
    read from and its parsed [content]. *)
Record PackageJson : Type := {
  filename : string;
  content : value;
}.

Record Host : Type := {
  (* path *)
  path_join : list string -> string;
  path_basename : string -> string;
  (* crypto: the bytes the generator hands out in this run *)
  entropy : nat -> Byte.byte;
  (* child_process: the output of a command, decoded as UTF-8 *)
  execSync_stdout : string -> result string;
  (* child_process: a command run in [cwd] with inherited stdio *)
  execSync_inherit : string -> string -> files -> result files;
  (* semver *)
  semver_lt : string -> string -> result bool;
  semver_gte : string -> string -> result bool;
  (* @iarna/toml *)
  toml_parse : string -> result value;
  toml_stringify : value -> string;
  (* yaml *)
  YAML_parse : string -> result value;
  YAML_stringify : value -> string;
  (* @npmcli/package-json *)
  PackageJson_parse : string -> result value;
  PackageJson_stringify : value -> string;
  PackageJson_update : value -> value -> result value;
}.

(** The state of a run: the files, and the messages the script itself has
    passed to [console.log], in order.  What a command started by
    [execSync] writes to the terminal it inherits is that command's output
    and is not recorded. *)
Record world : Type := {
  fs : files;
  console : list string;
}.

Definition M (A : Type) : Type := world -> result A * world.

Global Instance M_ret : MRet M := fun A a w => (Ok a, w).
Global Instance M_bind : MBind M := fun A B k m w =>
  match m w with
  | (Ok a, w') => k a w'
  | (Throw e, w') => (Throw e, w')
  end.

Definition lift {A} (r : result A) : M A := fun w => (r, w).

(** The operations of [fs/promises] the script starts, and [save]. *)
Inductive file_op : Type :=
  | WriteFile (path data : string)
  | SavePackageJson (pj : PackageJson)
  | CopyFile (src dest : string)
  | Rm (path : string).

(** A promise of a started operation, with the way it settles. *)
Definition promise : Type := file_op * result unit.

Section Script.
Context (H : Host).

(** [fs.readFile(path, 'utf-8')] *)
Definition readFile (path : string) : M string := fun w =>
  match fs w !! path with
  | Some data => (Ok data, w)
  | None => (Throw (ENOENT path), w)
  end.

Definition write (path data : string) (w : world) : world :=
  {| fs := <[path := data]> (fs w); console := console w |}.

Definition perform (op : file_op) (w : world) : result unit * world :=
  match op with
  | WriteFile path data => (Ok (), write path data w)
  | SavePackageJson pj =>
      (Ok (), write (filename pj) (PackageJson_stringify H (content pj)) w)
  | CopyFile src dest =>
      match fs w !! src with
      | Some data => (Ok (), write dest data w)
      | None => (Throw (ENOENT src), w)
      end
  | Rm path =>
      match fs w !! path with
      | Some _ => (Ok (), {| fs := delete path (fs w); console := console w |})
      | None => (Throw (ENOENT path), w)
      end
  end.

(** Calling an operation starts it: its effect takes place whether or not
    the promise is awaited, and the call itself does not throw. *)
Definition start (op : file_op) : M promise := fun w =>
  let '(r, w') := perform op w in (Ok (op, r), w').

Fixpoint start_all (ops : list file_op) : M (list promise) :=
  match ops with
  | [] => mret []
  | op :: ops' => p ← start op; ps ← start_all ops'; mret (p :: ps)
  end.

(** [await Promise.all(promises)]: rejects when one of them does. *)
Fixpoint Promise_all (promises : list promise) : M unit :=
  match promises with
  | [] => mret ()
  | (_, Ok _) :: ps => Promise_all ps
  | (_, Throw e) :: _ => lift (Throw e)
  end.

(** [PackageJson.load(path)] *)
Definition PackageJson_load (path : string) : M PackageJson :=
  let file := path_join H [path; "package.json"] in
  data ← readFile file;
  c ← lift (PackageJson_parse H data);
  mret {| filename := file; content := c |}.

(** [console.log(message)] *)
Definition console_log (message : string) : M unit := fun w =>
  (Ok (), {| fs := fs w; console := console w ++ [message] |}).

(** [execSync(command, { cwd, stdio: 'inherit' })]: the command works on
    the files; it writes to the terminal of the process, not through
    [console.log]. *)
Definition execSync (command cwd : string) : M unit := fun w =>
  match execSync_inherit H command cwd (fs w) with
  | Ok fs' => (Ok (), {| fs := fs'; console := console w |})
  | Throw e => (Throw e, w)
  end.

(** *** remix.init/index.js, lines 11-18 *)
Definition cleanupDeployWorkflow (deployWorkflow : value) (deployWorkflowPath : string)
    : M (value * list promise) :=
  jobs ← lift (get_prop deployWorkflow "jobs");
  jobs ← lift (delete_prop jobs "typecheck");
  deploy ← lift (get_prop jobs "deploy");
  needs ← lift (get_prop deploy "needs");
  needs ← lift (array_filter needs (fun need => strict_ne_string need "typecheck"));
  deploy ← lift (set_prop deploy "needs" needs);
  jobs ← lift (set_prop jobs "deploy" deploy);
  deployWorkflow ← lift (set_prop deployWorkflow "jobs" jobs);
  p ← start (WriteFile deployWorkflowPath (YAML_stringify H deployWorkflow));
  mret (deployWorkflow, [p]).

(** *** lines 20-27 *)
Definition cleanupVitestConfig (vitestConfig : value) (vitestConfigPath : string)
    : M (list promise) :=
  newVitestConfig ← lift (string_replace vitestConfig "setup-test-env.ts" "setup-test-env.js");
  p ← start (WriteFile vitestConfigPath newVitestConfig);
  mret [p].

(** *** lines 29-31 *)

(** The class [[.*+?^${}()|[\]\\]]. *)
Definition special (c : ascii) : bool :=
  existsb (Ascii.eqb c)
    ["."; "*"; "+"; "?"; "^"; "$"; "{"; "}"; "("; ")"; "|"; "["; "]"; "\"]%char.

Definition escapeRegExp (s : string) : string :=
  JS.replace_all s [special] "\$&".

(** *** lines 33-60 *)

(** The keys of the table: the managers the caller may name.  Any other
    identifier finds no entry of the table to call; the type leaves those
    out. *)
Inductive PackageManager : Type := npm | pnpm | yarn.

(** The profile of a manager.  [run] takes the script name and the optional
    arguments ([None] when the argument is left out). *)
Record profile : Type := {
  exec : string;
  lockfile : string;
  run : string -> option string -> string;
}.

(** [args ? a : b] and [args || ''] on an optional string: [undefined] and
    the empty string are falsy. *)
Definition truthy (args : option string) : bool :=
  match args with
  | Some (String _ _) => true
  | _ => false
  end.

Definition or_empty (args : option string) : string :=
  if truthy args then default "" args else "".

Definition dashed (args : option string) : string :=
  if truthy args then "-- " +:+ default "" args else "".

(** *** lines 62-64 *)
Definition getPackageManagerVersion (packageManager : string) : result string :=
  out ← execSync_stdout H (packageManager +:+ " --version");
  mret (JS.trim out).

Definition getPackageManagerCommand (packageManager : PackageManager) : result profile :=
  match packageManager with
  | npm =>
      mret {| exec := "npx";
              lockfile := "package-lock.json";
              run := fun script args => "npm run " +:+ script +:+ " " +:+ dashed args |}
  | pnpm =>
      pnpmVersion ← getPackageManagerVersion "pnpm";
      includeDoubleDashBeforeArgs ← semver_lt H pnpmVersion "7.0.0";
      useExec ← semver_gte H pnpmVersion "6.13.0";
      mret {| exec := if useExec : bool then "pnpm exec" else "pnpx";
              lockfile := "pnpm-lock.yaml";
              run := fun script args =>
                if includeDoubleDashBeforeArgs : bool
                then "pnpm run " +:+ script +:+ " " +:+ dashed args
                else "pnpm run " +:+ script +:+ " " +:+ or_empty args |}
  | yarn =>
      mret {| exec := "yarn";
              lockfile := "yarn.lock";
              run := fun script args => "yarn " +:+ script +:+ " " +:+ or_empty args |}
  end.

(** *** line 66: [crypto.randomBytes(length).toString('hex')] *)

Definition randomBytes (length : nat) : list Byte.byte :=
  map (entropy H) (seq 0 length).

Definition hex_digit (n : N) : ascii :=
  if (n <? 10)%N then ascii_of_N (48 + n) else ascii_of_N (97 + (n - 10)).

Fixpoint toString_hex (bytes : list Byte.byte) : string :=
  match bytes with
  | [] => EmptyString
  | b :: bytes' =>
      let n := Byte.to_N b in
      String (hex_digit (n / 16)) (String (hex_digit (n mod 16)) (toString_hex bytes'))
  end.

Definition getRandomString (length : nat) : string :=
  toString_hex (randomBytes length).

(** *** lines 68-75: a typed run reads nothing and resolves to [undefined] *)
Definition readFileIfNotTypeScript (isTypeScript : bool) (filePath : string)
    (parseFunction : string -> result value) : M value :=
  if isTypeScript then mret VUndefined
  else data ← readFile filePath; lift (parseFunction data).

(** *** lines 77-82 *)
Definition removeUnusedDependencies (dependencies : value)
    (unusedDependencies : list string) : result value :=
  entries ← own_entries dependencies;
  mret (VObj (Obj.fromEntries
    (List.filter (fun kv => negb (existsb (String.eqb (fst kv)) unusedDependencies))
       entries))).

(** *** lines 84-99 *)
Definition updatePackageJson (APP_NAME : string) (isTypeScript : bool)
    (packageJson : PackageJson) : result PackageJson :=
  (* const { devDependencies, scripts: { typecheck, validate, ...scripts } } *)
  devDependencies ← get_prop (content packageJson) "devDependencies";
  scripts_ ← get_prop (content packageJson) "scripts";
  entries ← own_entries scripts_;
  typecheck ← get_prop scripts_ "typecheck";
  validate ← get_prop scripts_ "validate";
  let scripts := Obj.delete (Obj.delete entries "typecheck") "validate" in
  (* packageJson.update({ name, devDependencies, scripts }) *)
  devDependencies' ←
    (if isTypeScript then mret devDependencies
     else removeUnusedDependencies devDependencies ["ts-node"]);
  scripts' ←
    (if isTypeScript
     then mret (Obj.set (Obj.set scripts "typecheck" typecheck) "validate" validate)
     else v ← string_replace validate " typecheck" "";
          mret (Obj.set scripts "validate" (VStr v)));
  c ← PackageJson_update H (content packageJson)
        (VObj [("name", VStr APP_NAME);
               ("devDependencies", devDependencies');
               ("scripts", VObj scripts')]);
  mret {| filename := filename packageJson; content := c |}.

(** *** lines 101-198: [main] *)

Definition REPLACER : string := "symphonic-stack-template".

Definition DIR_NAME (rootDirectory : string) : string :=
  path_basename H rootDirectory.

Definition SUFFIX : string := getRandomString 2.

Definition in_range (lo hi : N) (c : ascii) : bool :=
  ((lo <=? N_of_ascii c) && (N_of_ascii c <=? hi))%N.

(** The class [[a-zA-Z0-9-_]] and the negated class of line 126. *)
Definition allowed (c : ascii) : bool :=
  in_range 97 122 c || in_range 65 90 c || in_range 48 57 c
  || Ascii.eqb c "-" || Ascii.eqb c "_".

Definition not_allowed (c : ascii) : bool := negb (allowed c).

Definition APP_NAME (rootDirectory : string) : string :=
  JS.replace_all (DIR_NAME rootDirectory +:+ "-" +:+ SUFFIX) [not_allowed] "-".

(** The paths of lines 105-117. *)
Definition README_PATH (rootDirectory : string) : string :=
  path_join H [rootDirectory; "README.md"].
Definition FLY_TOML_PATH (rootDirectory : string) : string :=
  path_join H [rootDirectory; "fly.toml"].
Definition DEPLOY_WORKFLOW_PATH (rootDirectory : string) : string :=
  path_join H [rootDirectory; ".github"; "workflows"; "deploy.yml"].
Definition DOCKERFILE_PATH (rootDirectory : string) : string :=
  path_join H [rootDirectory; "Dockerfile"].
Definition FILE_EXTENSION (isTypeScript : bool) : string :=
  if isTypeScript then "ts" else "js".
Definition VITEST_CONFIG_PATH (isTypeScript : bool) (rootDirectory : string) : string :=
  path_join H [rootDirectory; "vitest.config." +:+ FILE_EXTENSION isTypeScript].

(** What the six reads of lines 128-144 resolve to. *)
Record reads : Type := {
  prodContent : string;
  readme : string;
  dockerfile : string;
  deployWorkflow : value;
  vitestConfig : value;
  packageJson : PackageJson;
}.

(** Lines 135-144.  The reads change nothing, so the order in which they
    settle does not show; the join rejects with the error of a read that
    failed (here the first one in the order of the array). *)
Definition read_phase (isTypeScript : bool) (rootDirectory : string) : M reads :=
  a ← readFile (FLY_TOML_PATH rootDirectory);
  b ← readFile (README_PATH rootDirectory);
  c ← readFile (DOCKERFILE_PATH rootDirectory);
  d ← readFileIfNotTypeScript isTypeScript (DEPLOY_WORKFLOW_PATH rootDirectory) (YAML_parse H);
  e ← readFileIfNotTypeScript isTypeScript (VITEST_CONFIG_PATH isTypeScript rootDirectory)
        (fun s => mret (VStr s));
  f ← PackageJson_load rootDirectory;
  mret {| prodContent := a; readme := b; dockerfile := c;
          deployWorkflow := d; vitestConfig := e; packageJson := f |}.

(** Lines 146-147. *)
Definition prodToml (prodContent : string) (APP_NAME : string) : result value :=
  parsed ← toml_parse H prodContent;
  app ← get_prop parsed "app";
  app ← string_replace app REPLACER APP_NAME;
  set_prop parsed "app" (VStr app).

(** Lines 149-152. *)
Definition newReadme (readme : string) (APP_NAME : string) : result string :=
  rx ← JS.new_RegExp (escapeRegExp REPLACER);
  mret (JS.replace_all readme rx APP_NAME).

(** Lines 154-159. *)
Definition newDockerfile (pm : profile) (dockerfile : string) : result string :=
  match lockfile pm with
  | EmptyString => mret dockerfile
  | _ =>
      rx ← JS.new_RegExp (escapeRegExp "ADD package.json");
      mret (JS.replace_all dockerfile rx ("ADD package.json " +:+ lockfile pm))
  end.

(** The six operations the array literal of lines 163-173 starts. *)
Definition fileOperations (rootDirectory toml readme dockerfile : string)
    (pj : PackageJson) : list file_op :=
  [ WriteFile (FLY_TOML_PATH rootDirectory) toml;
    WriteFile (README_PATH rootDirectory) readme;
    WriteFile (DOCKERFILE_PATH rootDirectory) dockerfile;
    SavePackageJson pj;
    CopyFile (path_join H [rootDirectory; "remix.init"; "gitignore"])
             (path_join H [rootDirectory; ".gitignore"]);
    Rm (path_join H [rootDirectory; ".github"; "dependabot.yml"]) ].

(** Lines 146-183: the transformations, then the array of started
    operations with what the untyped variant pushes onto it.  An operation
    is started where it is called, so what was started before a later
    statement throws has taken place. *)
Definition fileOperationPromises (isTypeScript : bool) (pm : profile)
    (rootDirectory : string) (r : reads) : M (list promise) :=
  let APP_NAME := APP_NAME rootDirectory in
  prodToml ← lift (prodToml (prodContent r) APP_NAME);
  newReadme ← lift (newReadme (readme r) APP_NAME);
  newDockerfile ← lift (newDockerfile pm (dockerfile r));
  packageJson ← lift (updatePackageJson APP_NAME isTypeScript (packageJson r));
  promises ← start_all
    (fileOperations rootDirectory (toml_stringify H prodToml) newReadme newDockerfile
       packageJson);
  pushed ←
    (if isTypeScript then (mret [] : M (list promise))
     else
       '(_, p1) ← cleanupDeployWorkflow (deployWorkflow r) (DEPLOY_WORKFLOW_PATH rootDirectory);
       p2 ← cleanupVitestConfig (vitestConfig r) (VITEST_CONFIG_PATH isTypeScript rootDirectory);
       mret (p1 ++ p2));
  mret (promises ++ pushed).

Definition newline : string := String (ascii_of_N 10) EmptyString.

(** The message of lines 192-197, without the emoji that ends its first
    line (its two code units lie outside those of the embedding): the
    space before the emoji ends the line here. *)
Definition banner (pm : profile) : string :=
  JS.trim ("Setup is complete. You're now ready to rock and roll " +:+ newline +:+ newline
           +:+ "Start development with `" +:+ run pm "dev" None +:+ "`" +:+ newline
           +:+ "    ").

Definition main (isTypeScript : bool) (packageManager : PackageManager)
    (rootDirectory : string) : M unit :=
  pm ← lift (getPackageManagerCommand packageManager);
  r ← read_phase isTypeScript rootDirectory;
  promises ← fileOperationPromises isTypeScript pm rootDirectory r;
  _ ← Promise_all promises;
  _ ← execSync (run pm "format" (Some "--loglevel warn")) rootDirectory;
  console_log (banner pm).

End Script.

(** ** A model of [semver] (strict mode) *)

Module SemVer.

Inductive identifier : Type :=
  | Numeric (n : N)
  | Alphanumeric (s : string).

Record version : Type := {
  major : N;
  minor : N;
  patch : N;
  prerelease : list identifier;
}.

Definition MAX_LENGTH : nat := 256.
Definition MAX_SAFE_INTEGER : N := 9007199254740991.

Definition is_digit (c : ascii) : bool :=
  ((48 <=? N_of_ascii c) && (N_of_ascii c <=? 57))%N.

Definition is_letter_dash_number (c : ascii) : bool :=
  is_digit c
  || ((97 <=? N_of_ascii c) && (N_of_ascii c <=? 122))%N
  || ((65 <=? N_of_ascii c) && (N_of_ascii c <=? 90))%N
  || Ascii.eqb c "-".

(** [s] cut at the first [sep]: what is before it and, if there is one,
    what is after it. *)
Fixpoint cut (sep : ascii) (s : string) : string * option string :=
  match s with
  | EmptyString => (EmptyString, None)
  | String c s' =>
    if Ascii.eqb c sep then (EmptyString, Some s')
    else let '(a, b) := cut sep s' in (String c a, b)
  end.

Fixpoint digits_value (acc : N) (s : string) : N :=
  match s with
  | EmptyString => acc
  | String c s' => digits_value (10 * acc + (N_of_ascii c - 48)) s'
  end.

(** A numeric identifier: [0|[1-9]\d*], at most [MAX_SAFE_INTEGER]. *)
Definition numeric (s : string) : option N :=
  match s with
  | EmptyString => None
  | String c s' =>
    if JS.all_chars is_digit s && (negb (Ascii.eqb c "0") || String.eqb s' EmptyString)
    then let n := digits_value 0 s in
         if (n <=? MAX_SAFE_INTEGER)%N then Some n else None
    else None
  end.

(** A prerelease identifier: [0|[1-9]\d*], or letters, digits and hyphens
    with at least one that is not a digit.  The constructor keeps a numeric
    identifier as a number below [MAX_SAFE_INTEGER] and as its text from
    there on; [compareIdentifiers] reads either as a number, so [Numeric]
    holds the value written, whatever its size. *)
Definition prerelease_identifier (s : string) : option identifier :=
  match s with
  | EmptyString => None
  | String c s' =>
    if JS.all_chars is_digit s then
      if negb (Ascii.eqb c "0") || String.eqb s' EmptyString
      then Some (Numeric (digits_value 0 s))
      else None
    else if JS.all_chars is_letter_dash_number s then Some (Alphanumeric s)
    else None
  end.

Definition build_identifier (s : string) : bool :=
  negb (String.eqb s EmptyString) && JS.all_chars is_letter_dash_number s.

Definition strip_v (s : string) : string :=
  match s with
  | String "v" s' => s'
  | _ => s
  end.

(** [new SemVer(text)]: [v?MAJOR.MINOR.PATCH(-PRERELEASE)?(+BUILD)?]. *)
Definition parse (text : string) : option version :=
  if (MAX_LENGTH <? String.length text)%nat then None
  else
    let '(rest, build) := cut "+" (strip_v (JS.trim text)) in
    let '(main, pre) := cut "-" rest in
    if forallb build_identifier (from_option (JS.split ".") [] build) then
      match JS.split "." main with
      | [a; b; c] =>
          a ← numeric a; b ← numeric b; c ← numeric c;
          pre ← mapM prerelease_identifier (from_option (JS.split ".") [] pre);
          Some {| major := a; minor := b; patch := c; prerelease := pre |}
      | _ => None
      end
    else None.

(** The number [+id] of a numeric identifier: the double nearest to the
    value written, ties to the even one (the integers up to 2^53 are
    doubles; a version text has at most 256 characters, so the value is in
    the range of the doubles). *)
Definition to_double (n : N) : N :=
  if (N.size n <=? 53)%N then n
  else
    let shift := (N.size n - 53)%N in
    let q := N.shiftr n shift in
    let rest := N.land n (N.ones shift) in
    let half := N.shiftl 1 (shift - 1) in
    let q' := if (half <? rest)%N || ((rest =? half)%N && N.odd q) then (q + 1)%N else q in
    N.shiftl q' shift.

(** [a === b] on identifiers. *)
Definition same_identifier (a b : identifier) : bool :=
  match a, b with
  | Numeric x, Numeric y => (x =? y)%N
  | Alphanumeric x, Alphanumeric y => String.eqb x y
  | _, _ => false
  end.

Definition compareIdentifiers (a b : identifier) : comparison :=
  match a, b with
  | Numeric x, Numeric y => (to_double x ?= to_double y)%N
  | Numeric _, Alphanumeric _ => Lt
  | Alphanumeric _, Numeric _ => Gt
  | Alphanumeric x, Alphanumeric y => String.compare x y
  end.

(** The loop of [comparePre]: identical identifiers are passed over, the
    first pair that differs decides. *)
Fixpoint comparePre_from (a b : list identifier) : comparison :=
  match a, b with
  | [], [] => Eq
  | [], _ :: _ => Lt
  | _ :: _, [] => Gt
  | x :: a', y :: b' =>
      if same_identifier x y then comparePre_from a' b' else compareIdentifiers x y
  end.

(** A version with a prerelease comes before the same version without. *)
Definition comparePre (a b : version) : comparison :=
  match prerelease a, prerelease b with
  | _ :: _, [] => Lt
  | [], _ :: _ => Gt
  | [], [] => Eq
  | pa, pb => comparePre_from pa pb
  end.

Definition compareMain (a b : version) : comparison :=
  match (major a ?= major b)%N with
  | Eq => match (minor a ?= minor b)%N with
          | Eq => (patch a ?= patch b)%N
          | c => c
          end
  | c => c
  end.

Definition compare (a b : version) : comparison :=
  match compareMain a b with
  | Eq => comparePre a b
  | c => c
  end.

Definition compare_text (a b : string) : result comparison :=
  match parse a, parse b with
  | Some va, Some vb => Ok (compare va vb)
  | None, _ => Throw (TypeError ("Invalid Version: " +:+ a))
  | _, None => Throw (TypeError ("Invalid Version: " +:+ b))
  end.

Definition lt (a b : string) : result bool :=
  c ← compare_text a b; mret (match c with Lt => true | _ => false end).

Definition gte (a b : string) : result bool :=
  c ← compare_text a b; mret (match c with Lt => false | _ => true end).

End SemVer.

(** ** A fixture: a POSIX host and a freshly generated project *)

Module Fixture.

(** [path.basename] of POSIX: trailing slashes are dropped, then what
    follows the last slash is the name. *)
Fixpoint strip_slashes (s : string) : string :=
  match s with
  | EmptyString => EmptyString
  | String c s' => if Ascii.eqb c "/" then strip_slashes s' else s
  end.

Definition basename (p : string) : string :=
  let trimmed := String.rev (strip_slashes (String.rev p)) in
  default EmptyString (last (JS.split "/" trimmed)).

(** [path.join] on segments that need no normalisation. *)
Definition join (segments : list string) : string := String.concat "/" segments.

Definition manifest : value :=
  VObj [("name", VStr "symphonic-stack-template");
        ("scripts", VObj [("dev", VStr "remix dev");
                          ("format", VStr "prettier --write .");
                          ("typecheck", VStr "tsc");
                          ("validate", VStr "run-p lint typecheck test")]);
        ("devDependencies", VObj [("prettier", VStr "2.8.8");
                                  ("ts-node", VStr "10.9.1");
                                  ("typescript", VStr "5.0.4")])].

(** A manifest whose type-checking is split in two scripts. *)
Definition split_manifest : value :=
  VObj [("name", VStr "symphonic-stack-template");
        ("scripts", VObj [("lint", VStr "eslint .");
                          ("typecheck", VStr "run-p typecheck:*");
                          ("typecheck:app", VStr "tsc -p app");
                          ("typecheck:server", VStr "tsc -p server");
                          ("validate", VStr "run-s lint typecheck:app typecheck:server")]);
        ("devDependencies", VObj [("ts-node", VStr "10.9.1");
                                  ("typescript", VStr "5.0.4")])].

Definition workflow : value :=
  VObj [("name", VStr "Deploy");
        ("jobs", VObj [("lint", VObj [("steps", VArr [])]);
                       ("typecheck", VObj [("steps", VArr [])]);
                       ("deploy", VObj [("needs", VArr [VStr "lint"; VStr "typecheck"]);
                                        ("steps", VArr [])])])].

(** The parsers of the fixture read a document off a table of the texts
    of the project; every document is written back as its top-level keys. *)
Definition parse_table (name : string) (table : list (string * value)) (text : string)
    : result value :=
  match list_find (fun kv => String.eqb (fst kv) text) table with
  | Some (_, (_, v)) => Ok v
  | None => Throw (LibraryError name "syntax error")
  end.

Definition stringify (v : value) : string :=
  match v with
  | VObj o => String.concat "," (Obj.keys o)
  | _ => EmptyString
  end.

(** [update] of the fixture stores every key of the patch. *)
Definition update (c patch : value) : result value :=
  match c, patch with
  | VObj o, VObj p => Ok (VObj (Obj.spread o p))
  | _, _ => Throw (LibraryError "@npmcli/package-json" "Can not update without content")
  end.

Definition versions (pnpm_version : string) (command : string) : result string :=
  if String.eqb command "pnpm --version" then Ok (pnpm_version +:+ newline)
  else Throw (LibraryError "child_process" "command not found").

Definition host (pnpm_version : string) : Host := {|
  path_join := join;
  path_basename := basename;
  entropy := fun i => nth i [Byte.xab; Byte.x12] Byte.x00;
  execSync_stdout := versions pnpm_version;
  execSync_inherit := fun _ _ fs => Ok fs;
  semver_lt := SemVer.lt;
  semver_gte := SemVer.gte;
  toml_parse := parse_table "@iarna/toml"
    [("app = symphonic-stack-template", VObj [("app", VStr "symphonic-stack-template")])];
  toml_stringify := stringify;
  YAML_parse := parse_table "yaml" [("deploy", workflow)];
  YAML_stringify := stringify;
  PackageJson_parse := parse_table "@npmcli/package-json" [("manifest", manifest)];
  PackageJson_stringify := stringify;
  PackageJson_update := update;
|}.

(** The same host, its TOML parser reading every text as [doc]. *)
Definition host_with_toml (doc : value) : Host := {|
  path_join := join;
  path_basename := basename;
  entropy := fun i => nth i [Byte.xab; Byte.x12] Byte.x00;
  execSync_stdout := versions "8.6.2";
  execSync_inherit := fun _ _ fs => Ok fs;
  semver_lt := SemVer.lt;
  semver_gte := SemVer.gte;
  toml_parse := fun _ => Ok doc;
  toml_stringify := stringify;
  YAML_parse := parse_table "yaml" [("deploy", workflow)];
  YAML_stringify := stringify;
  PackageJson_parse := parse_table "@npmcli/package-json" [("manifest", manifest)];
  PackageJson_stringify := stringify;
  PackageJson_update := update;
|}.

(** The host of the fixture, its YAML parser reading every text as [doc]. *)
Definition host_with_yaml (doc : value) : Host := {|
  path_join := join;
  path_basename := basename;
  entropy := fun i => nth i [Byte.xab; Byte.x12] Byte.x00;
  execSync_stdout := versions "8.6.2";
  execSync_inherit := fun _ _ fs => Ok fs;
  semver_lt := SemVer.lt;
  semver_gte := SemVer.gte;
  toml_parse := parse_table "@iarna/toml"
    [("app = symphonic-stack-template", VObj [("app", VStr "symphonic-stack-template")])];
  toml_stringify := stringify;
  YAML_parse := fun _ => Ok doc;
  YAML_stringify := stringify;
  PackageJson_parse := parse_table "@npmcli/package-json" [("manifest", manifest)];
  PackageJson_stringify := stringify;
  PackageJson_update := update;
|}.

(** The files of the project in [/tmp/my-app]. *)
Definition project : files :=
  list_to_map
    [("/tmp/my-app/fly.toml", "app = symphonic-stack-template");
     ("/tmp/my-app/README.md", "# symphonic-stack-template, a symphonic-stack-template");
     ("/tmp/my-app/Dockerfile", "ADD package.json .npmrc ./");
     ("/tmp/my-app/.github/workflows/deploy.yml", "deploy");
     ("/tmp/my-app/.github/dependabot.yml", "version: 2");
     ("/tmp/my-app/vitest.config.js", "setupFiles: ./test/setup-test-env.ts");
     ("/tmp/my-app/vitest.config.ts", "setupFiles: ./test/setup-test-env.ts");
     ("/tmp/my-app/remix.init/gitignore", "node_modules");
     ("/tmp/my-app/package.json", "manifest")].

Definition initial : world := {| fs := project; console := [] |}.

(** The project without its Dockerfile. *)
Definition no_dockerfile : world :=
  {| fs := delete "/tmp/my-app/Dockerfile" project; console := [] |}.

(** What the reads of an untyped run resolve to on the project. *)
Definition untyped_reads : reads := {|
  prodContent := "app = symphonic-stack-template";
  readme := "# symphonic-stack-template, a symphonic-stack-template";
  dockerfile := "ADD package.json .npmrc ./";
  deployWorkflow := workflow;
  vitestConfig := VStr "setupFiles: ./test/setup-test-env.ts";
  packageJson := {| filename := "/tmp/my-app/package.json"; content := manifest |};
|}.

(** The same reads when the workflow parses to [doc]. *)
Definition untyped_reads_with (doc : value) : reads := {|
  prodContent := "app = symphonic-stack-template";
  readme := "# symphonic-stack-template, a symphonic-stack-template";
  dockerfile := "ADD package.json .npmrc ./";
  deployWorkflow := doc;
  vitestConfig := VStr "setupFiles: ./test/setup-test-env.ts";
  packageJson := {| filename := "/tmp/my-app/package.json"; content := manifest |};
|}.

Definition yarn_profile : profile := {|
  exec := "yarn";
  lockfile := "yarn.lock";
  run := fun script args => "yarn " +:+ script +:+ " " +:+ or_empty args;
|}.

End Fixture.


(** ** What the claims say, as predicates *)

(** [pat] occurs in [s]. *)
Definition occurs (pat s : string) : Prop := exists a b, s = a +:+ pat +:+ b.

(** The occurrence of [pat] after [a] in [a +:+ pat +:+ b] is the leftmost. *)
Definition leftmost (pat a b : string) : Prop :=
  forall a' b', a +:+ pat +:+ b = a' +:+ pat +:+ b' -> String.length a <= String.length a'.

(** [t] is [s] with its first occurrence of [pat], if any, replaced by [repl]. *)
Definition ReplacedFirst (pat repl s t : string) : Prop :=
  (~ occurs pat s /\ t = s)
  \/ (exists a b, s = a +:+ pat +:+ b /\ leftmost pat a b /\ t = a +:+ repl +:+ b).

(** [t] is [s] with every occurrence of [pat] replaced by [repl], the
    occurrences being taken from left to right. *)
Inductive ReplacedEvery (pat repl : string) : string -> string -> Prop :=
  | RE_done s : ~ occurs pat s -> ReplacedEvery pat repl s s
  | RE_next a b t :
      leftmost pat a b -> ReplacedEvery pat repl b t ->
      ReplacedEvery pat repl (a +:+ pat +:+ b) (a +:+ repl +:+ t).

Definition is_hex (c : ascii) : bool :=
  in_range 48 57 c || in_range 97 102 c.

Definition is_string (v : value) : Prop := exists s, v = VStr s.

(** What the script relies on when it calls [packageJson.update]: given a
    script map of strings the call returns, and the manifest then has that
    script map. *)
Definition stores_scripts (H : Host) : Prop :=
  forall c name devDependencies scripts,
    Forall (fun kv => is_string (snd kv)) scripts ->
    exists c',
      PackageJson_update H (VObj c)
        (VObj [("name", name); ("devDependencies", devDependencies);
               ("scripts", VObj scripts)]) = Ok (VObj c')
      /\ Obj.get c' "scripts" = VObj scripts.

Definition is_save (op : file_op) : bool :=
  match op with
  | SavePackageJson _ => true
  | _ => false
  end.

(** A replacement without a dollar sign stands for itself. *)
Definition plain (c : ascii) : bool := negb (Ascii.eqb c "$").

(** Every special character preceded by a backslash. *)
Fixpoint escaped (s : string) : string :=
  match s with
  | EmptyString => EmptyString
  | String c s' =>
    if special c then String "\" (String c (escaped s')) else String c (escaped s')
  end.

(** What line 126 does to one character. *)
Definition sanitize (c : ascii) : ascii := if not_allowed c then "-"%char else c.

(** The words a manager's commands begin with. *)
Definition invocation_prefix (pm : PackageManager) : string :=
  match pm with
  | npm => "npm run"
  | pnpm => "pnpm run"
  | yarn => "yarn"
  end.

(** [undefined] and [null]. *)
Definition nullish (v : value) : bool :=
  match v with
  | VUndefined | VNull => true
  | _ => false
  end.

(** A computation that leaves the files and the console as they are. *)
Definition pure {A} (m : M A) : Prop := forall w, snd (m w) = w.

(** A computation that throws from [w]. *)
Definition fails {A} (m : M A) (w : world) : Prop :=
  exists e w', m w = (Throw e, w').

(** What C1 says of the untyped variant. *)
Definition untyped_scripts_claim (pj' : PackageJson) : Prop :=
  exists c' scripts' validate,
    content pj' = VObj c'
    /\ Obj.get c' "scripts" = VObj scripts'
    /\ Obj.has scripts' "typecheck" = false
    /\ Obj.get scripts' "validate" = VStr validate
    /\ JS.includes "typecheck" validate = false.

(** What C10 says of the promises awaited at line 185: the save of the
    manifest is not one of them. *)
Definition saved_outside_batch (promises : list promise) : Prop :=
  Forall (fun p => is_save (fst p) = false) promises.

(** Lines 185-197: what [main] does with the array of promises once it is
    built, the await of [Promise.all] on the array, then the formatter and
    the message. *)
Definition await_and_finish (H : Host) (pm : profile) (rootDirectory : string)
    (promises : list promise) : M unit :=
  _ ← Promise_all promises;
  _ ← execSync H (run pm "format" (Some "--loglevel warn")) rootDirectory;
  console_log (banner pm).

(** ** Further notions used by the properties of the whole script *)

(** The number of characters of [s] that satisfy [p]. *)
Fixpoint count_chars (p : ascii -> bool) (s : string) : nat :=
  match s with
  | EmptyString => 0
  | String c s' => (if p c then 1 else 0) + count_chars p s'
  end.

(** The value of a hexadecimal digit, and the bytes a hexadecimal text
    stands for (what [Buffer.from(text, 'hex')] reads back). *)
Definition unhex_digit (c : ascii) : N :=
  if in_range 48 57 c then N_of_ascii c - 48 else N_of_ascii c - 87.

Fixpoint from_hex (s : string) : option (list Byte.byte) :=
  match s with
  | EmptyString => Some []
  | String c1 (String c2 s') =>
      b ← Byte.of_N (16 * unhex_digit c1 + unhex_digit c2);
      bs ← from_hex s';
      Some (b :: bs)
  | String _ EmptyString => None
  end.

(** The file an operation writes or removes. *)
Definition target (op : file_op) : string :=
  match op with
  | WriteFile path _ => path
  | SavePackageJson pj => filename pj
  | CopyFile _ dest => dest
  | Rm path => path
  end.

(** The files a run may write or remove. *)
Definition touched (H : Host) (isTypeScript : bool) (rootDirectory : string)
    (r : reads) : list string :=
  [ FLY_TOML_PATH H rootDirectory;
    README_PATH H rootDirectory;
    DOCKERFILE_PATH H rootDirectory;
    filename (packageJson r);
    path_join H [rootDirectory; ".gitignore"];
    path_join H [rootDirectory; ".github"; "dependabot.yml"];
    DEPLOY_WORKFLOW_PATH H rootDirectory;
    VITEST_CONFIG_PATH H isTypeScript rootDirectory ].

(** A computation that never calls [console.log]. *)
Definition silent {A} (m : M A) : Prop := forall w, console (snd (m w)) = console w.

(** A computation that changes no file outside [paths]. *)
Definition within {A} (paths : list string) (m : M A) : Prop :=
  forall w p, ~ In p paths -> fs (snd (m w)) !! p = fs w !! p.

(** A workflow document in which [jobs.deploy.needs] is a list. *)
Definition has_needs_list (doc : value) : Prop :=
  exists d jobs deploy needs,
    doc = VObj d /\ Obj.get d "jobs" = VObj jobs
    /\ Obj.get jobs "deploy" = VObj deploy /\ Obj.get deploy "needs" = VArr needs.

(** * Proofs *)

(** ** Runs on the fixture *)

Section Runs.

Example escapeRegExp_dockerfile : escapeRegExp "ADD package.json" = "ADD package\.json".
Proof. reflexivity. Qed.

Example escapeRegExp_syntax : escapeRegExp "a$b\c[d]" = "a\$b\\c\[d\]".
Proof. reflexivity. Qed.

Example replace_first_only :
  JS.replace "run-p typecheck lint typecheck" " typecheck" "" = "run-p lint typecheck".
Proof. reflexivity. Qed.

Example replace_dollar_patterns :
  JS.replace "abcabc" "b" "[$&|$`|$'|$$|$1]" = "a[b|a|cabc|$|$1]cabc".
Proof. reflexivity. Qed.

Example replace_all_no_overlap : JS.replace_all "aaa" (JS.literal "aa") "b" = "ba".
Proof. reflexivity. Qed.

Example APP_NAME_punctuation :
  APP_NAME (Fixture.host "8.6.2") "/tmp/my app!/x.y_z/" = "x-y_z-ab12".
Proof. reflexivity. Qed.

Example semver_prerelease_below : SemVer.lt "7.0.0-rc.1" "7.0.0" = Ok true.
Proof. reflexivity. Qed.

Example semver_large_prerelease :
  SemVer.lt "7.0.0-9007199254740993" "7.0.0" = Ok true
  /\ SemVer.compare_text "7.0.0-9007199254740993.1" "7.0.0-9007199254740992.2" = Ok Eq
  /\ SemVer.compare_text "7.0.0-9007199254740995" "7.0.0-9007199254740994" = Ok Gt
  /\ SemVer.lt "7.0.0-01" "7.0.0" = Throw (TypeError "Invalid Version: 7.0.0-01").
Proof. repeat split; vm_compute; reflexivity. Qed.

Example semver_threshold_reached : SemVer.gte "6.13.0" "6.13.0" = Ok true.
Proof. reflexivity. Qed.

Example semver_minor_numeric : SemVer.gte "6.9.0" "6.13.0" = Ok false.
Proof. reflexivity. Qed.

Example semver_invalid :
  SemVer.lt "garbage" "7.0.0" = Throw (TypeError "Invalid Version: garbage").
Proof. reflexivity. Qed.

Example pnpm_6_run :
  (fun p => (exec p, run p "format" (Some "--loglevel warn"), run p "dev" None))
    <$> getPackageManagerCommand (Fixture.host "6.9.0") pnpm
  = Ok ("pnpx", "pnpm run format -- --loglevel warn", "pnpm run dev ").
Proof. reflexivity. Qed.

Example pnpm_8_run :
  (fun p => (exec p, run p "format" (Some "--loglevel warn"), run p "dev" None))
    <$> getPackageManagerCommand (Fixture.host "8.6.2") pnpm
  = Ok ("pnpm exec", "pnpm run format --loglevel warn", "pnpm run dev ").
Proof. reflexivity. Qed.

(** The typed run with npm: the result, four of the files and the message. *)
Example main_typed_npm :
  let '(r, w) := main (Fixture.host "8.6.2") true npm "/tmp/my-app" Fixture.initial in
  r = Ok ()
  /\ fs w !! "/tmp/my-app/README.md" = Some "# my-app-ab12, a my-app-ab12"
  /\ fs w !! "/tmp/my-app/Dockerfile" = Some "ADD package.json package-lock.json .npmrc ./"
  /\ fs w !! "/tmp/my-app/.gitignore" = Some "node_modules"
  /\ fs w !! "/tmp/my-app/.github/dependabot.yml" = None
  /\ fs w !! "/tmp/my-app/vitest.config.ts" = Some "setupFiles: ./test/setup-test-env.ts"
  /\ length (console w) = 1.
Proof. vm_compute. repeat split; reflexivity. Qed.

(** The untyped run with pnpm rewrites the test configuration as well. *)
Example main_untyped_pnpm :
  let '(r, w) := main (Fixture.host "8.6.2") false pnpm "/tmp/my-app" Fixture.initial in
  r = Ok ()
  /\ fs w !! "/tmp/my-app/Dockerfile" = Some "ADD package.json pnpm-lock.yaml .npmrc ./"
  /\ fs w !! "/tmp/my-app/vitest.config.js" = Some "setupFiles: ./test/setup-test-env.js"
  /\ fs w !! "/tmp/my-app/.github/workflows/deploy.yml" = Some "name,jobs".
Proof. vm_compute. repeat split; reflexivity. Qed.

(** A failing delete in the last phase: the run throws, the other operations
    of the array have taken place. *)
Example main_without_dependabot :
  let w0 := {| fs := delete "/tmp/my-app/.github/dependabot.yml" Fixture.project;
               console := [] |} in
  let '(r, w) := main (Fixture.host "8.6.2") true yarn "/tmp/my-app" w0 in
  r = Throw (ENOENT "/tmp/my-app/.github/dependabot.yml")
  /\ fs w !! "/tmp/my-app/README.md" = Some "# my-app-ab12, a my-app-ab12"
  /\ console w = [].
Proof. vm_compute. repeat split; reflexivity. Qed.

End Runs.


(** ** Strings *)

Section StringFacts.

Lemma append_nil_r s : s +:+ EmptyString = s.
Proof. induction s as [|c s IH]; simpl; congruence. Qed.

Lemma append_assoc s t u : (s +:+ t) +:+ u = s +:+ t +:+ u.
Proof. induction s as [|c s IH]; simpl; congruence. Qed.

Lemma length_append s t :
  String.length (s +:+ t) = String.length s + String.length t.
Proof. induction s as [|c s IH]; simpl; lia. Qed.

Lemma snoc_append s c t : JS.snoc s c +:+ t = s +:+ String c t.
Proof. unfold JS.snoc. now rewrite append_assoc. Qed.

Lemma drop_append s t : JS.drop (String.length s) (s +:+ t) = t.
Proof. induction s as [|c s IH]; simpl; auto. Qed.

Lemma starts_with_spec p s :
  JS.starts_with p s = true <-> exists t, s = p +:+ t.
Proof.
  unfold JS.starts_with. revert s.
  induction p as [|c p IH]; intros s; simpl.
  - split; [eauto | now destruct s].
  - destruct s as [|d s]; simpl.
    + split; [discriminate | intros [t Ht]; discriminate].
    + destruct (ascii_dec c d) as [->|Hne].
      * rewrite IH. split; intros [t Ht]; exists t; congruence.
      * split; [discriminate | intros [t Ht]; congruence].
Qed.

Lemma starts_with_false p s :
  JS.starts_with p s = false <-> ~ exists t, s = p +:+ t.
Proof.
  rewrite <- starts_with_spec. destruct (JS.starts_with p s); split; intuition congruence.
Qed.

Lemma match_here_literal p s :
  JS.match_here (JS.literal p) s = JS.starts_with p s.
Proof.
  unfold JS.literal, JS.starts_with. revert s.
  induction p as [|c p IH]; intros s; simpl.
  - now destruct s.
  - destruct s as [|d s]; simpl; [reflexivity|].
    rewrite IH. destruct (ascii_dec c d) as [->|Hne].
    + now rewrite Ascii.eqb_refl.
    + apply Ascii.eqb_neq in Hne. now rewrite Hne.
Qed.

Lemma length_literal p : length (JS.literal p) = String.length p.
Proof.
  unfold JS.literal. rewrite length_map.
  induction p as [|c p IH]; simpl; congruence.
Qed.

Lemma GetSubstitution_plain matched before after r :
  JS.all_chars plain r = true ->
  JS.GetSubstitution matched before after r = r.
Proof.
  induction r as [|c r IH]; simpl; [reflexivity|].
  intros [Hc Hr]%andb_prop. unfold plain in Hc.
  apply negb_true_iff in Hc. rewrite Hc. now rewrite IH.
Qed.

Lemma all_chars_append p s t :
  JS.all_chars p (s +:+ t) = JS.all_chars p s && JS.all_chars p t.
Proof. induction s as [|c s IH]; simpl; [reflexivity|]. now rewrite IH, andb_assoc. Qed.

Lemma all_chars_impl (p q : ascii -> bool) s :
  (forall c, p c = true -> q c = true) ->
  JS.all_chars p s = true -> JS.all_chars q s = true.
Proof.
  intros Hpq. induction s as [|c s IH]; simpl; [reflexivity|].
  intros [Hc Hs]%andb_prop. now rewrite (Hpq _ Hc), IH.
Qed.

Lemma all_chars_map_chars p f s :
  (forall c, p (f c) = true) -> JS.all_chars p (JS.map_chars f s) = true.
Proof. intros Hf. induction s as [|c s IH]; simpl; [reflexivity|]. now rewrite Hf, IH. Qed.

Lemma map_chars_ext f g s :
  (forall c, f c = g c) -> JS.map_chars f s = JS.map_chars g s.
Proof. intros Hfg. induction s as [|c s IH]; simpl; [reflexivity|]. now rewrite Hfg, IH. Qed.

Lemma length_map_chars f s : String.length (JS.map_chars f s) = String.length s.
Proof. induction s as [|c s IH]; simpl; congruence. Qed.

(** *** Occurrences *)

Lemma occurs_cons pat c s :
  occurs pat (String c s) -> JS.starts_with pat (String c s) = true \/ occurs pat s.
Proof.
  intros (a & b & Heq). destruct a as [|d a]; simpl in Heq.
  - left. apply starts_with_spec. eauto.
  - right. injection Heq as _ ->. now exists a, b.
Qed.

Lemma not_occurs_cons pat c s :
  JS.starts_with pat (String c s) = false -> ~ occurs pat s -> ~ occurs pat (String c s).
Proof. intros Hp Hs [Hc|Hc]%occurs_cons; [congruence | auto]. Qed.

Lemma not_occurs_empty pat : pat <> EmptyString -> ~ occurs pat EmptyString.
Proof.
  intros Hne (a & b & Heq). destruct a; [|discriminate].
  destruct pat; [congruence | discriminate].
Qed.

Lemma includes_spec pat s : JS.includes pat s = true <-> occurs pat s.
Proof.
  induction s as [|c s IH].
  - cbn [JS.includes]. rewrite orb_false_r, starts_with_spec. split.
    + intros [t Ht]. now exists EmptyString, t.
    + intros (a & b & Heq). destruct a; [now exists b | discriminate].
  - cbn [JS.includes]. rewrite orb_true_iff, IH. split.
    + intros [[t Ht]%starts_with_spec | (a & b & ->)].
      * now exists EmptyString, t.
      * now exists (String c a), b.
    + apply occurs_cons.
Qed.

Lemma leftmost_here pat b : leftmost pat EmptyString b.
Proof. intros a' b' _. simpl. lia. Qed.

Lemma leftmost_cons pat c a b :
  JS.starts_with pat (String c (a +:+ pat +:+ b)) = false ->
  leftmost pat a b -> leftmost pat (String c a) b.
Proof.
  intros Hp Hl a' b' Heq. destruct a' as [|d a']; simpl in Heq.
  - apply starts_with_false in Hp. destruct Hp. exists b'. exact Heq.
  - injection Heq as _ Heq. apply Hl in Heq. simpl. lia.
Qed.

Lemma ReplacedEvery_cons pat repl c s t :
  JS.starts_with pat (String c s) = false ->
  ReplacedEvery pat repl s t -> ReplacedEvery pat repl (String c s) (String c t).
Proof.
  intros Hp Hr. destruct Hr as [s Hno | a b t Hl Hr].
  - constructor. now apply not_occurs_cons.
  - change (ReplacedEvery pat repl (String c a +:+ pat +:+ b) (String c a +:+ repl +:+ t)).
    constructor; [|assumption]. now apply leftmost_cons.
Qed.

Lemma ReplacedFirst_cons pat repl c s t :
  JS.starts_with pat (String c s) = false ->
  ReplacedFirst pat repl s t -> ReplacedFirst pat repl (String c s) (String c t).
Proof.
  intros Hp [[Hno ->] | (a & b & -> & Hl & ->)].
  - left. split; [now apply not_occurs_cons | reflexivity].
  - right. exists (String c a), b. repeat split. now apply leftmost_cons.
Qed.

End StringFacts.

(** ** [String.prototype.replace] *)

Section ReplaceFacts.

Lemma starts_with_drop pat s :
  JS.starts_with pat s = true -> s = pat +:+ JS.drop (String.length pat) s.
Proof.
  intros [t ->]%starts_with_spec. now rewrite drop_append.
Qed.

Lemma replace_from_unfold pat repl before s :
  JS.replace_from pat repl before s =
  if JS.starts_with pat s then
    Some (JS.GetSubstitution pat before (JS.drop (String.length pat) s) repl
          +:+ JS.drop (String.length pat) s)
  else
    match s with
    | EmptyString => None
    | String c s' => String c <$> JS.replace_from pat repl (JS.snoc before c) s'
    end.
Proof. destruct s; reflexivity. Qed.

Lemma replace_from_spec pat repl s :
  JS.all_chars plain repl = true ->
  forall before,
    match JS.replace_from pat repl before s with
    | Some t => exists a b, s = a +:+ pat +:+ b /\ leftmost pat a b /\ t = a +:+ repl +:+ b
    | None => ~ occurs pat s
    end.
Proof.
  intros Hplain. induction s as [|c s IH]; intros before.
  - rewrite replace_from_unfold. destruct (JS.starts_with pat EmptyString) eqn:Hp.
    + apply starts_with_drop in Hp. rewrite GetSubstitution_plain by assumption.
      exists EmptyString, (JS.drop (String.length pat) EmptyString).
      split; [assumption|]. split; [apply leftmost_here | reflexivity].
    + intros (a & b & Heq). destruct a; [|discriminate].
      apply starts_with_false in Hp. apply Hp. now exists b.
  - rewrite replace_from_unfold. destruct (JS.starts_with pat (String c s)) eqn:Hp.
    + apply starts_with_drop in Hp. rewrite GetSubstitution_plain by assumption.
      exists EmptyString, (JS.drop (String.length pat) (String c s)).
      split; [assumption|]. split; [apply leftmost_here | reflexivity].
    + specialize (IH (JS.snoc before c)).
      destruct (JS.replace_from pat repl (JS.snoc before c) s) as [t|]; simpl.
      * destruct IH as (a & b & -> & Hl & ->).
        exists (String c a), b. repeat split. now apply leftmost_cons.
      * now apply not_occurs_cons.
Qed.

Lemma replace_spec pat repl s :
  JS.all_chars plain repl = true ->
  ReplacedFirst pat repl s (JS.replace s pat repl).
Proof.
  intros Hplain. unfold JS.replace.
  pose proof (replace_from_spec pat repl s Hplain EmptyString) as Hs.
  destruct (JS.replace_from pat repl EmptyString s) as [t|]; simpl.
  - right. exact Hs.
  - left. split; [exact Hs | reflexivity].
Qed.

Lemma replace_all_from_cons rx repl before c s :
  JS.replace_all_from rx repl before 0 (String c s) =
  if JS.match_here rx (String c s) then
    JS.GetSubstitution (JS.take (length rx) (String c s)) before
      (JS.drop (length rx) (String c s)) repl
    +:+ match rx with
        | [] => String c (JS.replace_all_from rx repl (JS.snoc before c) 0 s)
        | _ :: rx' => JS.replace_all_from rx repl (JS.snoc before c) (length rx') s
        end
  else String c (JS.replace_all_from rx repl (JS.snoc before c) 0 s).
Proof. reflexivity. Qed.

(** Passing over the rest of a match. *)
Lemma replace_all_from_skip rx repl u t :
  forall before,
    JS.replace_all_from rx repl before (String.length u) (u +:+ t) =
    JS.replace_all_from rx repl (before +:+ u) 0 t.
Proof.
  induction u as [|c u IH]; intros before.
  - now rewrite append_nil_r.
  - simpl. rewrite IH. now rewrite snoc_append.
Qed.

Lemma replace_all_literal_spec p0 pat' repl :
  JS.all_chars plain repl = true ->
  forall n s before, String.length s <= n ->
    ReplacedEvery (String p0 pat') repl s
      (JS.replace_all_from (JS.literal (String p0 pat')) repl before 0 s).
Proof.
  intros Hplain. set (pat := String p0 pat').
  induction n as [|n IH]; intros s before Hlen.
  - destruct s; [|simpl in Hlen; lia].
    constructor. now apply not_occurs_empty.
  - destruct s as [|c s].
    + constructor. now apply not_occurs_empty.
    + rewrite replace_all_from_cons, match_here_literal.
      destruct (JS.starts_with pat (String c s)) eqn:Hp.
      * apply starts_with_spec in Hp as [b Hb].
        rewrite GetSubstitution_plain by assumption.
        injection Hb as -> ->.
        change (JS.literal pat) with (Ascii.eqb p0 :: JS.literal pat') at 1.
        cbv iota. rewrite length_literal, replace_all_from_skip.
        change (String p0 (pat' +:+ b)) with (EmptyString +:+ pat +:+ b).
        change (repl +:+ ?t) with (EmptyString +:+ repl +:+ t).
        constructor; [apply leftmost_here|].
        apply IH. simpl in Hlen. rewrite length_append in Hlen. lia.
      * apply ReplacedEvery_cons; [assumption|].
        apply IH. simpl in Hlen. lia.
Qed.

(** A global replacement by a literal pattern replaces every occurrence. *)
Lemma replace_all_spec pat repl s :
  pat <> EmptyString -> JS.all_chars plain repl = true ->
  ReplacedEvery pat repl s (JS.replace_all s (JS.literal pat) repl).
Proof.
  intros Hne Hplain. destruct pat as [|p0 pat']; [congruence|].
  now apply (replace_all_literal_spec p0 pat' repl Hplain (String.length s)).
Qed.

(** A global replacement of a character class by a hyphen. *)
Lemma replace_all_class p s :
  forall before,
    JS.replace_all_from [p] "-" before 0 s =
    JS.map_chars (fun c => if p c then "-"%char else c) s.
Proof.
  induction s as [|c s IH]; intros before; [reflexivity|].
  rewrite replace_all_from_cons. simpl JS.match_here. rewrite andb_true_r.
  destruct (p c) eqn:Hc; simpl; now rewrite IH, Hc.
Qed.

End ReplaceFacts.

(** ** [escapeRegExp] and the patterns built from it *)

Section EscapeFacts.

Lemma special_SyntaxCharacter c : special c = JS.SyntaxCharacter c.
Proof. destruct c as [[] [] [] [] [] [] [] []]; reflexivity. Qed.

Lemma special_backslash c : special c = false -> Ascii.eqb c "\" = false.
Proof.
  intros Hc. destruct (Ascii.eqb_spec c "\") as [->|]; [|reflexivity].
  vm_compute in Hc. discriminate.
Qed.

Lemma escapeRegExp_from s :
  forall before, JS.replace_all_from [special] "\$&" before 0 s = escaped s.
Proof.
  induction s as [|c s IH]; intros before; [reflexivity|].
  rewrite replace_all_from_cons. simpl JS.match_here. rewrite andb_true_r.
  destruct (special c) eqn:Hc; simpl; now rewrite IH, Hc.
Qed.

Lemma escapeRegExp_escaped s : escapeRegExp s = escaped s.
Proof. apply escapeRegExp_from. Qed.

(** The pattern built from an escaped text matches that text and nothing
    else: no character of it is read as pattern syntax. *)
Lemma parse_pattern_escaped s :
  JS.parse_pattern (escaped s) = Some (JS.literal s).
Proof.
  induction s as [|c s IH]; [reflexivity|].
  simpl. destruct (special c) eqn:Hc.
  - simpl. rewrite <- special_SyntaxCharacter, Hc, IH. reflexivity.
  - cbn [JS.parse_pattern]. rewrite (special_backslash _ Hc).
    rewrite <- special_SyntaxCharacter, Hc, IH. reflexivity.
Qed.

Lemma new_RegExp_escapeRegExp s :
  JS.new_RegExp (escapeRegExp s) = Ok (JS.literal s).
Proof.
  unfold JS.new_RegExp. now rewrite escapeRegExp_escaped, parse_pattern_escaped.
Qed.

End EscapeFacts.

(** ** The name generator *)

Section NameFacts.
Context (H : Host).

Lemma length_toString_hex bytes :
  String.length (toString_hex bytes) = 2 * length bytes.
Proof. induction bytes as [|b bytes IH]; simpl; lia. Qed.

Lemma hex_digits_of_byte b :
  is_hex (hex_digit (Byte.to_N b / 16)) && is_hex (hex_digit (Byte.to_N b mod 16)) = true.
Proof. destruct b; reflexivity. Qed.

Lemma toString_hex_is_hex bytes : JS.all_chars is_hex (toString_hex bytes) = true.
Proof.
  induction bytes as [|b bytes IH]; [reflexivity|].
  cbn [toString_hex JS.all_chars]. rewrite IH, andb_true_r. apply hex_digits_of_byte.
Qed.

Lemma length_randomBytes n : length (randomBytes H n) = n.
Proof. unfold randomBytes. now rewrite length_map, length_seq. Qed.

Lemma length_getRandomString n : String.length (getRandomString H n) = 2 * n.
Proof. unfold getRandomString. now rewrite length_toString_hex, length_randomBytes. Qed.

Lemma allowed_sanitize c : allowed (sanitize c) = true.
Proof.
  unfold sanitize, not_allowed. destruct (allowed c) eqn:Hc; simpl; [assumption | reflexivity].
Qed.

Lemma APP_NAME_sanitized rootDirectory :
  APP_NAME H rootDirectory =
  JS.map_chars sanitize (DIR_NAME H rootDirectory +:+ "-" +:+ SUFFIX H).
Proof. unfold APP_NAME, JS.replace_all. apply replace_all_class. Qed.

Lemma APP_NAME_allowed rootDirectory :
  JS.all_chars allowed (APP_NAME H rootDirectory) = true.
Proof. rewrite APP_NAME_sanitized. apply all_chars_map_chars, allowed_sanitize. Qed.

Lemma allowed_plain c : allowed c = true -> plain c = true.
Proof.
  intros Hc. unfold plain. destruct (Ascii.eqb_spec c "$") as [->|]; [|reflexivity].
  vm_compute in Hc. discriminate.
Qed.

Lemma APP_NAME_plain rootDirectory :
  JS.all_chars plain (APP_NAME H rootDirectory) = true.
Proof. eapply all_chars_impl; [apply allowed_plain | apply APP_NAME_allowed]. Qed.

End NameFacts.

(** ** Objects *)

Section ObjectFacts.

Lemma get_set_eq o k v : Obj.get (Obj.set o k v) k = v.
Proof.
  induction o as [|[k' v'] o IH]; simpl.
  - now rewrite String.eqb_refl.
  - destruct (String.eqb k' k) eqn:Hk; simpl.
    + now rewrite String.eqb_refl.
    + now rewrite Hk.
Qed.

Lemma get_set_ne o k v k' : k <> k' -> Obj.get (Obj.set o k v) k' = Obj.get o k'.
Proof.
  intros Hne. apply String.eqb_neq in Hne.
  induction o as [|[k0 v0] o IH]; simpl.
  - now rewrite Hne.
  - destruct (String.eqb k0 k) eqn:Hk; simpl.
    + apply String.eqb_eq in Hk as ->. now rewrite Hne.
    + now rewrite IH.
Qed.

Lemma has_set_ne o k v k' : k <> k' -> Obj.has (Obj.set o k v) k' = Obj.has o k'.
Proof.
  intros Hne. apply String.eqb_neq in Hne.
  induction o as [|[k0 v0] o IH]; simpl.
  - now rewrite Hne.
  - destruct (String.eqb k0 k) eqn:Hk; simpl.
    + apply String.eqb_eq in Hk as ->. now rewrite Hne.
    + now rewrite IH.
Qed.

Lemma has_set_eq o k v : Obj.has (Obj.set o k v) k = true.
Proof.
  induction o as [|[k0 v0] o IH]; simpl.
  - now rewrite String.eqb_refl.
  - destruct (String.eqb k0 k) eqn:Hk; simpl.
    + now rewrite String.eqb_refl.
    + now rewrite Hk.
Qed.

Lemma keys_set_has o k v : Obj.has o k = true -> Obj.keys (Obj.set o k v) = Obj.keys o.
Proof.
  unfold Obj.keys. induction o as [|[k0 v0] o IH]; simpl; [discriminate|].
  destruct (String.eqb k0 k) eqn:Hk; simpl.
  - intros _. apply String.eqb_eq in Hk. now subst.
  - intros Hh. now rewrite IH.
Qed.

Lemma delete_cons o k k0 v0 :
  Obj.delete ((k0, v0) :: o) k =
  if String.eqb k0 k then Obj.delete o k else (k0, v0) :: Obj.delete o k.
Proof.
  unfold Obj.delete. simpl. now destruct (String.eqb k0 k).
Qed.

Lemma has_delete_eq o k : Obj.has (Obj.delete o k) k = false.
Proof.
  induction o as [|[k0 v0] o IH]; [reflexivity|].
  rewrite delete_cons. destruct (String.eqb k0 k) eqn:Hk; [assumption|].
  simpl. now rewrite Hk.
Qed.

Lemma has_delete_ne o k k' : k <> k' -> Obj.has (Obj.delete o k) k' = Obj.has o k'.
Proof.
  intros Hne. induction o as [|[k0 v0] o IH]; [reflexivity|].
  rewrite delete_cons. destruct (String.eqb k0 k) eqn:Hk; simpl.
  - apply String.eqb_eq in Hk as ->. apply String.eqb_neq in Hne. now rewrite Hne.
  - now rewrite IH.
Qed.

Lemma get_delete_ne o k k' : k <> k' -> Obj.get (Obj.delete o k) k' = Obj.get o k'.
Proof.
  intros Hne. induction o as [|[k0 v0] o IH]; [reflexivity|].
  rewrite delete_cons. destruct (String.eqb k0 k) eqn:Hk; simpl.
  - apply String.eqb_eq in Hk as ->. apply String.eqb_neq in Hne. now rewrite Hne.
  - now rewrite IH.
Qed.

Lemma has_false_get o k : Obj.has o k = false -> Obj.get o k = VUndefined.
Proof.
  induction o as [|[k0 v0] o IH]; simpl; [reflexivity|].
  destruct (String.eqb k0 k); simpl; [discriminate | assumption].
Qed.

Lemma strings_delete o k :
  Forall (fun kv => is_string (snd kv)) o ->
  Forall (fun kv => is_string (snd kv)) (Obj.delete o k).
Proof.
  intros Ho. induction Ho as [|[k0 v0] o Hv Ho IH]; [constructor|].
  rewrite delete_cons. destruct (String.eqb k0 k); [assumption | now constructor].
Qed.

Lemma strings_set o k v :
  is_string v ->
  Forall (fun kv => is_string (snd kv)) o ->
  Forall (fun kv => is_string (snd kv)) (Obj.set o k v).
Proof.
  intros Hv Ho. induction Ho as [|[k0 v0] o Hv0 Ho IH]; simpl.
  - repeat constructor. exact Hv.
  - destruct (String.eqb k0 k); constructor; assumption.
Qed.

Lemma strings_get o k :
  Forall (fun kv => is_string (snd kv)) o -> Obj.has o k = true -> is_string (Obj.get o k).
Proof.
  intros Ho. induction Ho as [|[k0 v0] o Hv0 Ho IH]; simpl; [discriminate|].
  destruct (String.eqb k0 k); simpl; auto.
Qed.

End ObjectFacts.

(** ** The monad of the script *)

Section MonadFacts.

Lemma bind_lift {A B} (r : result A) (k : A -> M B) w :
  (lift r ≫= k) w = match r with Ok a => k a w | Throw e => (Throw e, w) end.
Proof. unfold mbind, M_bind, lift. now destruct r. Qed.

Lemma bind_Ok {A B} (m : M A) (k : A -> M B) w b w' :
  (m ≫= k) w = (Ok b, w') ->
  exists a w1, m w = (Ok a, w1) /\ k a w1 = (Ok b, w').
Proof.
  unfold mbind, M_bind. destruct (m w) as [[a|e] w1]; [eauto | discriminate].
Qed.

Lemma bind_Throw {A B} (m : M A) (k : A -> M B) w e w' :
  m w = (Throw e, w') -> (m ≫= k) w = (Throw e, w').
Proof. unfold mbind, M_bind. now intros ->. Qed.

Lemma bind_Ok_intro {A B} (m : M A) (k : A -> M B) w a w1 :
  m w = (Ok a, w1) -> (m ≫= k) w = k a w1.
Proof. unfold mbind, M_bind. now intros ->. Qed.

Lemma lift_Ok {A} (r : result A) w a w' :
  lift r w = (Ok a, w') -> r = Ok a /\ w' = w.
Proof. unfold lift. now intros [= -> ->]. Qed.

Lemma lift_Throw {A} (r : result A) w e w' :
  lift r w = (Throw e, w') -> r = Throw e /\ w' = w.
Proof. unfold lift. now intros [= -> ->]. Qed.

Lemma bind_Throw_inv {A B} (m : M A) (k : A -> M B) w e w' :
  (m ≫= k) w = (Throw e, w') ->
  m w = (Throw e, w') \/ exists a w1, m w = (Ok a, w1) /\ k a w1 = (Throw e, w').
Proof.
  unfold mbind, M_bind. destruct (m w) as [[a|e0] w1]; [eauto | intros [= -> ->]; now left].
Qed.

End MonadFacts.

(** ** The thresholds of the resolver in the model of [semver] *)

Section SemVerFacts.
Import SemVer.

Lemma lt_7_0_0 text v :
  parse text = Some v ->
  (lt text "7.0.0" = Ok true
   <-> (major v < 7)%N
       \/ (major v = 7%N /\ minor v = 0%N /\ patch v = 0%N /\ prerelease v <> [])).
Proof.
  intros Hv. unfold lt, compare_text. rewrite Hv.
  change (parse "7.0.0")
    with (Some {| major := 7; minor := 0; patch := 0; prerelease := [] |}).
  unfold compare, compareMain, comparePre. simpl.
  destruct (N.compare_spec (major v) 7), (N.compare_spec (minor v) 0),
    (N.compare_spec (patch v) 0), (prerelease v); simpl;
    (split; intros Hlt;
     [ first [ discriminate
             | solve [left; lia]
             | right; repeat split; first [lia | discriminate] ]
     | first [ reflexivity
             | destruct Hlt as [?|(? & ? & ? & ?)]; first [lia | congruence] ] ]).
Qed.

Lemma gte_6_13_0 text v :
  parse text = Some v ->
  (gte text "6.13.0" = Ok true
   <-> (6 < major v)%N
       \/ (major v = 6%N /\ 13 < minor v)%N
       \/ (major v = 6%N /\ minor v = 13%N /\ 0 < patch v)%N
       \/ (major v = 6%N /\ minor v = 13%N /\ patch v = 0%N /\ prerelease v = [])).
Proof.
  intros Hv. unfold gte, compare_text. rewrite Hv.
  change (parse "6.13.0")
    with (Some {| major := 6; minor := 13; patch := 0; prerelease := [] |}).
  unfold compare, compareMain, comparePre. simpl.
  destruct (N.compare_spec (major v) 6), (N.compare_spec (minor v) 13),
    (N.compare_spec (patch v) 0), (prerelease v); simpl;
    (split; intros Hge;
     [ first [ discriminate
             | solve [left; lia]
             | solve [right; left; lia]
             | solve [right; right; left; lia]
             | right; right; right; repeat split; first [lia | reflexivity] ]
     | first [ reflexivity
             | destruct Hge as [?|[[? ?]|[(? & ? & ?)|(? & ? & ? & ?)]]];
               first [lia | discriminate] ] ]).
Qed.

(** A text that is no version makes both comparisons throw. *)
Lemma invalid_version_throws text other :
  parse text = None ->
  lt text other = Throw (TypeError ("Invalid Version: " +:+ text))
  /\ gte text other = Throw (TypeError ("Invalid Version: " +:+ text)).
Proof. intros Hv. unfold lt, gte, compare_text. rewrite Hv. split; reflexivity. Qed.

End SemVerFacts.

(** ** The resolver, the manifest and the workflow *)

Lemma dashed_differs (a : string) : "-- " +:+ a <> a.
Proof.
  intros Heq. apply (f_equal String.length) in Heq.
  rewrite length_append in Heq. simpl in Heq. lia.
Qed.

Lemma pnpm_profile_of_version (H : Host) (v : string) (lt ge : bool) :
  getPackageManagerVersion H "pnpm" = Ok v ->
  semver_lt H v "7.0.0" = Ok lt ->
  semver_gte H v "6.13.0" = Ok ge ->
  getPackageManagerCommand H pnpm =
    Ok {| exec := if ge then "pnpm exec" else "pnpx";
          lockfile := "pnpm-lock.yaml";
          run := fun script args =>
            if lt then "pnpm run " +:+ script +:+ " " +:+ dashed args
            else "pnpm run " +:+ script +:+ " " +:+ or_empty args |}.
Proof.
  intros Hv Hlt Hge. simpl. rewrite Hv. simpl. rewrite Hlt. simpl. now rewrite Hge.
Qed.

(** With the model of [semver]: the two thresholds, read on the numbers of
    the version the probe reports. *)
Lemma pnpm_thresholds (H : Host) (text : string) (v : SemVer.version) :
  semver_lt H = SemVer.lt ->
  semver_gte H = SemVer.gte ->
  getPackageManagerVersion H "pnpm" = Ok text ->
  SemVer.parse text = Some v ->
  exists p,
    getPackageManagerCommand H pnpm = Ok p
    /\ (run p "format" (Some "--loglevel warn") = "pnpm run format -- --loglevel warn"
        <-> (SemVer.major v < 7)%N
            \/ (SemVer.major v = 7%N /\ SemVer.minor v = 0%N /\ SemVer.patch v = 0%N
                /\ SemVer.prerelease v <> []))
    /\ (exec p = "pnpm exec"
        <-> (6 < SemVer.major v)%N
            \/ (SemVer.major v = 6%N /\ 13 < SemVer.minor v)%N
            \/ (SemVer.major v = 6%N /\ SemVer.minor v = 13%N /\ 0 < SemVer.patch v)%N
            \/ (SemVer.major v = 6%N /\ SemVer.minor v = 13%N /\ SemVer.patch v = 0%N
                /\ SemVer.prerelease v = [])).
Proof.
  intros Hlt Hge Hprobe Hv.
  pose proof (lt_7_0_0 text v Hv) as H7. pose proof (gte_6_13_0 text v Hv) as H6.
  assert (exists b, SemVer.lt text "7.0.0" = Ok b) as [lt Hb]
    by (unfold SemVer.lt, SemVer.compare_text; rewrite Hv; simpl; eauto).
  assert (exists b, SemVer.gte text "6.13.0" = Ok b) as [ge Hb']
    by (unfold SemVer.gte, SemVer.compare_text; rewrite Hv; simpl; eauto).
  eexists. split.
  - apply pnpm_profile_of_version with (v := text) (lt := lt) (ge := ge);
      [assumption | now rewrite Hlt | now rewrite Hge].
  - simpl. rewrite Hb in H7. rewrite Hb' in H6. split.
    + rewrite <- H7. destruct lt; split; intros Heq; try reflexivity; discriminate.
    + rewrite <- H6. destruct ge; split; intros Heq; try reflexivity; discriminate.
Qed.

Lemma own_entries_Ok v : nullish v = false -> exists entries, own_entries v = Ok entries.
Proof. destruct v; simpl; intros; try discriminate; eauto. Qed.

Lemma removeUnusedDependencies_Ok v unused :
  nullish v = false -> exists d, removeUnusedDependencies v unused = Ok d.
Proof.
  intros [entries He]%own_entries_Ok. unfold removeUnusedDependencies.
  rewrite He. simpl. eauto.
Qed.

Lemma Fixture_stores_scripts v : stores_scripts (Fixture.host v).
Proof.
  intros c name devDependencies scripts _. eexists. split; [reflexivity|].
  unfold Obj.spread. simpl. apply get_set_eq.
Qed.

Lemma filter_strict_ne needs :
  ~ In (VStr "typecheck") (List.filter (fun need => strict_ne_string need "typecheck") needs).
Proof.
  intros [_ Hin]%filter_In. simpl in Hin. discriminate.
Qed.

Lemma cleanupDeployWorkflow_spec (H : Host) (doc jobs deploy : props) (needs : list value)
    (path : string) (w : world) :
  Obj.get doc "jobs" = VObj jobs ->
  Obj.get jobs "deploy" = VObj deploy ->
  Obj.get deploy "needs" = VArr needs ->
  let needs' := List.filter (fun need => strict_ne_string need "typecheck") needs in
  let deploy' := Obj.set deploy "needs" (VArr needs') in
  let jobs' := Obj.set (Obj.delete jobs "typecheck") "deploy" (VObj deploy') in
  let doc' := VObj (Obj.set doc "jobs" (VObj jobs')) in
  cleanupDeployWorkflow H (VObj doc) path w =
    (Ok (doc', [(WriteFile path (YAML_stringify H doc'), Ok ())]),
     write path (YAML_stringify H doc') w).
Proof.
  intros Hjobs Hdeploy Hneeds. unfold cleanupDeployWorkflow.
  rewrite bind_lift. simpl get_prop. rewrite Hjobs. cbv iota.
  rewrite bind_lift. simpl delete_prop. cbv iota.
  rewrite bind_lift. simpl get_prop.
  rewrite get_delete_ne by discriminate. rewrite Hdeploy. cbv iota.
  rewrite bind_lift. simpl get_prop. rewrite Hneeds. cbv iota.
  rewrite bind_lift. simpl array_filter. cbv iota.
  rewrite bind_lift. simpl set_prop. cbv iota.
  rewrite bind_lift. simpl set_prop. cbv iota.
  rewrite bind_lift. simpl set_prop. cbv iota.
  reflexivity.
Qed.

(** ** The errors marked [Unsupported] are never thrown

    [set_prop] and [new_RegExp] leave part of JavaScript out; the script
    never reaches that part. *)

Section Supported.
Context (H : Host).

Lemma get_prop_object v k x :
  get_prop v k = Ok x -> x <> VUndefined -> exists o, v = VObj o.
Proof. destruct v; simpl; intros [= <-] Hx; try congruence. eauto. Qed.

Lemma array_filter_array v keep x :
  array_filter v keep = Ok x -> exists l, v = VArr l.
Proof. destruct v; simpl; intros [= <-]. eauto. Qed.

Lemma string_replace_string v pattern replacement t :
  string_replace v pattern replacement = Ok t -> exists s, v = VStr s.
Proof. destruct v; simpl; intros [= <-]. eauto. Qed.

Lemma delete_prop_object v k o :
  delete_prop v k = Ok (VObj o) -> exists o', v = VObj o'.
Proof. destruct v; simpl; intros [= <-]; eauto. Qed.

Lemma get_prop_supported v k what : get_prop v k <> Throw (Unsupported what).
Proof. destruct v; discriminate. Qed.

Lemma delete_prop_supported v k what : delete_prop v k <> Throw (Unsupported what).
Proof. destruct v; discriminate. Qed.

Lemma array_filter_supported v keep what : array_filter v keep <> Throw (Unsupported what).
Proof. destruct v; discriminate. Qed.

Lemma string_replace_supported v p r what :
  string_replace v p r <> Throw (Unsupported what).
Proof. destruct v; discriminate. Qed.

Lemma cleanupDeployWorkflow_supported doc path w what w' :
  cleanupDeployWorkflow H doc path w <> (Throw (Unsupported what), w').
Proof.
  unfold cleanupDeployWorkflow. intros Hrun.
  rewrite bind_lift in Hrun.
  destruct (get_prop doc "jobs") as [jobs|e] eqn:Hjobs;
    [|injection Hrun as -> _; now apply get_prop_supported in Hjobs].
  rewrite bind_lift in Hrun.
  destruct (delete_prop jobs "typecheck") as [jobs'|e] eqn:Hdelete;
    [|injection Hrun as -> _; now apply delete_prop_supported in Hdelete].
  rewrite bind_lift in Hrun.
  destruct (get_prop jobs' "deploy") as [deploy|e] eqn:Hdeploy;
    [|injection Hrun as -> _; now apply get_prop_supported in Hdeploy].
  rewrite bind_lift in Hrun.
  destruct (get_prop deploy "needs") as [needs|e] eqn:Hneeds;
    [|injection Hrun as -> _; now apply get_prop_supported in Hneeds].
  rewrite bind_lift in Hrun.
  destruct (array_filter needs _) as [needs'|e] eqn:Hfilter;
    [|injection Hrun as -> _; now apply array_filter_supported in Hfilter].
  apply array_filter_array in Hfilter as [l ->].
  apply get_prop_object in Hneeds as [o ->]; [|discriminate].
  apply get_prop_object in Hdeploy as [j ->]; [|discriminate].
  apply delete_prop_object in Hdelete as [j' ->].
  apply get_prop_object in Hjobs as [d ->]; [|discriminate].
  discriminate.
Qed.

Lemma prodToml_supported prodContent name parsed what :
  toml_parse H prodContent = Ok parsed ->
  prodToml H prodContent name <> Throw (Unsupported what).
Proof.
  intros Hparse. unfold prodToml. rewrite Hparse. simpl.
  destruct (get_prop parsed "app") as [app|e] eqn:Happ;
    [|simpl; intros [= ->]; now apply get_prop_supported in Happ].
  simpl. destruct (string_replace app REPLACER name) as [t|e] eqn:Hreplace;
    [|simpl; intros [= ->]; now apply string_replace_supported in Hreplace].
  apply string_replace_string in Hreplace as [s ->].
  apply get_prop_object in Happ as [o ->]; [|discriminate]. discriminate.
Qed.

Lemma newDockerfile_total pm dockerfile :
  exists text, newDockerfile pm dockerfile = Ok text.
Proof.
  unfold newDockerfile. destruct (lockfile pm); [eauto|].
  rewrite new_RegExp_escapeRegExp. simpl. eauto.
Qed.

End Supported.

(** ** The orchestrator *)

Section MainFacts.
Context (H : Host).

Lemma start_all_Ok ops :
  forall w, exists ps w', start_all H ops w = (Ok ps, w') /\ map fst ps = ops.
Proof.
  induction ops as [|op ops IH]; intros w.
  - exists [], w. split; reflexivity.
  - simpl. unfold mbind, M_bind, start at 1.
    destruct (perform H op w) as [r w1].
    destruct (IH w1) as (ps & w' & Hps & Hops). rewrite Hps.
    exists ((op, r) :: ps), w'. split; [reflexivity|]. simpl. now rewrite Hops.
Qed.

Lemma fileOperationPromises_inv isTypeScript pm rootDirectory r w ps w' :
  fileOperationPromises H isTypeScript pm rootDirectory r w = (Ok ps, w') ->
  exists toml readme' dockerfile' pj base pushed w1,
    prodToml H (prodContent r) (APP_NAME H rootDirectory) = Ok toml
    /\ newReadme (readme r) (APP_NAME H rootDirectory) = Ok readme'
    /\ newDockerfile pm (dockerfile r) = Ok dockerfile'
    /\ updatePackageJson H (APP_NAME H rootDirectory) isTypeScript (packageJson r) = Ok pj
    /\ start_all H
         (fileOperations H rootDirectory (toml_stringify H toml) readme' dockerfile' pj) w
       = (Ok base, w1)
    /\ ps = (base ++ pushed)%list
    /\ (if isTypeScript then pushed = [] /\ w' = w1
        else exists doc' p1 p2 w2,
          cleanupDeployWorkflow H (deployWorkflow r)
            (DEPLOY_WORKFLOW_PATH H rootDirectory) w1 = (Ok (doc', p1), w2)
          /\ cleanupVitestConfig H (vitestConfig r)
               (VITEST_CONFIG_PATH H isTypeScript rootDirectory) w2 = (Ok p2, w')
          /\ pushed = (p1 ++ p2)%list).
Proof.
  unfold fileOperationPromises. intros Hrun.
  apply bind_Ok in Hrun as (toml & w0 & [Htoml ->]%lift_Ok & Hrun).
  apply bind_Ok in Hrun as (readme' & w0 & [Hreadme ->]%lift_Ok & Hrun).
  apply bind_Ok in Hrun as (dockerfile' & w0 & [Hdocker ->]%lift_Ok & Hrun).
  apply bind_Ok in Hrun as (pj & w0 & [Hpj ->]%lift_Ok & Hrun).
  apply bind_Ok in Hrun as (base & w1 & Hbase & Hrun).
  apply bind_Ok in Hrun as (pushed & w2 & Hpushed & Hret).
  injection Hret as <- <-.
  exists toml, readme', dockerfile', pj, base, pushed, w1.
  repeat (split; [assumption || reflexivity|]).
  destruct isTypeScript.
  - injection Hpushed as <- <-. split; reflexivity.
  - apply bind_Ok in Hpushed as ([doc' p1] & w3 & Hclean & Hpushed).
    apply bind_Ok in Hpushed as (p2 & w4 & Hvitest & Hret).
    injection Hret as <- <-. exists doc', p1, p2, w3. repeat split; assumption.
Qed.

Lemma pure_bind {A B} (m : M A) (k : A -> M B) :
  pure m -> (forall a, pure (k a)) -> pure (m ≫= k).
Proof.
  intros Hm Hk w. unfold mbind, M_bind. specialize (Hm w).
  destruct (m w) as [[a|e] w1]; simpl in *; subst; [apply Hk | reflexivity].
Qed.

Lemma pure_lift {A} (r : result A) : pure (lift r).
Proof. intros w. reflexivity. Qed.

Lemma pure_ret {A} (a : A) : pure (mret a : M A).
Proof. intros w. reflexivity. Qed.

Lemma pure_readFile path : pure (readFile path).
Proof. intros w. unfold readFile. now destruct (fs w !! path). Qed.

Lemma pure_readFileIfNotTypeScript isTypeScript filePath parseFunction :
  pure (readFileIfNotTypeScript isTypeScript filePath parseFunction).
Proof.
  unfold readFileIfNotTypeScript. destruct isTypeScript; [apply pure_ret|].
  apply pure_bind; [apply pure_readFile | intros; apply pure_lift].
Qed.

Lemma pure_PackageJson_load path : pure (PackageJson_load H path).
Proof.
  unfold PackageJson_load. apply pure_bind; [apply pure_readFile | intros].
  apply pure_bind; [apply pure_lift | intros; apply pure_ret].
Qed.

Lemma pure_read_phase isTypeScript rootDirectory :
  pure (read_phase H isTypeScript rootDirectory).
Proof.
  unfold read_phase.
  repeat (apply pure_bind;
    [first [apply pure_readFile | apply pure_readFileIfNotTypeScript
           | apply pure_PackageJson_load] | intros]).
  apply pure_ret.
Qed.

End MainFacts.

Section MainClaims.
Context (H : Host).

Lemma fails_bind_l {A B} (m : M A) (k : A -> M B) w :
  fails m w -> fails (m ≫= k) w.
Proof. intros (e & w' & Hm). exists e, w'. now apply bind_Throw. Qed.

Lemma fails_bind_pure {A B} (m : M A) (k : A -> M B) w :
  pure m -> (forall a, fails (k a) w) -> fails (m ≫= k) w.
Proof.
  intros Hm Hk. unfold fails, mbind, M_bind. specialize (Hm w).
  destruct (m w) as [[a|e] w1]; simpl in Hm; subst; [apply Hk | eauto].
Qed.

(** One failing read makes the join of lines 135-144 reject. *)
Lemma read_phase_fails isTypeScript rootDirectory w :
  fails (readFile (FLY_TOML_PATH H rootDirectory)) w
  \/ fails (readFile (README_PATH H rootDirectory)) w
  \/ fails (readFile (DOCKERFILE_PATH H rootDirectory)) w
  \/ fails (readFileIfNotTypeScript isTypeScript
              (DEPLOY_WORKFLOW_PATH H rootDirectory) (YAML_parse H)) w
  \/ fails (readFileIfNotTypeScript isTypeScript
              (VITEST_CONFIG_PATH H isTypeScript rootDirectory)
              (fun s => mret (VStr s))) w
  \/ fails (PackageJson_load H rootDirectory) w ->
  fails (read_phase H isTypeScript rootDirectory) w.
Proof.
  unfold read_phase.
  intros [Hf|[Hf|[Hf|[Hf|[Hf|Hf]]]]];
    repeat first
      [ apply fails_bind_l; exact Hf
      | apply fails_bind_pure;
        [first [apply pure_readFile | apply pure_readFileIfNotTypeScript
               | apply pure_PackageJson_load] | intros ?] ].
Qed.

Lemma start_all_saves ops :
  forall w ps w', start_all H ops w = (Ok ps, w') ->
    map fst ps = ops /\ Forall (fun p => is_save (fst p) = true -> snd p = Ok ()) ps.
Proof.
  induction ops as [|op ops IH]; intros w ps w' Hrun.
  - injection Hrun as <- <-. split; [reflexivity | constructor].
  - simpl in Hrun. apply bind_Ok in Hrun as (p & w1 & Hstart & Hrun).
    apply bind_Ok in Hrun as (ps' & w2 & Hrest & Hret). injection Hret as <- <-.
    apply IH in Hrest as [Hmap Hall]. unfold start in Hstart.
    destruct (perform H op w) as [r w0] eqn:Hperform. injection Hstart as <- <-.
    split; [simpl; now rewrite Hmap|]. constructor; [|assumption].
    simpl. intros Hsave. destruct op; try discriminate.
    simpl in Hperform. now injection Hperform as <- _.
Qed.

Lemma cleanupDeployWorkflow_writes doc path w doc' ps w' :
  cleanupDeployWorkflow H doc path w = (Ok (doc', ps), w') ->
  Forall (fun p => is_save (fst p) = false) ps.
Proof.
  unfold cleanupDeployWorkflow. intros Hrun.
  do 8 (apply bind_Ok in Hrun as (? & ? & [_ ->]%lift_Ok & Hrun)).
  apply bind_Ok in Hrun as (p & w1 & Hstart & Hret). injection Hret as _ <- _.
  unfold start in Hstart. simpl in Hstart. injection Hstart as <- _.
  repeat constructor.
Qed.

Lemma cleanupVitestConfig_writes config path w ps w' :
  cleanupVitestConfig H config path w = (Ok ps, w') ->
  Forall (fun p => is_save (fst p) = false) ps.
Proof.
  unfold cleanupVitestConfig. intros Hrun.
  apply bind_Ok in Hrun as (? & ? & [_ ->]%lift_Ok & Hrun).
  apply bind_Ok in Hrun as (p & w1 & Hstart & Hret). injection Hret as <- _.
  unfold start in Hstart. simpl in Hstart. injection Hstart as <- _.
  repeat constructor.
Qed.

(** The save is the fourth of the six operations of lines 163-173, the
    only save among them, and it settles well. *)
Lemma fileOperations_save rootDirectory toml readme' dockerfile' pj w base w' :
  start_all H (fileOperations H rootDirectory toml readme' dockerfile' pj) w
    = (Ok base, w') ->
  base !! 3 = Some (SavePackageJson pj, Ok ())
  /\ List.filter is_save (map fst base) = [SavePackageJson pj].
Proof.
  intros Hbase. apply start_all_saves in Hbase as [Hmap Hsaves].
  destruct base as [|p1 [|p2 [|p3 [|[op r4] [|p5 [|p6 [|? ?]]]]]]]; try discriminate.
  injection Hmap as H1 H2 H3 H4 H5 H6. simpl in H4. subst op.
  assert (Hr4 : r4 = Ok ()).
  { do 3 apply Forall_cons in Hsaves as [_ Hsaves].
    apply Forall_cons in Hsaves as [Hs _]. now apply Hs. }
  subst r4. split; [reflexivity|].
  simpl. rewrite H1, H2, H3, H5, H6. reflexivity.
Qed.

(** When building the array throws, nothing was started, or the six
    operations were and an untyped cleanup threw after them. *)
Lemma fileOperationPromises_Throw isTypeScript pm rootDirectory r w e w' :
  fileOperationPromises H isTypeScript pm rootDirectory r w = (Throw e, w') ->
  w' = w
  \/ (isTypeScript = false
      /\ exists toml readme' dockerfile' pj base w1,
           prodToml H (prodContent r) (APP_NAME H rootDirectory) = Ok toml
           /\ newReadme (readme r) (APP_NAME H rootDirectory) = Ok readme'
           /\ newDockerfile pm (dockerfile r) = Ok dockerfile'
           /\ updatePackageJson H (APP_NAME H rootDirectory) isTypeScript (packageJson r)
              = Ok pj
           /\ start_all H
                (fileOperations H rootDirectory (toml_stringify H toml) readme'
                   dockerfile' pj) w
              = (Ok base, w1)
           /\ (cleanupDeployWorkflow H (deployWorkflow r)
                 (DEPLOY_WORKFLOW_PATH H rootDirectory) w1 = (Throw e, w')
               \/ exists doc' p1 w2,
                    cleanupDeployWorkflow H (deployWorkflow r)
                      (DEPLOY_WORKFLOW_PATH H rootDirectory) w1 = (Ok (doc', p1), w2)
                    /\ cleanupVitestConfig H (vitestConfig r)
                         (VITEST_CONFIG_PATH H isTypeScript rootDirectory) w2
                       = (Throw e, w'))).
Proof.
  unfold fileOperationPromises. intros Hrun.
  apply bind_Throw_inv in Hrun
    as [[_ ->]%lift_Throw | (toml & w0 & [Htoml ->]%lift_Ok & Hrun)]; [now left|].
  apply bind_Throw_inv in Hrun
    as [[_ ->]%lift_Throw | (readme' & w0 & [Hreadme ->]%lift_Ok & Hrun)]; [now left|].
  apply bind_Throw_inv in Hrun
    as [[_ ->]%lift_Throw | (dockerfile' & w0 & [Hdocker ->]%lift_Ok & Hrun)]; [now left|].
  apply bind_Throw_inv in Hrun
    as [[_ ->]%lift_Throw | (pj & w0 & [Hpj ->]%lift_Ok & Hrun)]; [now left|].
  apply bind_Throw_inv in Hrun as [Hbase | (base & w1 & Hbase & Hrun)].
  { destruct (start_all_Ok H
                (fileOperations H rootDirectory (toml_stringify H toml) readme'
                   dockerfile' pj) w) as (ps & w1 & Hps & _).
    rewrite Hps in Hbase. discriminate. }
  right. destruct isTypeScript.
  - apply bind_Throw_inv in Hrun as [Hrun | (? & ? & _ & Hrun)]; discriminate.
  - split; [reflexivity|]. exists toml, readme', dockerfile', pj, base, w1.
    do 5 (split; [assumption|]).
    apply bind_Throw_inv in Hrun as [Hrun | (pushed & w2 & _ & Hrun)]; [|discriminate].
    apply bind_Throw_inv in Hrun as [Hrun | ([doc' p1] & w2 & Hclean & Hrun)];
      [now left | right].
    apply bind_Throw_inv in Hrun as [Hrun | (p2 & w3 & _ & Hrun)]; [|discriminate].
    now exists doc', p1, w2.
Qed.

End MainClaims.

(** * The properties *)

(** C1 as amended: on a manifest whose script map holds [typecheck] and
    [validate] among its commands, the typed variant keeps every script as
    it was; the untyped variant (the manifest having development
    dependencies) gives a script map without the [typecheck] key, whose
    [validate] script is the original with its first occurrence of
    [ typecheck], if there is one, removed, the other scripts being as they
    were. *)
Theorem updatePackageJson_scripts (H : Host) (APP_NAME : string) (isTypeScript : bool)
    (pj : PackageJson) (c scripts : props) :
  stores_scripts H ->
  content pj = VObj c ->
  Obj.get c "scripts" = VObj scripts ->
  Forall (fun kv => is_string (snd kv)) scripts ->
  Obj.has scripts "typecheck" = true ->
  Obj.has scripts "validate" = true ->
  (isTypeScript = false -> nullish (Obj.get c "devDependencies") = false) ->
  exists pj' c' scripts' validate,
    updatePackageJson H APP_NAME isTypeScript pj = Ok pj'
    /\ content pj' = VObj c'
    /\ Obj.get c' "scripts" = VObj scripts'
    /\ Obj.get scripts "validate" = VStr validate
    /\ (isTypeScript = true -> forall k, Obj.get scripts' k = Obj.get scripts k)
    /\ (isTypeScript = false ->
          Obj.has scripts' "typecheck" = false
          /\ Obj.get scripts' "validate" = VStr (JS.replace validate " typecheck" "")
          /\ ReplacedFirst " typecheck" "" validate (JS.replace validate " typecheck" "")
          /\ forall k, k <> "typecheck" -> k <> "validate" ->
               Obj.get scripts' k = Obj.get scripts k).
Proof.
  intros Hstore Hc Hs Hstr Htc Hval Hdev.
  destruct (strings_get _ _ Hstr Hval) as [validate Hvalidate].
  set (rest := Obj.delete (Obj.delete scripts "typecheck") "validate").
  assert (Hrest : Forall (fun kv => is_string (snd kv)) rest)
    by (apply strings_delete, strings_delete, Hstr).
  unfold updatePackageJson. rewrite Hc. simpl. rewrite Hs. simpl.
  fold rest. rewrite Hvalidate.
  destruct isTypeScript; simpl.
  - set (scripts' := Obj.set (Obj.set rest "typecheck" (Obj.get scripts "typecheck"))
                       "validate" (VStr validate)).
    assert (Hstr' : Forall (fun kv => is_string (snd kv)) scripts').
    { apply strings_set; [now exists validate|].
      apply strings_set; [now apply strings_get | assumption]. }
    destruct (Hstore c (VStr APP_NAME) (Obj.get c "devDependencies") scripts' Hstr')
      as (c' & Hupdate & Hget).
    rewrite Hupdate. simpl. eexists _, c', scripts', validate.
    split; [reflexivity|]. split; [reflexivity|]. split; [assumption|].
    split; [reflexivity|]. split; [|discriminate].
    intros _ k. unfold scripts'.
    destruct (String.eqb_spec "validate" k) as [<-|Hk1];
      [now rewrite get_set_eq|].
    rewrite get_set_ne by assumption.
    destruct (String.eqb_spec "typecheck" k) as [<-|Hk2];
      [now rewrite get_set_eq|].
    rewrite get_set_ne by assumption.
    unfold rest. now rewrite !get_delete_ne.
  - destruct (removeUnusedDependencies_Ok (Obj.get c "devDependencies") ["ts-node"]
                (Hdev eq_refl)) as [d Hd].
    rewrite Hd. simpl.
    set (v' := JS.replace validate " typecheck" "").
    set (scripts' := Obj.set rest "validate" (VStr v')).
    assert (Hstr' : Forall (fun kv => is_string (snd kv)) scripts')
      by (apply strings_set; [now exists v' | assumption]).
    destruct (Hstore c (VStr APP_NAME) d scripts' Hstr') as (c' & Hupdate & Hget).
    rewrite Hupdate. simpl. eexists _, c', scripts', validate.
    split; [reflexivity|]. split; [reflexivity|]. split; [assumption|].
    split; [reflexivity|]. split; [discriminate|].
    intros _. split; [|split; [|split]].
    + unfold scripts', rest. rewrite has_set_ne by discriminate.
      rewrite has_delete_ne by discriminate. apply has_delete_eq.
    + apply get_set_eq.
    + now apply replace_spec.
    + intros k Hk1 Hk2. unfold scripts', rest.
      rewrite get_set_ne by congruence. now rewrite !get_delete_ne by congruence.
Qed.

Lemma updatePackageJson_scripts_witness :
  exists pj' c' scripts',
    updatePackageJson (Fixture.host "8.6.2") "my-app-ab12" false
      {| filename := "/tmp/my-app/package.json"; content := Fixture.manifest |} = Ok pj'
    /\ content pj' = VObj c'
    /\ Obj.get c' "scripts" = VObj scripts'
    /\ Obj.has scripts' "typecheck" = false
    /\ Obj.get scripts' "validate" = VStr "run-p lint test".
Proof.
  destruct (updatePackageJson_scripts (Fixture.host "8.6.2") "my-app-ab12" false
              {| filename := "/tmp/my-app/package.json"; content := Fixture.manifest |}
              _ _ (Fixture_stores_scripts "8.6.2") eq_refl eq_refl)
    as (pj' & c' & scripts' & validate & Hu & Hc & Hs & Hv & _ & Huntyped).
  - repeat constructor; eexists; reflexivity.
  - reflexivity.
  - reflexivity.
  - reflexivity.
  - destruct (Huntyped eq_refl) as (Hno & Hval & _).
    injection Hv as <-.
    exists pj', c', scripts'. repeat split; assumption.
Defined.

(** C1 as stated fails: when [validate] names type-checking twice, or not
    after a space, the rewritten script still contains [typecheck]. *)
Lemma updatePackageJson_validate_counterexample :
  exists pj',
    updatePackageJson (Fixture.host "8.6.2") "my-app-ab12" false
      {| filename := "/tmp/my-app/package.json"; content := Fixture.split_manifest |}
      = Ok pj'
    /\ content pj' =
       VObj [("name", VStr "my-app-ab12");
             ("scripts", VObj [("lint", VStr "eslint .");
                               ("typecheck:app", VStr "tsc -p app");
                               ("typecheck:server", VStr "tsc -p server");
                               ("validate", VStr "run-s lint:app typecheck:server")]);
             ("devDependencies", VObj [("typescript", VStr "5.0.4")])]
    /\ ~ untyped_scripts_claim pj'.
Proof.
  eexists. split; [reflexivity|]. split; [reflexivity|].
  intros (c' & scripts' & validate & Hc & Hs & _ & Hv & Hi).
  simpl in Hc. injection Hc as <-. simpl in Hs. injection Hs as <-.
  simpl in Hv. injection Hv as <-. vm_compute in Hi. discriminate.
Qed.

(** C2: on a workflow document whose job map has a [typecheck] job and a
    [deploy] job with a [needs] list, [cleanupDeployWorkflow] gives a
    document whose job map has no [typecheck] key and whose [deploy] job
    needs the same jobs as before without [typecheck], and starts the write
    of that document.  Only the untyped variant runs it: a typed run neither
    reads the workflow nor starts anything besides the six operations of the
    array, an untyped run pushes what [cleanupDeployWorkflow] returns. *)
Theorem cleanupDeployWorkflow_untyped_only (H : Host) (doc jobs deploy : props)
    (needs : list value) (path : string) (w : world) :
  Obj.get doc "jobs" = VObj jobs ->
  Obj.has jobs "typecheck" = true ->
  Obj.get jobs "deploy" = VObj deploy ->
  Obj.get deploy "needs" = VArr needs ->
  (exists doc' jobs' deploy' needs',
     cleanupDeployWorkflow H (VObj doc) path w =
       (Ok (VObj doc', [(WriteFile path (YAML_stringify H (VObj doc')), Ok ())]),
        write path (YAML_stringify H (VObj doc')) w)
     /\ Obj.get doc' "jobs" = VObj jobs'
     /\ Obj.has jobs' "typecheck" = false
     /\ Obj.get jobs' "deploy" = VObj deploy'
     /\ Obj.get deploy' "needs" = VArr needs'
     /\ ~ In (VStr "typecheck") needs'
     /\ needs' = List.filter (fun need => strict_ne_string need "typecheck") needs)
  /\ (forall rootDirectory w0 r w1,
        read_phase H true rootDirectory w0 = (Ok r, w1) ->
        deployWorkflow r = VUndefined)
  /\ (forall pm rootDirectory r w0 ps w1,
        fileOperationPromises H true pm rootDirectory r w0 = (Ok ps, w1) ->
        exists toml readme' dockerfile' pj,
          start_all H (fileOperations H rootDirectory toml readme' dockerfile' pj) w0
          = (Ok ps, w1))
  /\ (forall pm rootDirectory r w0 ps w1,
        fileOperationPromises H false pm rootDirectory r w0 = (Ok ps, w1) ->
        exists base doc' p1 p2 w2 w3,
          cleanupDeployWorkflow H (deployWorkflow r)
            (DEPLOY_WORKFLOW_PATH H rootDirectory) w2 = (Ok (doc', p1), w3)
          /\ ps = (base ++ p1 ++ p2)%list).
Proof.
  intros Hjobs Htc Hdeploy Hneeds. split; [|split; [|split]].
  - eexists _, _, _, _. split.
    + now apply cleanupDeployWorkflow_spec
        with (jobs := jobs) (deploy := deploy) (needs := needs).
    + split; [apply get_set_eq|]. split.
      { rewrite has_set_ne by discriminate. apply has_delete_eq. }
      split; [apply get_set_eq|]. split; [apply get_set_eq|].
      split; [apply filter_strict_ne | reflexivity].
  - intros rootDirectory w0 r w1 Hread. unfold read_phase in Hread.
    do 6 (apply bind_Ok in Hread as (? & ? & ? & Hread)).
    injection Hread as <- _. simpl.
    match goal with Hd : readFileIfNotTypeScript true (DEPLOY_WORKFLOW_PATH _ _) _ _ = _ |- _ =>
      now injection Hd as <- _ end.
  - intros pm rootDirectory r w0 ps w1 Hrun.
    apply fileOperationPromises_inv in Hrun
      as (toml & readme' & dockerfile' & pj & base & pushed & w2
          & _ & _ & _ & _ & Hbase & -> & -> & ->).
    rewrite app_nil_r. eauto.
  - intros pm rootDirectory r w0 ps w1 Hrun.
    apply fileOperationPromises_inv in Hrun
      as (toml & readme' & dockerfile' & pj & base & pushed & w2
          & _ & _ & _ & _ & Hbase & -> & (doc' & p1 & p2 & w3 & Hclean & _ & ->)).
    eauto 10.
Qed.

Lemma cleanupDeployWorkflow_untyped_only_witness :
  exists doc' jobs' deploy',
    fst (cleanupDeployWorkflow (Fixture.host "8.6.2") Fixture.workflow
           "/tmp/my-app/.github/workflows/deploy.yml" Fixture.initial)
      = Ok (VObj doc', [(WriteFile "/tmp/my-app/.github/workflows/deploy.yml" "name,jobs",
                         Ok ())])
    /\ Obj.get doc' "jobs" = VObj jobs'
    /\ Obj.has jobs' "typecheck" = false
    /\ Obj.get jobs' "deploy" = VObj deploy'
    /\ Obj.get deploy' "needs" = VArr [VStr "lint"].
Proof.
  destruct (cleanupDeployWorkflow_untyped_only (Fixture.host "8.6.2")
              [("name", VStr "Deploy");
               ("jobs", VObj [("lint", VObj [("steps", VArr [])]);
                              ("typecheck", VObj [("steps", VArr [])]);
                              ("deploy", VObj [("needs", VArr [VStr "lint"; VStr "typecheck"]);
                                               ("steps", VArr [])])])]
              _ _ [VStr "lint"; VStr "typecheck"]
              "/tmp/my-app/.github/workflows/deploy.yml" Fixture.initial
              eq_refl eq_refl eq_refl eq_refl)
    as [(doc' & jobs' & deploy' & needs' & Hrun & Hj & Hno & Hd & Hn & _ & ->) _].
  exists doc', jobs', deploy'.
  split; [|repeat split; assumption].
  change (VObj [("name", VStr "Deploy"); _]) with Fixture.workflow in Hrun.
  rewrite Hrun. simpl. f_equal. f_equal.
  apply (f_equal fst) in Hrun. simpl in Hrun. vm_compute in Hrun.
  now injection Hrun as <-.
Defined.

(** C3: for every root directory, whatever punctuation its last segment
    holds, [APP_NAME] is made of ASCII letters, digits, hyphens and
    underscores only: it is the directory name, a hyphen and the suffix,
    with each character outside that set turned into a hyphen. *)
Theorem APP_NAME_only_allowed_characters (H : Host) (rootDirectory : string) :
  JS.all_chars allowed (APP_NAME H rootDirectory) = true
  /\ APP_NAME H rootDirectory =
     JS.map_chars (fun c => if allowed c then c else "-"%char)
       (DIR_NAME H rootDirectory +:+ "-" +:+ SUFFIX H).
Proof.
  split; [apply APP_NAME_allowed|].
  rewrite APP_NAME_sanitized. apply map_chars_ext.
  intros c. unfold sanitize, not_allowed. now destruct (allowed c).
Qed.

(** C4: for every README text the rewritten text is the original with every
    occurrence of the placeholder, taken from left to right, replaced by the
    generated name; the pattern the script builds is the placeholder read
    character by character, none of them as pattern syntax. *)
Theorem newReadme_replaces_every_placeholder (H : Host) (readme rootDirectory : string) :
  JS.new_RegExp (escapeRegExp REPLACER) = Ok (JS.literal REPLACER)
  /\ exists text,
       newReadme readme (APP_NAME H rootDirectory) = Ok text
       /\ ReplacedEvery REPLACER (APP_NAME H rootDirectory) readme text.
Proof.
  split; [apply new_RegExp_escapeRegExp|].
  unfold newReadme. rewrite new_RegExp_escapeRegExp.
  eexists. split; [reflexivity|].
  apply replace_all_spec; [discriminate | apply APP_NAME_plain].
Qed.

(** C5: on a TOML document whose [app] field is the placeholder, patching
    with the name [foo-ab12] gives a document whose [app] field is
    [foo-ab12]; every other field, and the order of the keys, is as it
    was. *)
Theorem prodToml_sets_app_only (H : Host) (prodContent : string) (doc : props) :
  toml_parse H prodContent = Ok (VObj doc) ->
  Obj.get doc "app" = VStr "symphonic-stack-template" ->
  exists doc',
    prodToml H prodContent "foo-ab12" = Ok (VObj doc')
    /\ Obj.get doc' "app" = VStr "foo-ab12"
    /\ (forall k, k <> "app" ->
          Obj.get doc' k = Obj.get doc k /\ Obj.has doc' k = Obj.has doc k)
    /\ Obj.keys doc' = Obj.keys doc.
Proof.
  intros Hparse Happ. exists (Obj.set doc "app" (VStr "foo-ab12")).
  split.
  - unfold prodToml. rewrite Hparse. simpl. rewrite Happ. reflexivity.
  - split; [apply get_set_eq|]. split.
    + intros k Hk. split; [apply get_set_ne | apply has_set_ne]; congruence.
    + apply keys_set_has. destruct (Obj.has doc "app") eqn:Hhas; [reflexivity|].
      apply has_false_get in Hhas. congruence.
Qed.

Lemma prodToml_sets_app_only_witness :
  exists doc',
    prodToml (Fixture.host_with_toml
                (VObj [("primary_region", VStr "ams");
                       ("app", VStr "symphonic-stack-template");
                       ("kill_signal", VStr "SIGINT");
                       ("env", VObj [("PORT", VStr "8080")])]))
      "app = ..." "foo-ab12"
    = Ok (VObj doc')
    /\ Obj.get doc' "app" = VStr "foo-ab12"
    /\ Obj.get doc' "primary_region" = VStr "ams"
    /\ Obj.get doc' "kill_signal" = VStr "SIGINT"
    /\ Obj.get doc' "env" = VObj [("PORT", VStr "8080")]
    /\ Obj.has doc' "services" = false
    /\ Obj.keys doc' = ["primary_region"; "app"; "kill_signal"; "env"].
Proof.
  destruct (prodToml_sets_app_only
              (Fixture.host_with_toml
                 (VObj [("primary_region", VStr "ams");
                        ("app", VStr "symphonic-stack-template");
                        ("kill_signal", VStr "SIGINT");
                        ("env", VObj [("PORT", VStr "8080")])]))
              "app = ..." _ eq_refl eq_refl)
    as (doc' & Hrun & Happ & Hother & Hkeys).
  exists doc'. split; [exact Hrun|]. split; [exact Happ|].
  split; [now rewrite (proj1 (Hother "primary_region" ltac:(discriminate)))|].
  split; [now rewrite (proj1 (Hother "kill_signal" ltac:(discriminate)))|].
  split; [now rewrite (proj1 (Hother "env" ltac:(discriminate)))|].
  split; [now rewrite (proj2 (Hother "services" ltac:(discriminate)))|].
  exact Hkeys.
Defined.

(** C6: for each of npm, pnpm and yarn, whatever version of pnpm the probe
    reports, every profile the resolver returns has a [run] whose result
    starts with the manager's words, for every script and arguments; and the
    resolver does return a profile (for pnpm, once the probe and the two
    comparisons of its version have returned). *)
Theorem run_starts_with_invocation_prefix (H : Host) (pm : PackageManager) :
  (forall p, getPackageManagerCommand H pm = Ok p ->
     forall script args,
       JS.starts_with (invocation_prefix pm) (run p script args) = true)
  /\ ((pm = pnpm ->
       exists v lt ge,
         getPackageManagerVersion H "pnpm" = Ok v
         /\ semver_lt H v "7.0.0" = Ok lt /\ semver_gte H v "6.13.0" = Ok ge) ->
      exists p, getPackageManagerCommand H pm = Ok p).
Proof.
  split.
  - intros p Hp script args. destruct pm; simpl in Hp.
    + injection Hp as <-. reflexivity.
    + destruct (getPackageManagerVersion H "pnpm") as [v|]; [|discriminate].
      simpl in Hp. destruct (semver_lt H v "7.0.0") as [lt|]; [|discriminate].
      simpl in Hp. destruct (semver_gte H v "6.13.0") as [ge|]; [|discriminate].
      injection Hp as <-. now destruct lt.
    + injection Hp as <-. reflexivity.
  - intros Hv. destruct pm; simpl; eauto.
    destruct (Hv eq_refl) as (v & lt & ge & -> & Hlt & Hge). simpl.
    rewrite Hlt. simpl. rewrite Hge. simpl. eauto.
Qed.

Lemma run_starts_with_invocation_prefix_witness :
  exists p,
    getPackageManagerCommand (Fixture.host "8.6.2") pnpm = Ok p
    /\ JS.starts_with "pnpm run" (run p "format" (Some "--loglevel warn")) = true.
Proof.
  destruct (run_starts_with_invocation_prefix (Fixture.host "8.6.2") pnpm) as [Hrun Hex].
  destruct Hex as [p Hp].
  - intros _. exists "8.6.2", false, true. repeat split; reflexivity.
  - exists p. split; [exact Hp | exact (Hrun p Hp "format" (Some "--loglevel warn"))].
Defined.

(** C7: for pnpm and any version the probe reports, [run] puts [--] before
    the arguments exactly when [semver.lt(version, '7.0.0')] holds, and
    [exec] is [pnpm exec] exactly when [semver.gte(version, '6.13.0')] holds
    and [pnpx] otherwise. *)
Theorem pnpm_profile_follows_version (H : Host) (v : string) (lt ge : bool) :
  getPackageManagerVersion H "pnpm" = Ok v ->
  semver_lt H v "7.0.0" = Ok lt ->
  semver_gte H v "6.13.0" = Ok ge ->
  exists p,
    getPackageManagerCommand H pnpm = Ok p
    /\ (forall script a, a <> EmptyString ->
          (run p script (Some a) = "pnpm run " +:+ script +:+ " -- " +:+ a <-> lt = true)
          /\ (run p script (Some a) = "pnpm run " +:+ script +:+ " " +:+ a <-> lt = false))
    /\ (forall script, run p script None = "pnpm run " +:+ script +:+ " ")
    /\ (exec p = "pnpm exec" <-> ge = true)
    /\ (exec p = "pnpx" <-> ge = false).
Proof.
  intros Hv Hlt Hge. eexists. split.
  - apply pnpm_profile_of_version with (v := v) (lt := lt) (ge := ge); assumption.
  - simpl. split; [|split; [|split]].
    + intros script a Ha.
      assert (Hd : dashed (Some a) = "-- " +:+ a) by (destruct a; [congruence | reflexivity]).
      assert (Ho : or_empty (Some a) = a) by (destruct a; [congruence | reflexivity]).
      rewrite Hd, Ho.
      assert (Hne : "pnpm run " +:+ script +:+ " -- " +:+ a
                    <> "pnpm run " +:+ script +:+ " " +:+ a).
      { intros Heq. injection Heq as Heq. apply String.app_inj in Heq.
        injection Heq as Heq. now apply dashed_differs in Heq. }
      destruct lt; split; split; intros Heq; try reflexivity; try discriminate.
      * now destruct Hne.
      * symmetry in Heq. now destruct Hne.
    + intros script. now destruct lt.
    + destruct ge; split; intros; try reflexivity; discriminate.
    + destruct ge; split; intros; try reflexivity; discriminate.
Qed.

Lemma pnpm_profile_follows_version_witness :
  exists p,
    getPackageManagerCommand (Fixture.host "6.35.1") pnpm = Ok p
    /\ run p "format" (Some "--loglevel warn") = "pnpm run format -- --loglevel warn"
    /\ exec p = "pnpm exec".
Proof.
  destruct (pnpm_profile_follows_version (Fixture.host "6.35.1") "6.35.1" true true
              eq_refl eq_refl eq_refl) as (p & Hp & Hrun & _ & Hexec & _).
  exists p. split; [exact Hp|]. split.
  - apply (Hrun "format" "--loglevel warn"); [discriminate | reflexivity].
  - now apply Hexec.
Defined.

(** C8: when one of the reads of the first phase fails, [main] throws and
    the files (and the console) are as they were: nothing was written,
    copied or deleted.  The error is the one the join of the reads rejects
    with, unless the resolver had thrown before. *)
Theorem read_failure_leaves_files_unchanged (H : Host) (isTypeScript : bool)
    (packageManager : PackageManager) (rootDirectory : string) (w : world) :
  fails (readFile (FLY_TOML_PATH H rootDirectory)) w
  \/ fails (readFile (README_PATH H rootDirectory)) w
  \/ fails (readFile (DOCKERFILE_PATH H rootDirectory)) w
  \/ fails (readFileIfNotTypeScript isTypeScript
              (DEPLOY_WORKFLOW_PATH H rootDirectory) (YAML_parse H)) w
  \/ fails (readFileIfNotTypeScript isTypeScript
              (VITEST_CONFIG_PATH H isTypeScript rootDirectory)
              (fun s => mret (VStr s))) w
  \/ fails (PackageJson_load H rootDirectory) w ->
  exists e,
    main H isTypeScript packageManager rootDirectory w = (Throw e, w)
    /\ (forall pm, getPackageManagerCommand H packageManager = Ok pm ->
          read_phase H isTypeScript rootDirectory w = (Throw e, w)).
Proof.
  intros Hfail. apply (read_phase_fails H) in Hfail as (e & w' & Hread).
  pose proof (pure_read_phase H isTypeScript rootDirectory w) as Hpure.
  rewrite Hread in Hpure. simpl in Hpure. subst w'.
  unfold main. rewrite bind_lift.
  destruct (getPackageManagerCommand H packageManager) as [pm|e0].
  - exists e. split; [now apply bind_Throw | intros _ _; assumption].
  - exists e0. split; [reflexivity | discriminate].
Qed.

Lemma read_failure_leaves_files_unchanged_witness :
  main (Fixture.host "8.6.2") false yarn "/tmp/my-app" Fixture.no_dockerfile
  = (Throw (ENOENT "/tmp/my-app/Dockerfile"), Fixture.no_dockerfile).
Proof.
  destruct (read_failure_leaves_files_unchanged (Fixture.host "8.6.2") false yarn
              "/tmp/my-app" Fixture.no_dockerfile) as (e & Hmain & Hread).
  - right. right. left. exists (ENOENT "/tmp/my-app/Dockerfile"), Fixture.no_dockerfile.
    reflexivity.
  - rewrite Hmain. f_equal. f_equal.
    specialize (Hread _ eq_refl). apply (f_equal fst) in Hread.
    vm_compute in Hread. now injection Hread as <-.
Defined.

(** C9 as amended: the suffix is the hexadecimal text of the two bytes
    [getRandomString(2)] draws, four characters among [0-9a-f], in every
    run. *)
Theorem SUFFIX_four_hex_characters (H : Host) :
  length (randomBytes H 2) = 2
  /\ String.length (SUFFIX H) = 4
  /\ JS.all_chars is_hex (SUFFIX H) = true.
Proof.
  split; [apply length_randomBytes|].
  split; [apply (length_getRandomString H 2) | apply toString_hex_is_hex].
Qed.

(** C9 as stated fails: in the fixture the suffix is [ab12], which has four
    characters and not two. *)
Lemma SUFFIX_two_characters_counterexample :
  SUFFIX (Fixture.host "8.6.2") = "ab12"
  /\ ~ (String.length (SUFFIX (Fixture.host "8.6.2")) = 2
        /\ length (randomBytes (Fixture.host "8.6.2") 2) = 1).
Proof. split; [reflexivity|]. intros [Hl _]. vm_compute in Hl. discriminate. Qed.

(** C10 as amended: the save of the manifest is not a write of its own
    outside the batch.  [updatePackageJson] returns the updated manifest and
    writes nothing; the save is started as the fourth of the six operations
    of the array of lines 163-173 and is the only save among the promises.
    Whenever the array is built to its end, what [main] does next is the
    await of [Promise.all] on that array, holding the save, then the
    formatter and the message.  When building the array throws, [main]
    throws that error without the await: nothing was started, or (untyped
    variant, a cleanup throwing) the six operations, the save among them,
    were started and are not awaited. *)
Theorem manifest_saved_within_batch (H : Host) (isTypeScript : bool)
    (packageManager : PackageManager) (pm : profile) (rootDirectory : string)
    (r : reads) (w : world) :
  (forall ps w1,
     fileOperationPromises H isTypeScript pm rootDirectory r w = (Ok ps, w1) ->
     exists pj,
       updatePackageJson H (APP_NAME H rootDirectory) isTypeScript (packageJson r) = Ok pj
       /\ ps !! 3 = Some (SavePackageJson pj, Ok ())
       /\ List.filter is_save (map fst ps) = [SavePackageJson pj]
       /\ (getPackageManagerCommand H packageManager = Ok pm ->
           read_phase H isTypeScript rootDirectory w = (Ok r, w) ->
           main H isTypeScript packageManager rootDirectory w
           = await_and_finish H pm rootDirectory ps w1))
  /\ (forall e w1,
       fileOperationPromises H isTypeScript pm rootDirectory r w = (Throw e, w1) ->
       (getPackageManagerCommand H packageManager = Ok pm ->
        read_phase H isTypeScript rootDirectory w = (Ok r, w) ->
        main H isTypeScript packageManager rootDirectory w = (Throw e, w1))
       /\ (w1 = w
           \/ (isTypeScript = false
               /\ exists toml readme' dockerfile' pj base w0,
                    prodToml H (prodContent r) (APP_NAME H rootDirectory) = Ok toml
                    /\ newReadme (readme r) (APP_NAME H rootDirectory) = Ok readme'
                    /\ newDockerfile pm (dockerfile r) = Ok dockerfile'
                    /\ updatePackageJson H (APP_NAME H rootDirectory) isTypeScript
                         (packageJson r) = Ok pj
                    /\ start_all H
                         (fileOperations H rootDirectory (toml_stringify H toml) readme'
                            dockerfile' pj) w
                       = (Ok base, w0)
                    /\ base !! 3 = Some (SavePackageJson pj, Ok ())
                    /\ (cleanupDeployWorkflow H (deployWorkflow r)
                          (DEPLOY_WORKFLOW_PATH H rootDirectory) w0 = (Throw e, w1)
                        \/ exists doc' p1 w2,
                             cleanupDeployWorkflow H (deployWorkflow r)
                               (DEPLOY_WORKFLOW_PATH H rootDirectory) w0
                             = (Ok (doc', p1), w2)
                             /\ cleanupVitestConfig H (vitestConfig r)
                                  (VITEST_CONFIG_PATH H isTypeScript rootDirectory) w2
                                = (Throw e, w1))))).
Proof.
  split.
  - intros ps w1 Hrun. pose proof Hrun as Hinv.
    apply fileOperationPromises_inv in Hinv
      as (toml & readme' & dockerfile' & pj & base & pushed & w0
          & _ & _ & _ & Hpj & Hbase & -> & Hpushed).
    exists pj. split; [assumption|].
    apply fileOperations_save in Hbase as [Hfourth Hsaves].
    split; [|split].
    + rewrite lookup_app_l; [exact Hfourth|].
      eapply lookup_lt_Some. exact Hfourth.
    + assert (Hno : List.filter is_save (map fst pushed) = []).
      { assert (Hall : Forall (fun p => is_save (fst p) = false) pushed).
        { destruct isTypeScript.
          - destruct Hpushed as [-> _]. constructor.
          - destruct Hpushed as (doc' & q1 & q2 & w2 & Hc & Hv & ->).
            apply Forall_app. split;
              [eapply cleanupDeployWorkflow_writes | eapply cleanupVitestConfig_writes];
              eassumption. }
        clear -Hall. induction Hall as [|p l Hp _ IH]; [reflexivity|].
        simpl. now rewrite Hp. }
      rewrite map_app, List.filter_app.
      change [SavePackageJson pj] with ([SavePackageJson pj] ++ [])%list.
      f_equal; [exact Hsaves | exact Hno].
    + intros Hpm Hread. unfold main, await_and_finish.
      rewrite bind_lift, Hpm.
      rewrite (bind_Ok_intro _ _ _ _ _ Hread).
      now rewrite (bind_Ok_intro _ _ _ _ _ Hrun).
  - intros e w1 Hrun. split.
    + intros Hpm Hread. unfold main. rewrite bind_lift, Hpm.
      rewrite (bind_Ok_intro _ _ _ _ _ Hread). now apply bind_Throw.
    + apply fileOperationPromises_Throw in Hrun
        as [-> | (-> & toml & readme' & dockerfile' & pj & base & w0
                  & Htoml & Hreadme & Hdocker & Hpj & Hbase & Hthrown)];
        [now left | right].
      split; [reflexivity|].
      exists toml, readme', dockerfile', pj, base, w0.
      do 5 (split; [assumption|]).
      split; [|exact Hthrown].
      now apply fileOperations_save in Hbase as [Hfourth _].
Qed.

Lemma manifest_saved_within_batch_witness :
  (exists ps pj w1,
     main (Fixture.host "8.6.2") false yarn "/tmp/my-app" Fixture.initial
     = await_and_finish (Fixture.host "8.6.2") Fixture.yarn_profile "/tmp/my-app" ps w1
     /\ length ps = 8
     /\ ps !! 3 = Some (SavePackageJson pj, Ok ())
     /\ List.filter is_save (map fst ps) = [SavePackageJson pj])
  /\ (exists e w1,
        main (Fixture.host_with_yaml (VObj [("name", VStr "Deploy")])) false yarn
          "/tmp/my-app" Fixture.initial = (Throw e, w1)
        /\ fs w1 !! "/tmp/my-app/package.json" = Some "name,scripts,devDependencies").
Proof.
  split.
  - destruct (fileOperationPromises (Fixture.host "8.6.2") false Fixture.yarn_profile
                "/tmp/my-app" Fixture.untyped_reads Fixture.initial)
      as [[ps|e] w1] eqn:Hrun.
    + destruct (proj1 (manifest_saved_within_batch (Fixture.host "8.6.2") false yarn
                         Fixture.yarn_profile "/tmp/my-app" Fixture.untyped_reads
                         Fixture.initial) ps w1 Hrun)
        as (pj & _ & Hfourth & Hsaves & Hmain).
      exists ps, pj, w1. split; [apply Hmain; reflexivity|].
      split; [|split; assumption].
      apply (f_equal fst) in Hrun. vm_compute in Hrun. now injection Hrun as <-.
    + exfalso. apply (f_equal fst) in Hrun. vm_compute in Hrun. discriminate.
  - destruct (fileOperationPromises
                (Fixture.host_with_yaml (VObj [("name", VStr "Deploy")])) false
                Fixture.yarn_profile "/tmp/my-app"
                (Fixture.untyped_reads_with (VObj [("name", VStr "Deploy")]))
                Fixture.initial)
      as [[ps|e] w1] eqn:Hrun.
    + exfalso. apply (f_equal fst) in Hrun. vm_compute in Hrun. discriminate.
    + destruct (proj2 (manifest_saved_within_batch
                         (Fixture.host_with_yaml (VObj [("name", VStr "Deploy")])) false
                         yarn Fixture.yarn_profile "/tmp/my-app"
                         (Fixture.untyped_reads_with (VObj [("name", VStr "Deploy")]))
                         Fixture.initial) e w1 Hrun)
        as [Hmain _].
      exists e, w1. split; [apply Hmain; reflexivity|].
      change w1 with (snd (Throw (A := list promise) e, w1)). rewrite <- Hrun.
      vm_compute. reflexivity.
Defined.

(** C10 as stated fails: in the typed run of the fixture with npm the save
    of the manifest is the fourth of the six promises awaited together. *)
Lemma manifest_saved_outside_batch_counterexample :
  exists pm r w1 ps w2,
    getPackageManagerCommand (Fixture.host "8.6.2") npm = Ok pm
    /\ read_phase (Fixture.host "8.6.2") true "/tmp/my-app" Fixture.initial = (Ok r, w1)
    /\ fileOperationPromises (Fixture.host "8.6.2") true pm "/tmp/my-app" r w1 = (Ok ps, w2)
    /\ map (fun p => is_save (fst p)) ps = [false; false; false; true; false; false]
    /\ ~ saved_outside_batch ps.
Proof.
  eexists _, _, _, _, _. split; [reflexivity|]. split; [reflexivity|].
  split; [reflexivity|]. split; [reflexivity|].
  unfold saved_outside_batch. intros Hall.
  do 3 apply Forall_cons in Hall as [_ Hall].
  apply Forall_cons in Hall as [Hsave _]. discriminate.
Qed.

(** * Further properties of the script *)

(** ** Helper facts *)

Section MoreStringFacts.

Lemma map_chars_append f s t :
  JS.map_chars f (s +:+ t) = JS.map_chars f s +:+ JS.map_chars f t.
Proof. induction s as [|c s IH]; simpl; [reflexivity|]. now rewrite IH. Qed.

Lemma map_chars_fixed f s :
  JS.all_chars (fun d => Ascii.eqb (f d) d) s = true -> JS.map_chars f s = s.
Proof.
  induction s as [|c s IH]; simpl; [reflexivity|].
  intros [Hc Hs]%andb_prop. apply Ascii.eqb_eq in Hc. now rewrite Hc, IH.
Qed.

Lemma length_escaped s :
  String.length (escaped s) = String.length s + count_chars special s.
Proof.
  induction s as [|c s IH]; [reflexivity|].
  simpl. destruct (special c); simpl; rewrite IH; lia.
Qed.

Lemma escaped_append s t : escaped (s +:+ t) = escaped s +:+ escaped t.
Proof.
  induction s as [|c s IH]; [reflexivity|].
  simpl. rewrite IH. now destruct (special c).
Qed.

Lemma escaped_plain s :
  JS.all_chars (fun c => negb (special c)) s = true -> escaped s = s.
Proof.
  induction s as [|c s IH]; [reflexivity|]. simpl.
  intros [Hc Hs]%andb_prop. apply negb_true_iff in Hc. now rewrite Hc, IH.
Qed.

Lemma count_chars_zero p s :
  count_chars p s = 0 -> JS.all_chars (fun c => negb (p c)) s = true.
Proof.
  induction s as [|c s IH]; [reflexivity|]. simpl.
  destruct (p c); simpl; [discriminate | exact IH].
Qed.

End MoreStringFacts.

(** ** The pattern builder and the name generator *)

(** X1: for every text, the pattern built from [escapeRegExp] of it has one
    matcher per character of the text and matches at a place exactly when
    the text itself starts there; a global replacement by it (of a token
    that is not empty, by a replacement without dollar signs) replaces every
    occurrence of the text. *)
Theorem escapeRegExp_matches_literally (s : string) :
  exists rx,
    JS.new_RegExp (escapeRegExp s) = Ok rx
    /\ length rx = String.length s
    /\ (forall t, JS.match_here rx t = JS.starts_with s t)
    /\ (forall text repl,
          s <> EmptyString -> JS.all_chars plain repl = true ->
          ReplacedEvery s repl text (JS.replace_all text rx repl)).
Proof.
  exists (JS.literal s). split; [apply new_RegExp_escapeRegExp|].
  split; [apply length_literal|]. split; [intros t; apply match_here_literal|].
  intros text repl Hs Hrepl. now apply replace_all_spec.
Qed.

(** X2: [escapeRegExp] puts one backslash before each of the fourteen
    special characters and changes nothing else.  It is the character by
    character function [escaped]: the empty text stays empty, a special
    character becomes a backslash and that character, any other character
    stays, each followed by the escaped rest; hence it distributes over
    concatenation, the result is longer by the number of special
    characters, and it is the text itself exactly when the text has none. *)
Theorem escapeRegExp_one_backslash_each (s : string) :
  escapeRegExp s = escaped s
  /\ escapeRegExp EmptyString = EmptyString
  /\ (forall c,
        escapeRegExp (String c s)
        = if special c then String "\" (String c (escapeRegExp s))
          else String c (escapeRegExp s))
  /\ (forall t, escapeRegExp (s +:+ t) = escapeRegExp s +:+ escapeRegExp t)
  /\ String.length (escapeRegExp s) = String.length s + count_chars special s
  /\ (escapeRegExp s = s <-> JS.all_chars (fun c => negb (special c)) s = true).
Proof.
  split; [apply escapeRegExp_escaped|]. split; [reflexivity|].
  split; [intros c; now rewrite !escapeRegExp_escaped|].
  split; [intros t; rewrite !escapeRegExp_escaped; apply escaped_append|].
  rewrite escapeRegExp_escaped. split; [apply length_escaped|]. split.
  - intros Heq. apply count_chars_zero.
    pose proof (length_escaped s) as Hlen. rewrite Heq in Hlen. lia.
  - apply escaped_plain.
Qed.

Section MoreNameFacts.
Context (H : Host).

Lemma byte_of_hex_digits b :
  Byte.of_N (16 * unhex_digit (hex_digit (Byte.to_N b / 16))
             + unhex_digit (hex_digit (Byte.to_N b mod 16))) = Some b.
Proof. destruct b; reflexivity. Qed.

Lemma from_hex_toString_hex bytes : from_hex (toString_hex bytes) = Some bytes.
Proof.
  induction bytes as [|b bytes IH]; [reflexivity|].
  cbn [toString_hex from_hex]. rewrite byte_of_hex_digits. simpl. now rewrite IH.
Qed.

Lemma allowed_hex c : is_hex c = true -> allowed c = true.
Proof.
  unfold is_hex, allowed, in_range.
  intros [[H1 H2]%andb_prop | [H1 H2]%andb_prop]%orb_prop;
    apply N.leb_le in H1, H2.
  - replace (48 <=? N_of_ascii c)%N with true by (symmetry; now apply N.leb_le).
    replace (N_of_ascii c <=? 57)%N with true by (symmetry; now apply N.leb_le).
    simpl. now rewrite !orb_true_r.
  - replace (97 <=? N_of_ascii c)%N with true by (symmetry; now apply N.leb_le).
    replace (N_of_ascii c <=? 122)%N with true by (symmetry; apply N.leb_le; lia).
    reflexivity.
Qed.

Lemma sanitize_allowed c : allowed c = true -> sanitize c = c.
Proof. intros Hc. unfold sanitize, not_allowed. now rewrite Hc. Qed.

Lemma map_sanitize_allowed s :
  JS.all_chars allowed s = true -> JS.map_chars sanitize s = s.
Proof.
  intros Hs. apply map_chars_fixed. revert Hs. apply all_chars_impl.
  intros c Hc. rewrite sanitize_allowed by assumption. apply Ascii.eqb_refl.
Qed.

Lemma sanitize_SUFFIX : JS.map_chars sanitize (SUFFIX H) = SUFFIX H.
Proof.
  apply map_sanitize_allowed. eapply all_chars_impl; [apply allowed_hex|].
  apply toString_hex_is_hex.
Qed.

End MoreNameFacts.

(** X3: for every length [n], [getRandomString(n)] is a text of [2 * n]
    characters among [0-9a-f] from which the [n] bytes drawn can be read
    back: two runs get the same text only when they drew the same bytes. *)
Theorem getRandomString_carries_the_bytes (H : Host) (n : nat) :
  String.length (getRandomString H n) = 2 * n
  /\ JS.all_chars is_hex (getRandomString H n) = true
  /\ from_hex (getRandomString H n) = Some (randomBytes H n)
  /\ (forall H', getRandomString H n = getRandomString H' n ->
                 randomBytes H n = randomBytes H' n).
Proof.
  split; [apply length_getRandomString|]. split; [apply toString_hex_is_hex|].
  split; [apply from_hex_toString_hex|].
  intros H' Heq. apply (f_equal from_hex) in Heq.
  unfold getRandomString in Heq. rewrite !from_hex_toString_hex in Heq. congruence.
Qed.

(** X4: the generated name is the sanitized directory name, a hyphen and
    the random suffix as drawn (the sanitizer leaves the suffix alone), so it
    has five characters more than the directory name; a directory name made
    of allowed characters is kept as it is. *)
Theorem APP_NAME_keeps_the_suffix (H : Host) (rootDirectory : string) :
  APP_NAME H rootDirectory =
    JS.map_chars sanitize (DIR_NAME H rootDirectory) +:+ "-" +:+ SUFFIX H
  /\ String.length (APP_NAME H rootDirectory)
     = String.length (DIR_NAME H rootDirectory) + 5
  /\ (JS.all_chars allowed (DIR_NAME H rootDirectory) = true ->
      APP_NAME H rootDirectory = DIR_NAME H rootDirectory +:+ "-" +:+ SUFFIX H).
Proof.
  assert (Heq : APP_NAME H rootDirectory =
                JS.map_chars sanitize (DIR_NAME H rootDirectory) +:+ "-" +:+ SUFFIX H).
  { rewrite APP_NAME_sanitized, !map_chars_append, sanitize_SUFFIX. reflexivity. }
  split; [exact Heq|]. split.
  - rewrite Heq, !length_append, length_map_chars.
    change (String.length (SUFFIX H)) with (String.length (getRandomString H 2)).
    rewrite length_getRandomString. simpl. lia.
  - intros Hdir. rewrite Heq. now rewrite map_sanitize_allowed.
Qed.

(** ** The cleanups of the untyped variant *)

Section MoreObjectFacts.

Lemma set_set o k v v' : Obj.set (Obj.set o k v) k v' = Obj.set o k v'.
Proof.
  induction o as [|[k0 v0] o IH]; simpl.
  - now rewrite String.eqb_refl.
  - destruct (String.eqb k0 k) eqn:Hk; simpl.
    + now rewrite String.eqb_refl.
    + now rewrite Hk, IH.
Qed.

Lemma delete_set_ne o k v k' :
  k <> k' -> Obj.delete (Obj.set o k v) k' = Obj.set (Obj.delete o k') k v.
Proof.
  intros Hne. pose proof Hne as Hne'. apply String.eqb_neq in Hne'.
  induction o as [|[k0 v0] o IH].
  - cbn [Obj.set]. rewrite delete_cons, Hne'. reflexivity.
  - cbn [Obj.set]. destruct (String.eqb k0 k) eqn:Hk.
    + apply String.eqb_eq in Hk as ->. rewrite !delete_cons, Hne'. cbn [Obj.set].
      now rewrite String.eqb_refl.
    + rewrite !delete_cons. destruct (String.eqb k0 k'); [exact IH|].
      cbn [Obj.set]. now rewrite Hk, IH.
Qed.

Lemma delete_absent o k : Obj.has o k = false -> Obj.delete o k = o.
Proof.
  induction o as [|[k0 v0] o IH]; [reflexivity|].
  rewrite delete_cons. cbn [Obj.has].
  destruct (String.eqb k0 k); simpl; [discriminate|].
  intros Hh. now rewrite IH.
Qed.

Lemma delete_delete o k : Obj.delete (Obj.delete o k) k = Obj.delete o k.
Proof. apply delete_absent, has_delete_eq. Qed.

Lemma keys_delete o k :
  Obj.keys (Obj.delete o k) = List.filter (fun k' => negb (String.eqb k' k)) (Obj.keys o).
Proof.
  unfold Obj.keys. induction o as [|[k0 v0] o IH]; [reflexivity|].
  rewrite delete_cons. simpl. destruct (String.eqb k0 k); simpl; now rewrite IH.
Qed.

Lemma get_has o k : Obj.get o k <> VUndefined -> Obj.has o k = true.
Proof.
  intros Hget. destruct (Obj.has o k) eqn:Hh; [reflexivity|].
  now apply has_false_get in Hh.
Qed.

Lemma filter_filter {A} (f : A -> bool) l :
  List.filter f (List.filter f l) = List.filter f l.
Proof.
  induction l as [|x l IH]; [reflexivity|]. simpl.
  destruct (f x) eqn:Hx; simpl; now rewrite ?Hx, IH.
Qed.

Lemma get_prop_throws v k e :
  get_prop v k = Throw e -> exists msg, e = TypeError msg.
Proof. destruct v; simpl; intros [= <-]; eauto. Qed.

Lemma delete_prop_throws v k e :
  delete_prop v k = Throw e -> exists msg, e = TypeError msg.
Proof. destruct v; simpl; intros [= <-]; eauto. Qed.

Lemma array_filter_throws v keep e :
  array_filter v keep = Throw e -> exists msg, e = TypeError msg.
Proof. destruct v; simpl; intros [= <-]; eauto. Qed.

Lemma string_replace_throws v p r e :
  string_replace v p r = Throw e -> exists msg, e = TypeError msg.
Proof. destruct v; simpl; intros [= <-]; eauto. Qed.

Lemma own_entries_throws v e :
  own_entries v = Throw e -> exists msg, e = TypeError msg.
Proof. destruct v; simpl; intros [= <-]; eauto. Qed.

End MoreObjectFacts.

(** X5: [cleanupVitestConfig] on the text of a configuration starts one
    write, of the text with its first mention of [setup-test-env.ts] turned
    into [setup-test-env.js] (a text without one is written as it is, later
    mentions stay); on anything that is not a text it throws a [TypeError]
    and writes nothing. *)
Theorem cleanupVitestConfig_first_mention (H : Host) (path : string) (w : world) :
  (forall s, exists t,
     cleanupVitestConfig H (VStr s) path w
       = (Ok [(WriteFile path t, Ok ())], write path t w)
     /\ ReplacedFirst "setup-test-env.ts" "setup-test-env.js" s t)
  /\ (forall v, (forall s, v <> VStr s) ->
        exists msg, cleanupVitestConfig H v path w = (Throw (TypeError msg), w)).
Proof.
  split.
  - intros s. eexists. split; [reflexivity|]. now apply replace_spec.
  - intros v Hv. unfold cleanupVitestConfig. rewrite bind_lift.
    destruct v; simpl; eauto. now destruct (Hv s).
Qed.

(** X6: when [cleanupDeployWorkflow] throws, it throws a [TypeError], no
    write was started (files and console are as before), and the document
    was one in which [jobs.deploy.needs] is not a list. *)
Theorem cleanupDeployWorkflow_failure (H : Host) (doc : value) (path : string)
    (w : world) (e : error) (w' : world) :
  cleanupDeployWorkflow H doc path w = (Throw e, w') ->
  w' = w /\ (exists msg, e = TypeError msg) /\ ~ has_needs_list doc.
Proof.
  intros Hrun. split; [|split].
  3: { intros (d & jobs & deploy & needs & -> & Hj & Hd & Hn).
       rewrite (cleanupDeployWorkflow_spec H d jobs deploy needs path w Hj Hd Hn) in Hrun.
       discriminate. }
  all: unfold cleanupDeployWorkflow in Hrun; rewrite bind_lift in Hrun;
    destruct (get_prop doc "jobs") as [jobs|e0] eqn:Hjobs;
    [|injection Hrun as <- <-; first [reflexivity | eapply get_prop_throws; eassumption]];
    rewrite bind_lift in Hrun;
    destruct (delete_prop jobs "typecheck") as [jobs'|e0] eqn:Hdelete;
    [|injection Hrun as <- <-; first [reflexivity | eapply delete_prop_throws; eassumption]];
    rewrite bind_lift in Hrun;
    destruct (get_prop jobs' "deploy") as [deploy|e0] eqn:Hdeploy;
    [|injection Hrun as <- <-; first [reflexivity | eapply get_prop_throws; eassumption]];
    rewrite bind_lift in Hrun;
    destruct (get_prop deploy "needs") as [needs|e0] eqn:Hneeds;
    [|injection Hrun as <- <-; first [reflexivity | eapply get_prop_throws; eassumption]];
    rewrite bind_lift in Hrun;
    destruct (array_filter needs _) as [needs'|e0] eqn:Hfilter;
    [|injection Hrun as <- <-; first [reflexivity | eapply array_filter_throws; eassumption]];
    apply array_filter_array in Hfilter as [l ->];
    (apply get_prop_object in Hneeds as [o ->]; [|discriminate]);
    (apply get_prop_object in Hdeploy as [j ->]; [|discriminate]);
    apply delete_prop_object in Hdelete as [j' ->];
    (apply get_prop_object in Hjobs as [d ->]; [|discriminate]);
    discriminate.
Qed.

Lemma cleanupDeployWorkflow_failure_witness :
  cleanupDeployWorkflow (Fixture.host "8.6.2") (VObj [("name", VStr "Deploy")])
    "/tmp/my-app/.github/workflows/deploy.yml" Fixture.initial
  = (Throw (TypeError "Cannot convert undefined or null to object: typecheck"),
     Fixture.initial).
Proof.
  destruct (cleanupDeployWorkflow (Fixture.host "8.6.2") (VObj [("name", VStr "Deploy")])
              "/tmp/my-app/.github/workflows/deploy.yml" Fixture.initial)
    as [[x|e] w'] eqn:Hrun.
  - exfalso. apply (f_equal fst) in Hrun. vm_compute in Hrun. discriminate.
  - destruct (cleanupDeployWorkflow_failure _ _ _ _ _ _ Hrun) as (-> & _ & _).
    apply (f_equal fst) in Hrun. vm_compute in Hrun. now injection Hrun as <-.
Defined.

Section MoreObjectFacts2.

Lemma set_get_id o k : Obj.has o k = true -> Obj.set o k (Obj.get o k) = o.
Proof.
  induction o as [|[k0 v0] o IH]; simpl; [discriminate|].
  destruct (String.eqb k0 k) eqn:Hk; simpl.
  - intros _. apply String.eqb_eq in Hk. now subst.
  - intros Hh. now rewrite IH.
Qed.

Lemma filter_all {A} (f : A -> bool) l :
  (forall x, In x l -> f x = true) -> List.filter f l = l.
Proof.
  induction l as [|x l IH]; [reflexivity|]. intros Hall. simpl.
  rewrite (Hall x) by now left. rewrite IH; [reflexivity|].
  intros y Hy. apply Hall. now right.
Qed.

Lemma strict_ne_string_true v s : v <> VStr s -> strict_ne_string v s = true.
Proof.
  destruct v; try reflexivity. simpl. intros Hne.
  destruct (String.eqb_spec s0 s) as [->|]; [congruence | reflexivity].
Qed.

Lemma has_false_keys o k : Obj.has o k = false <-> ~ In k (Obj.keys o).
Proof.
  unfold Obj.keys. induction o as [|[k0 v0] o IH]; simpl; [tauto|].
  destruct (String.eqb_spec k0 k) as [->|Hne]; simpl.
  - split; [discriminate | intros Hn; destruct Hn; now left].
  - rewrite IH. tauto.
Qed.

Lemma set_absent o k v : Obj.has o k = false -> Obj.set o k v = (o ++ [(k, v)])%list.
Proof.
  induction o as [|[k0 v0] o IH]; simpl; [reflexivity|].
  destruct (String.eqb k0 k); simpl; [discriminate|]. intros Hh. now rewrite IH.
Qed.

Lemma spread_nodup l :
  forall acc, List.NoDup (Obj.keys acc ++ Obj.keys l) -> Obj.spread acc l = (acc ++ l)%list.
Proof.
  unfold Obj.spread, Obj.keys.
  induction l as [|[k v] l IH]; intros acc Hnd; simpl.
  - now rewrite app_nil_r.
  - assert (Hk : Obj.has acc k = false).
    { apply has_false_keys. intros Hin. simpl in Hnd.
      apply List.NoDup_remove_2 in Hnd. apply Hnd, in_or_app. now left. }
    rewrite (set_absent _ _ _ Hk), IH.
    + now rewrite <- app_assoc.
    + rewrite map_app. simpl. rewrite <- app_assoc. exact Hnd.
Qed.

Lemma fromEntries_nodup l : List.NoDup (Obj.keys l) -> Obj.fromEntries l = l.
Proof. intros Hnd. unfold Obj.fromEntries. now rewrite spread_nodup. Qed.

Lemma keys_filter (f : string -> bool) o :
  Obj.keys (List.filter (fun kv => f (fst kv)) o) = List.filter f (Obj.keys o).
Proof.
  unfold Obj.keys. induction o as [|[k v] o IH]; [reflexivity|].
  simpl. destruct (f k); simpl; now rewrite IH.
Qed.

Lemma get_filter (f : string -> bool) o k :
  f k = true -> Obj.get (List.filter (fun kv => f (fst kv)) o) k = Obj.get o k.
Proof.
  intros Hk. induction o as [|[k0 v0] o IH]; [reflexivity|]. simpl.
  destruct (String.eqb_spec k0 k) as [->|Hne].
  - rewrite Hk. simpl. now rewrite String.eqb_refl.
  - destruct (f k0); simpl; [|exact IH].
    apply String.eqb_neq in Hne. now rewrite Hne.
Qed.

Lemma has_filter (f : string -> bool) o k :
  Obj.has (List.filter (fun kv => f (fst kv)) o) k = f k && Obj.has o k.
Proof.
  induction o as [|[k0 v0] o IH]; [now rewrite andb_false_r|]. simpl.
  destruct (String.eqb_spec k0 k) as [->|Hne].
  - destruct (f k) eqn:Hk; simpl; [now rewrite String.eqb_refl | exact IH].
  - destruct (f k0); simpl; [|exact IH].
    apply String.eqb_neq in Hne. now rewrite Hne.
Qed.

End MoreObjectFacts2.

(** X7: on a workflow document without YAML aliases (no node shared, the
    documents of the embedding) in which [jobs.deploy.needs] is a list,
    [cleanupDeployWorkflow] changes nothing but the [typecheck] job and the
    needs of [deploy]: the top-level keys and their order, every other
    top-level value, every other job and the order of the jobs, and every
    other field of [deploy] are as they were; a document that mentions
    [typecheck] in neither place is written back as it was.  (An alias of
    the [deploy] job is the same object as [deploy] and gets the new needs
    with it; such a document is not covered.) *)
Theorem cleanupDeployWorkflow_frame (H : Host) (d jobs deploy : props)
    (needs : list value) (path : string) (w : world) :
  Obj.get d "jobs" = VObj jobs ->
  Obj.get jobs "deploy" = VObj deploy ->
  Obj.get deploy "needs" = VArr needs ->
  exists d' jobs' deploy' ps w',
    cleanupDeployWorkflow H (VObj d) path w = (Ok (VObj d', ps), w')
    /\ Obj.get d' "jobs" = VObj jobs'
    /\ Obj.get jobs' "deploy" = VObj deploy'
    /\ Obj.keys d' = Obj.keys d
    /\ (forall k, k <> "jobs" -> Obj.get d' k = Obj.get d k)
    /\ Obj.keys jobs'
       = List.filter (fun k => negb (String.eqb k "typecheck")) (Obj.keys jobs)
    /\ (forall k, k <> "typecheck" -> k <> "deploy" -> Obj.get jobs' k = Obj.get jobs k)
    /\ Obj.keys deploy' = Obj.keys deploy
    /\ (forall k, k <> "needs" -> Obj.get deploy' k = Obj.get deploy k)
    /\ (Obj.has jobs "typecheck" = false -> ~ In (VStr "typecheck") needs -> d' = d).
Proof.
  intros Hj Hd Hn. eexists _, _, _, _, _. split.
  { now apply cleanupDeployWorkflow_spec with (jobs := jobs) (deploy := deploy) (needs := needs). }
  split; [apply get_set_eq|]. split; [apply get_set_eq|].
  assert (Hhj : Obj.has d "jobs" = true) by (apply get_has; congruence).
  assert (Hhd : Obj.has jobs "deploy" = true) by (apply get_has; congruence).
  assert (Hhn : Obj.has deploy "needs" = true) by (apply get_has; congruence).
  split; [now apply keys_set_has|].
  split; [intros k Hk; now apply get_set_ne|].
  split.
  { rewrite keys_set_has; [apply keys_delete|].
    now rewrite has_delete_ne by discriminate. }
  split.
  { intros k Hk1 Hk2. rewrite get_set_ne by congruence. now apply get_delete_ne. }
  split; [now apply keys_set_has|].
  split; [intros k Hk; now apply get_set_ne|].
  intros Hno Hnone.
  rewrite filter_all.
  - rewrite <- Hn, (set_get_id deploy "needs" Hhn), (delete_absent jobs _ Hno).
    rewrite <- Hd, (set_get_id jobs "deploy" Hhd), <- Hj. now rewrite set_get_id.
  - intros x Hx. apply strict_ne_string_true. intros ->. contradiction.
Qed.

Lemma cleanupDeployWorkflow_frame_witness :
  exists d' jobs' deploy' ps w',
    cleanupDeployWorkflow (Fixture.host "8.6.2") Fixture.workflow
      "/tmp/my-app/.github/workflows/deploy.yml" Fixture.initial = (Ok (VObj d', ps), w')
    /\ Obj.get d' "jobs" = VObj jobs'
    /\ Obj.get jobs' "deploy" = VObj deploy'
    /\ Obj.keys d' = ["name"; "jobs"]
    /\ Obj.get d' "name" = VStr "Deploy"
    /\ Obj.keys jobs' = ["lint"; "deploy"]
    /\ Obj.get jobs' "lint" = VObj [("steps", VArr [])]
    /\ Obj.keys deploy' = ["needs"; "steps"]
    /\ Obj.get deploy' "steps" = VArr [].
Proof.
  destruct (cleanupDeployWorkflow_frame (Fixture.host "8.6.2")
              [("name", VStr "Deploy");
               ("jobs", VObj [("lint", VObj [("steps", VArr [])]);
                              ("typecheck", VObj [("steps", VArr [])]);
                              ("deploy", VObj [("needs", VArr [VStr "lint"; VStr "typecheck"]);
                                               ("steps", VArr [])])])]
              _ _ [VStr "lint"; VStr "typecheck"]
              "/tmp/my-app/.github/workflows/deploy.yml" Fixture.initial
              eq_refl eq_refl eq_refl)
    as (d' & jobs' & deploy' & ps & w' & Hrun & Hjobs & Hdeploy & Hkeys & Hother
        & Hjkeys & Hjother & Hdkeys & Hdother & _).
  exists d', jobs', deploy', ps, w'. split; [exact Hrun|].
  split; [exact Hjobs|]. split; [exact Hdeploy|]. split; [exact Hkeys|].
  split; [now rewrite Hother by discriminate|]. split; [exact Hjkeys|].
  split; [now rewrite Hjother by discriminate|]. split; [exact Hdkeys|].
  now rewrite Hdother by discriminate.
Defined.

(** X8: [cleanupDeployWorkflow] is idempotent on documents: run on the
    document it returned, it returns that document again. *)
Theorem cleanupDeployWorkflow_idempotent (H : Host) (d jobs deploy : props)
    (needs : list value) (path : string) (w : world) :
  Obj.get d "jobs" = VObj jobs ->
  Obj.get jobs "deploy" = VObj deploy ->
  Obj.get deploy "needs" = VArr needs ->
  exists doc' ps w',
    cleanupDeployWorkflow H (VObj d) path w = (Ok (doc', ps), w')
    /\ forall w2, exists ps2 w3,
         cleanupDeployWorkflow H doc' path w2 = (Ok (doc', ps2), w3).
Proof.
  intros Hj Hd Hn. eexists _, _, _. split.
  { now apply cleanupDeployWorkflow_spec with (jobs := jobs) (deploy := deploy) (needs := needs). }
  intros w2. eexists _, _.
  erewrite cleanupDeployWorkflow_spec; [|apply get_set_eq|apply get_set_eq|apply get_set_eq].
  rewrite filter_filter, !set_set.
  rewrite delete_set_ne by discriminate. rewrite delete_delete, !set_set.
  reflexivity.
Qed.

Lemma cleanupDeployWorkflow_idempotent_witness :
  exists doc' ps w',
    cleanupDeployWorkflow (Fixture.host "8.6.2") Fixture.workflow
      "/tmp/my-app/.github/workflows/deploy.yml" Fixture.initial = (Ok (doc', ps), w')
    /\ exists ps2 w3,
         cleanupDeployWorkflow (Fixture.host "8.6.2") doc'
           "/tmp/my-app/.github/workflows/deploy.yml" w' = (Ok (doc', ps2), w3).
Proof.
  destruct (cleanupDeployWorkflow_idempotent (Fixture.host "8.6.2")
              [("name", VStr "Deploy");
               ("jobs", VObj [("lint", VObj [("steps", VArr [])]);
                              ("typecheck", VObj [("steps", VArr [])]);
                              ("deploy", VObj [("needs", VArr [VStr "lint"; VStr "typecheck"]);
                                               ("steps", VArr [])])])]
              _ _ [VStr "lint"; VStr "typecheck"]
              "/tmp/my-app/.github/workflows/deploy.yml" Fixture.initial
              eq_refl eq_refl eq_refl)
    as (doc' & ps & w' & Hrun & Hagain).
  exists doc', ps, w'. split; [exact Hrun | apply Hagain].
Defined.

(** X9: on a dependency map (an object, its keys distinct)
    [removeUnusedDependencies] returns the map without the keys named as
    unused: those keys are absent, every other key keeps its value and its
    place; on [undefined] or [null] it throws a [TypeError]. *)
Theorem removeUnusedDependencies_drops_only_unused (deps : props) (unused : list string) :
  List.NoDup (Obj.keys deps) ->
  (exists d,
     removeUnusedDependencies (VObj deps) unused = Ok (VObj d)
     /\ (forall k, In k unused -> Obj.has d k = false)
     /\ (forall k, ~ In k unused ->
           Obj.get d k = Obj.get deps k /\ Obj.has d k = Obj.has deps k)
     /\ Obj.keys d
        = List.filter (fun k => negb (existsb (String.eqb k) unused)) (Obj.keys deps))
  /\ (forall v, nullish v = true ->
        exists msg, removeUnusedDependencies v unused = Throw (TypeError msg)).
Proof.
  intros Hnd. set (keep := fun k => negb (existsb (String.eqb k) unused)).
  assert (Hin : forall k, In k unused <-> keep k = false).
  { intros k. unfold keep. rewrite negb_false_iff, existsb_exists. split.
    - intros Hk. exists k. split; [assumption | apply String.eqb_refl].
    - intros (x & Hx & ->%String.eqb_eq). assumption. }
  split.
  - exists (List.filter (fun kv => keep (fst kv)) deps). split.
    + unfold removeUnusedDependencies. simpl. rewrite fromEntries_nodup; [reflexivity|].
      rewrite (keys_filter keep). now apply List.NoDup_filter.
    + split; [|split].
      * intros k Hk. rewrite (has_filter keep). apply Hin in Hk. now rewrite Hk.
      * intros k Hk. assert (Hkeep : keep k = true).
        { destruct (keep k) eqn:Hkk; [reflexivity|]. now apply Hin in Hkk. }
        split; [now apply (get_filter keep) | now rewrite (has_filter keep), Hkeep].
      * apply (keys_filter keep).
  - intros v Hv. destruct v; try discriminate; simpl; eauto.
Qed.

Lemma removeUnusedDependencies_drops_only_unused_witness :
  removeUnusedDependencies
    (VObj [("prettier", VStr "2.8.8"); ("ts-node", VStr "10.9.1");
           ("typescript", VStr "5.0.4")]) ["ts-node"]
  = Ok (VObj [("prettier", VStr "2.8.8"); ("typescript", VStr "5.0.4")]).
Proof.
  destruct (removeUnusedDependencies_drops_only_unused
              [("prettier", VStr "2.8.8"); ("ts-node", VStr "10.9.1");
               ("typescript", VStr "5.0.4")] ["ts-node"]) as [(d & Hrun & _) _].
  - repeat constructor; simpl; intuition discriminate.
  - reflexivity.
Defined.

(** ** The TOML patch and the manifest *)

(** X10: on a TOML document whose [app] field is a text, the patch with the
    generated name replaces the first occurrence of the placeholder in that
    text by the name, read literally, and nothing else: a text without the
    placeholder stays, every other field and the order of the keys are as
    they were. *)
Theorem prodToml_replaces_first_placeholder (H : Host) (prodContent rootDirectory : string)
    (doc : props) (app : string) :
  toml_parse H prodContent = Ok (VObj doc) ->
  Obj.get doc "app" = VStr app ->
  exists doc' app',
    prodToml H prodContent (APP_NAME H rootDirectory) = Ok (VObj doc')
    /\ Obj.get doc' "app" = VStr app'
    /\ ReplacedFirst REPLACER (APP_NAME H rootDirectory) app app'
    /\ (forall k, k <> "app" -> Obj.get doc' k = Obj.get doc k)
    /\ Obj.keys doc' = Obj.keys doc.
Proof.
  intros Hparse Happ. eexists _, _. split.
  - unfold prodToml. rewrite Hparse. simpl. rewrite Happ. reflexivity.
  - split; [apply get_set_eq|]. split; [apply replace_spec, APP_NAME_plain|].
    split; [intros k Hk; now apply get_set_ne|].
    apply keys_set_has, get_has. congruence.
Qed.

Lemma prodToml_replaces_first_placeholder_witness :
  exists doc',
    prodToml (Fixture.host_with_toml
                (VObj [("app", VStr "eu-symphonic-stack-template");
                       ("primary_region", VStr "ams")]))
      "app = ..." "my-app-ab12"
    = Ok (VObj doc')
    /\ Obj.get doc' "app" = VStr "eu-my-app-ab12"
    /\ Obj.get doc' "primary_region" = VStr "ams".
Proof.
  destruct (prodToml_replaces_first_placeholder
              (Fixture.host_with_toml
                 (VObj [("app", VStr "eu-symphonic-stack-template");
                        ("primary_region", VStr "ams")]))
              "app = ..." "/tmp/my-app" _ "eu-symphonic-stack-template" eq_refl eq_refl)
    as (doc' & app' & Hrun & Happ & _ & Hother & _).
  exists doc'. split; [exact Hrun|].
  split; [|now rewrite Hother by discriminate].
  vm_compute in Hrun. injection Hrun as <-. reflexivity.
Defined.

(** X11: the TOML patch throws what the parser throws, and a [TypeError]
    when the parsed document has no [app] field or one that is not a
    text. *)
Theorem prodToml_failure (H : Host) (prodContent name : string) :
  (forall e, toml_parse H prodContent = Throw e ->
             prodToml H prodContent name = Throw e)
  /\ (forall parsed,
        toml_parse H prodContent = Ok parsed ->
        (forall doc s, parsed = VObj doc -> Obj.get doc "app" <> VStr s) ->
        exists msg, prodToml H prodContent name = Throw (TypeError msg)).
Proof.
  split.
  - intros e He. unfold prodToml. now rewrite He.
  - intros parsed Hparse Happ. unfold prodToml. rewrite Hparse. simpl.
    destruct parsed; simpl; eauto.
    destruct (Obj.get props0 "app") eqn:Hget; simpl; eauto.
    now destruct (Happ props0 s eq_refl).
Qed.

Lemma prodToml_failure_witness :
  prodToml (Fixture.host_with_toml (VObj [("primary_region", VStr "ams")]))
    "primary_region = ..." "my-app-ab12"
  = Throw (TypeError "Cannot read properties of undefined or null: replace").
Proof.
  destruct (prodToml_failure
              (Fixture.host_with_toml (VObj [("primary_region", VStr "ams")]))
              "primary_region = ..." "my-app-ab12") as [_ Hmissing].
  destruct (Hmissing _ eq_refl) as [msg Hrun].
  - intros doc s [= <-]. discriminate.
  - rewrite Hrun. vm_compute in Hrun. now injection Hrun as <-.
Defined.

(** X12: [updatePackageJson] throws a [TypeError], whatever the package
    behind [update] does, on a manifest without a script map and, for the
    untyped variant, on a manifest without development dependencies or
    whose [validate] script is missing or not a text. *)
Theorem updatePackageJson_missing_keys (H : Host) (name : string) (isTypeScript : bool)
    (pj : PackageJson) (c : props) :
  content pj = VObj c ->
  (nullish (Obj.get c "scripts") = true ->
     exists msg, updatePackageJson H name isTypeScript pj = Throw (TypeError msg))
  /\ (isTypeScript = false ->
      nullish (Obj.get c "scripts") = false ->
      nullish (Obj.get c "devDependencies") = true ->
      exists msg, updatePackageJson H name isTypeScript pj = Throw (TypeError msg))
  /\ (isTypeScript = false ->
      forall scripts,
        Obj.get c "scripts" = VObj scripts ->
        (forall s, Obj.get scripts "validate" <> VStr s) ->
        exists msg, updatePackageJson H name isTypeScript pj = Throw (TypeError msg)).
Proof.
  intros Hc. unfold updatePackageJson. rewrite Hc. simpl. split; [|split].
  - destruct (Obj.get c "scripts"); simpl; intros; try discriminate; eauto.
  - intros -> Hs Hd.
    destruct (own_entries_Ok _ Hs) as [entries ->]. simpl.
    assert (exists x, get_prop (Obj.get c "scripts") "typecheck" = Ok x) as [x ->]
      by (destruct (Obj.get c "scripts"); simpl in *; try discriminate; eauto).
    assert (exists x, get_prop (Obj.get c "scripts") "validate" = Ok x) as [y ->]
      by (destruct (Obj.get c "scripts"); simpl in *; try discriminate; eauto).
    simpl. unfold removeUnusedDependencies.
    destruct (Obj.get c "devDependencies"); simpl in *; try discriminate; eauto.
  - intros -> scripts Hs Hv. rewrite Hs. simpl.
    destruct (removeUnusedDependencies (Obj.get c "devDependencies") ["ts-node"])
      as [d|e] eqn:Hd; simpl.
    + destruct (Obj.get scripts "validate") eqn:Hget; simpl; eauto.
      now destruct (Hv s).
    + unfold removeUnusedDependencies in Hd.
      destruct (own_entries (Obj.get c "devDependencies")) as [x|e0] eqn:He;
        simpl in Hd; [discriminate|]. injection Hd as <-.
      apply own_entries_throws in He as [msg ->]. eauto.
Qed.

Lemma updatePackageJson_missing_keys_witness :
  updatePackageJson (Fixture.host "8.6.2") "my-app-ab12" false
    {| filename := "/tmp/my-app/package.json";
       content := VObj [("name", VStr "x");
                        ("scripts", VObj [("typecheck", VStr "tsc")]);
                        ("devDependencies", VObj [])] |}
  = Throw (TypeError "Cannot read properties of undefined or null: replace").
Proof.
  destruct (updatePackageJson_missing_keys (Fixture.host "8.6.2") "my-app-ab12" false
              {| filename := "/tmp/my-app/package.json";
                 content := VObj [("name", VStr "x");
                                  ("scripts", VObj [("typecheck", VStr "tsc")]);
                                  ("devDependencies", VObj [])] |} _ eq_refl)
    as (_ & _ & Hvalidate).
  destruct (Hvalidate eq_refl _ eq_refl) as [msg Hrun].
  - intros s. discriminate.
  - rewrite Hrun. vm_compute in Hrun. now injection Hrun as <-.
Defined.

(** ** The resolver and the Dockerfile *)

(** X13: for the three managers of the table, npm, pnpm and yarn (the
    identifiers of [PackageManager]; any other identifier is outside this
    property), the resolver throws only for pnpm, and then what the probe
    [pnpm --version] or one of the two comparisons of the trimmed output
    threw; for npm and yarn it returns a profile that is the same on every
    host: it runs no command and never throws. *)
Theorem getPackageManagerCommand_failure (H : Host) (m : PackageManager) :
  (forall e,
     getPackageManagerCommand H m = Throw e ->
     m = pnpm
     /\ (execSync_stdout H "pnpm --version" = Throw e
         \/ exists out,
              execSync_stdout H "pnpm --version" = Ok out
              /\ (semver_lt H (JS.trim out) "7.0.0" = Throw e
                  \/ (exists below, semver_lt H (JS.trim out) "7.0.0" = Ok below)
                     /\ semver_gte H (JS.trim out) "6.13.0" = Throw e)))
  /\ (m <> pnpm ->
      exists p, forall H' : Host, getPackageManagerCommand H' m = Ok p).
Proof.
  split.
  - intros e. destruct m; simpl; try discriminate. intros Hrun. split; [reflexivity|].
    unfold getPackageManagerVersion in Hrun. simpl in Hrun.
    destruct (execSync_stdout H "pnpm --version") as [out|e0]; simpl in Hrun;
      [|left; congruence].
    right. exists out. split; [reflexivity|].
    destruct (semver_lt H (JS.trim out) "7.0.0") as [below|e0]; simpl in Hrun;
      [|left; congruence].
    right. split; [eauto|].
    destruct (semver_gte H (JS.trim out) "6.13.0") as [ge|e0]; simpl in Hrun;
      [discriminate | congruence].
  - intros Hm. destruct m; [|contradiction|]; eexists; intros H'; reflexivity.
Qed.

Lemma getPackageManagerCommand_failure_witness :
  getPackageManagerCommand (Fixture.host "next") pnpm
  = Throw (TypeError "Invalid Version: next")
  /\ exists p, forall H' : Host, getPackageManagerCommand H' yarn = Ok p.
Proof.
  split.
  - destruct (getPackageManagerCommand (Fixture.host "next") pnpm) as [p|e] eqn:Hrun.
    + exfalso. vm_compute in Hrun. discriminate.
    + destruct (proj1 (getPackageManagerCommand_failure (Fixture.host "next") pnpm) _ Hrun)
        as [_ [Hprobe | (out & Hout & [Hlt | [_ Hge]])]].
      * vm_compute in Hprobe. discriminate.
      * vm_compute in Hout. injection Hout as <-. vm_compute in Hlt.
        now injection Hlt as <-.
      * vm_compute in Hout. injection Hout as <-. vm_compute in Hge.
        now injection Hge as <-.
  - apply (proj2 (getPackageManagerCommand_failure (Fixture.host "8.6.2") yarn)).
    discriminate.
Defined.

(** X14: in every profile the resolver returns the lockfile is the one of
    the manager, a name without dollar sign and not empty, and [run] takes
    an empty argument text as no arguments: the command is then the
    manager's words, the script and a trailing space. *)
Theorem profile_lockfile_and_empty_arguments (H : Host) (m : PackageManager) (p : profile) :
  getPackageManagerCommand H m = Ok p ->
  lockfile p = match m with
               | npm => "package-lock.json"
               | pnpm => "pnpm-lock.yaml"
               | yarn => "yarn.lock"
               end
  /\ lockfile p <> EmptyString
  /\ JS.all_chars plain (lockfile p) = true
  /\ forall script,
       run p script (Some EmptyString) = run p script None
       /\ run p script None = invocation_prefix m +:+ " " +:+ script +:+ " ".
Proof.
  intros Hp. destruct m; simpl in Hp.
  - injection Hp as <-. repeat split; discriminate.
  - destruct (getPackageManagerVersion H "pnpm") as [v|]; [|discriminate].
    simpl in Hp. destruct (semver_lt H v "7.0.0") as [lt|]; [|discriminate].
    simpl in Hp. destruct (semver_gte H v "6.13.0") as [ge|]; [|discriminate].
    injection Hp as <-. simpl. repeat split; try discriminate; now destruct lt.
  - injection Hp as <-. repeat split; discriminate.
Qed.

Lemma profile_lockfile_and_empty_arguments_witness :
  exists p,
    getPackageManagerCommand (Fixture.host "8.6.2") yarn = Ok p
    /\ lockfile p = "yarn.lock"
    /\ run p "dev" (Some EmptyString) = "yarn dev ".
Proof.
  eexists. split; [reflexivity|].
  destruct (profile_lockfile_and_empty_arguments (Fixture.host "8.6.2") yarn _ eq_refl)
    as (Hlock & _ & _ & Hrun).
  split; [exact Hlock|]. destruct (Hrun "dev") as [-> ->]. reflexivity.
Defined.

Section MoreReplaceFacts.

Lemma ReplacedEvery_none pat repl s t :
  ReplacedEvery pat repl s t -> ~ occurs pat s -> t = s.
Proof.
  intros [s' Hno | a b t' Hl Hr] Hnone; [reflexivity|].
  destruct Hnone. now exists a, b.
Qed.

Lemma ReplacedEvery_length pat repl s t :
  String.length pat <= String.length repl ->
  ReplacedEvery pat repl s t -> String.length s <= String.length t.
Proof.
  intros Hlen. induction 1 as [s Hno | a b t Hl Hr IH]; [lia|].
  rewrite !length_append. lia.
Qed.

Lemma ReplacedEvery_longer pat repl s t :
  String.length pat < String.length repl ->
  ReplacedEvery pat repl s t -> occurs pat s -> String.length s < String.length t.
Proof.
  intros Hlen [s' Hno | a b t' Hl Hr] Hocc; [contradiction|].
  apply ReplacedEvery_length in Hr; [|lia]. rewrite !length_append. lia.
Qed.

Lemma ReplacedEvery_still_occurs pat x s t :
  ReplacedEvery pat (pat +:+ x) s t -> occurs pat s -> occurs pat t.
Proof.
  intros [s' Hno | a b t' Hl Hr] Hocc; [contradiction|].
  exists a, (x +:+ t'). now rewrite !append_assoc.
Qed.

Lemma newDockerfile_spec pm dockerfile :
  lockfile pm <> EmptyString -> JS.all_chars plain (lockfile pm) = true ->
  exists text,
    newDockerfile pm dockerfile = Ok text
    /\ ReplacedEvery "ADD package.json" ("ADD package.json " +:+ lockfile pm)
         dockerfile text.
Proof.
  intros Hne Hplain. unfold newDockerfile.
  destruct (lockfile pm) as [|c l] eqn:Hl; [congruence|].
  rewrite new_RegExp_escapeRegExp. eexists. split; [reflexivity|].
  apply replace_all_spec; [discriminate | exact Hplain].
Qed.

End MoreReplaceFacts.

(** X15: for each manager, the new Dockerfile is the old one with every
    [ADD package.json] followed by a space and the manager's lockfile; a
    Dockerfile without that instruction is kept as it is. *)
Theorem newDockerfile_adds_the_lockfile (H : Host) (m : PackageManager) (p : profile)
    (dockerfile : string) :
  getPackageManagerCommand H m = Ok p ->
  exists text,
    newDockerfile p dockerfile = Ok text
    /\ ReplacedEvery "ADD package.json"
         ("ADD package.json "
          +:+ match m with
              | npm => "package-lock.json"
              | pnpm => "pnpm-lock.yaml"
              | yarn => "yarn.lock"
              end)
         dockerfile text
    /\ (~ occurs "ADD package.json" dockerfile -> text = dockerfile).
Proof.
  intros Hp.
  assert (Hfields : lockfile p = match m with
                                 | npm => "package-lock.json"
                                 | pnpm => "pnpm-lock.yaml"
                                 | yarn => "yarn.lock"
                                 end).
  { destruct m; simpl in Hp.
    - now injection Hp as <-.
    - destruct (getPackageManagerVersion H "pnpm") as [v|]; [|discriminate].
      simpl in Hp. destruct (semver_lt H v "7.0.0") as [lt|]; [|discriminate].
      simpl in Hp. destruct (semver_gte H v "6.13.0") as [ge|]; [|discriminate].
      now injection Hp as <-.
    - now injection Hp as <-. }
  destruct (newDockerfile_spec p dockerfile) as (text & Hrun & Hspec).
  - rewrite Hfields. destruct m; discriminate.
  - rewrite Hfields. now destruct m.
  - exists text. rewrite Hfields in Hspec. split; [exact Hrun|]. split; [exact Hspec|].
    intros Hno. eapply ReplacedEvery_none; eassumption.
Qed.

Lemma newDockerfile_adds_the_lockfile_witness :
  exists p,
    getPackageManagerCommand (Fixture.host "8.6.2") npm = Ok p
    /\ newDockerfile p "ADD package.json .npmrc ./"
       = Ok "ADD package.json package-lock.json .npmrc ./".
Proof.
  eexists. split; [reflexivity|].
  destruct (newDockerfile_adds_the_lockfile (Fixture.host "8.6.2") npm _
              "ADD package.json .npmrc ./" eq_refl) as (text & Hrun & _).
  rewrite Hrun. vm_compute in Hrun. now injection Hrun as <-.
Defined.

(** X16: the rewriting of the Dockerfile is not idempotent: on a Dockerfile
    that has the instruction [ADD package.json], a second run adds the
    lockfile once more, so each run makes the file longer. *)
Theorem newDockerfile_not_idempotent (H : Host) (m : PackageManager) (p : profile)
    (dockerfile : string) :
  getPackageManagerCommand H m = Ok p ->
  occurs "ADD package.json" dockerfile ->
  exists once twice,
    newDockerfile p dockerfile = Ok once
    /\ newDockerfile p once = Ok twice
    /\ String.length dockerfile < String.length once
    /\ String.length once < String.length twice.
Proof.
  intros Hp Hocc.
  assert (Hne : lockfile p <> EmptyString /\ JS.all_chars plain (lockfile p) = true).
  { destruct m; simpl in Hp.
    - injection Hp as <-. split; [discriminate | reflexivity].
    - destruct (getPackageManagerVersion H "pnpm") as [v|]; [|discriminate].
      simpl in Hp. destruct (semver_lt H v "7.0.0") as [lt|]; [|discriminate].
      simpl in Hp. destruct (semver_gte H v "6.13.0") as [ge|]; [|discriminate].
      injection Hp as <-. split; [discriminate | reflexivity].
    - injection Hp as <-. split; [discriminate | reflexivity]. }
  destruct Hne as [Hne Hplain].
  destruct (newDockerfile_spec p dockerfile Hne Hplain) as (once & Hrun1 & Hspec1).
  destruct (newDockerfile_spec p once Hne Hplain) as (twice & Hrun2 & Hspec2).
  exists once, twice. split; [exact Hrun1|]. split; [exact Hrun2|].
  assert (Hlen : String.length "ADD package.json"
                 < String.length ("ADD package.json " +:+ lockfile p)).
  { rewrite length_append. simpl. lia. }
  split.
  - eapply ReplacedEvery_longer; eassumption.
  - eapply ReplacedEvery_longer; [exact Hlen | exact Hspec2 |].
    change ("ADD package.json " +:+ lockfile p)
      with ("ADD package.json" +:+ (" " +:+ lockfile p)) in Hspec1.
    eapply ReplacedEvery_still_occurs; eassumption.
Qed.

Lemma newDockerfile_not_idempotent_witness :
  exists p once twice,
    getPackageManagerCommand (Fixture.host "8.6.2") yarn = Ok p
    /\ newDockerfile p "ADD package.json ./" = Ok once
    /\ newDockerfile p once = Ok twice
    /\ String.length once < String.length twice.
Proof.
  eexists.
  destruct (newDockerfile_not_idempotent (Fixture.host "8.6.2") yarn _
              "ADD package.json ./" eq_refl) as (once & twice & H1 & H2 & _ & Hlen).
  - now exists EmptyString, " ./".
  - exists once, twice. split; [reflexivity|]. repeat split; assumption.
Defined.

Lemma replace_all_literal_none p0 pat' repl s :
  ~ occurs (String p0 pat') s ->
  forall before,
    JS.replace_all_from (JS.literal (String p0 pat')) repl before 0 s = s.
Proof.
  induction s as [|c s IH]; intros Hno before; [reflexivity|].
  rewrite replace_all_from_cons, match_here_literal.
  destruct (JS.starts_with (String p0 pat') (String c s)) eqn:Hp.
  - destruct Hno. apply starts_with_spec in Hp as [t Ht]. now exists EmptyString, t.
  - rewrite IH; [reflexivity|]. intros (a & b & ->). apply Hno. now exists (String c a), b.
Qed.

(** X17: a README without the placeholder is rewritten as it is, whatever
    the name; and when the generated name itself contains the placeholder
    (a project directory named after the template), a README that had the
    placeholder still has it after the rewriting. *)
Theorem newReadme_edge_cases (H : Host) (readme rootDirectory : string) :
  (forall name, ~ occurs REPLACER readme -> newReadme readme name = Ok readme)
  /\ (occurs REPLACER readme ->
      occurs REPLACER (APP_NAME H rootDirectory) ->
      exists text,
        newReadme readme (APP_NAME H rootDirectory) = Ok text
        /\ occurs REPLACER text).
Proof.
  split.
  - intros name Hno. unfold newReadme. rewrite new_RegExp_escapeRegExp. simpl.
    f_equal.
    exact (replace_all_literal_none "s"%char "ymphonic-stack-template" name readme Hno
             EmptyString).
  - intros Hocc (x & y & Hname). unfold newReadme. rewrite new_RegExp_escapeRegExp.
    eexists. split; [reflexivity|].
    pose proof (replace_all_spec REPLACER (APP_NAME H rootDirectory) readme
                  ltac:(discriminate) (APP_NAME_plain H rootDirectory)) as Hspec.
    destruct Hspec as [s Hno | a b t Hl Hr]; [contradiction|].
    rewrite Hname. exists (a +:+ x), (y +:+ t). now rewrite !append_assoc.
Qed.

Lemma newReadme_edge_cases_witness :
  exists text,
    newReadme "# symphonic-stack-template"
      (APP_NAME (Fixture.host "8.6.2") "/tmp/symphonic-stack-template") = Ok text
    /\ occurs REPLACER text.
Proof.
  destruct (newReadme_edge_cases (Fixture.host "8.6.2") "# symphonic-stack-template"
              "/tmp/symphonic-stack-template") as [_ Hkept].
  apply Hkept.
  - now exists "# ", EmptyString.
  - now exists EmptyString, "-ab12".
Defined.

(** ** The orchestrator, phase by phase *)

Section MorePhaseFacts.
Context (H : Host).

Lemma pure_Promise_all ps : pure (Promise_all ps).
Proof.
  induction ps as [|[op [u|e]] ps IH]; intros w; simpl; [reflexivity | apply IH | reflexivity].
Qed.

Lemma pure_silent {A} (m : M A) : pure m -> silent m.
Proof. intros Hm w. now rewrite Hm. Qed.

Lemma silent_bind {A B} (m : M A) (k : A -> M B) :
  silent m -> (forall a, silent (k a)) -> silent (m ≫= k).
Proof.
  intros Hm Hk w. unfold mbind, M_bind. specialize (Hm w).
  destruct (m w) as [[a|e] w1]; simpl in *; [|assumption].
  now rewrite Hk.
Qed.

Lemma silent_start op : silent (start H op).
Proof.
  intros w. unfold start. destruct op; simpl; try reflexivity.
  - now destruct (fs w !! src).
  - now destruct (fs w !! path).
Qed.

Lemma silent_start_all ops : silent (start_all H ops).
Proof.
  induction ops as [|op ops IH]; [intros w; reflexivity|].
  simpl. apply silent_bind; [apply silent_start | intros p].
  apply silent_bind; [exact IH | intros ps w; reflexivity].
Qed.

Lemma silent_cleanupDeployWorkflow doc path : silent (cleanupDeployWorkflow H doc path).
Proof.
  unfold cleanupDeployWorkflow.
  repeat (apply silent_bind; [first [apply pure_silent, pure_lift | apply silent_start] | intros ?]).
  intros w. reflexivity.
Qed.

Lemma silent_cleanupVitestConfig config path : silent (cleanupVitestConfig H config path).
Proof.
  unfold cleanupVitestConfig.
  repeat (apply silent_bind; [first [apply pure_silent, pure_lift | apply silent_start] | intros ?]).
  intros w. reflexivity.
Qed.

Lemma silent_fileOperationPromises isTypeScript pm rootDirectory r :
  silent (fileOperationPromises H isTypeScript pm rootDirectory r).
Proof.
  unfold fileOperationPromises.
  do 4 (apply silent_bind; [apply pure_silent, pure_lift | intros ?]).
  apply silent_bind; [apply silent_start_all | intros ?].
  apply silent_bind; [|intros ? w; reflexivity].
  destruct isTypeScript; [intros w; reflexivity|].
  apply silent_bind; [apply silent_cleanupDeployWorkflow | intros [? ?]].
  apply silent_bind; [apply silent_cleanupVitestConfig | intros ? w; reflexivity].
Qed.

Lemma silent_execSync command cwd : silent (execSync H command cwd).
Proof.
  intros w. unfold execSync. now destruct (execSync_inherit H command cwd (fs w)).
Qed.

Lemma within_bind {A B} paths (m : M A) (k : A -> M B) :
  within paths m -> (forall a, within paths (k a)) -> within paths (m ≫= k).
Proof.
  intros Hm Hk w p Hp. unfold mbind, M_bind. specialize (Hm w p Hp).
  destruct (m w) as [[a|e] w1]; simpl in *; [|assumption].
  now rewrite Hk.
Qed.

Lemma within_bind_lift {A B} paths (r : result A) (k : A -> M B) :
  (forall a, r = Ok a -> within paths (k a)) -> within paths (lift r ≫= k).
Proof.
  intros Hk w p Hp. rewrite bind_lift. destruct r as [a|e]; [|reflexivity].
  now apply Hk.
Qed.

Lemma within_ret {A} paths (a : A) : within paths (mret a : M A).
Proof. intros w p _. reflexivity. Qed.

Lemma within_start paths op : In (target op) paths -> within paths (start H op).
Proof.
  intros Hin w p Hp. assert (Hne : target op <> p) by (intros <-; contradiction).
  unfold start. destruct op; simpl in *.
  - now apply lookup_insert_ne.
  - now apply lookup_insert_ne.
  - destruct (fs w !! src); simpl; [now apply lookup_insert_ne | reflexivity].
  - destruct (fs w !! path); simpl; [now apply lookup_delete_ne | reflexivity].
Qed.

Lemma within_start_all paths ops :
  (forall op, In op ops -> In (target op) paths) -> within paths (start_all H ops).
Proof.
  induction ops as [|op ops IH]; intros Hall; [apply within_ret|].
  simpl. apply within_bind; [apply within_start, Hall; now left | intros p].
  apply within_bind; [apply IH; intros; apply Hall; now right | intros ps; apply within_ret].
Qed.

Lemma within_cleanupDeployWorkflow paths doc path :
  In path paths -> within paths (cleanupDeployWorkflow H doc path).
Proof.
  intros Hin. unfold cleanupDeployWorkflow.
  do 8 (apply within_bind_lift; intros ? _).
  apply within_bind; [now apply within_start | intros ?; apply within_ret].
Qed.

Lemma within_cleanupVitestConfig paths config path :
  In path paths -> within paths (cleanupVitestConfig H config path).
Proof.
  intros Hin. unfold cleanupVitestConfig.
  apply within_bind_lift; intros ? _.
  apply within_bind; [now apply within_start | intros ?; apply within_ret].
Qed.

Lemma updatePackageJson_filename name isTypeScript pj pj' :
  updatePackageJson H name isTypeScript pj = Ok pj' -> filename pj' = filename pj.
Proof.
  unfold updatePackageJson. intros Hrun.
  repeat match type of Hrun with
  | (?r ≫= _) = Ok _ => destruct r; simpl in Hrun; [|discriminate]
  end.
  now injection Hrun as <-.
Qed.

End MorePhaseFacts.

Section MoreMonadFacts.

Lemma Promise_all_Ok ps w u w' :
  Promise_all ps w = (Ok u, w') -> w' = w /\ Forall (fun p => snd p = Ok ()) ps.
Proof.
  induction ps as [|[op [[]|e]] ps IH]; simpl.
  - intros [= _ <-]. split; [reflexivity | constructor].
  - intros [-> Hall]%IH. split; [reflexivity | now constructor].
  - discriminate.
Qed.

End MoreMonadFacts.

Ltac read_step Hrun :=
  match type of Hrun with
  | (?m ≫= ?k) ?w = _ =>
    let a := fresh "a" in
    let e := fresh "e" in
    let w1 := fresh "w" in
    let Hm := fresh "Hm" in
    let Hp := fresh "Hp" in
    destruct (m w) as [[a|e] w1] eqn:Hm;
    [ assert (Hp : pure m)
        by first [apply pure_readFile | apply pure_readFileIfNotTypeScript
                 | apply pure_PackageJson_load];
      specialize (Hp w); rewrite Hm in Hp; simpl in Hp; subst w1;
      rewrite (bind_Ok_intro m k w a w Hm) in Hrun
    | unfold fails; eauto 12 ]
  end.

(** X18: the join of the six reads rejects exactly when one of the six
    reads fails; in a typed run the workflow and the test configuration are
    not read, so their absence fails nothing. *)
Theorem read_phase_fails_exactly (H : Host) (isTypeScript : bool)
    (rootDirectory : string) (w : world) :
  (fails (read_phase H isTypeScript rootDirectory) w
   <-> fails (readFile (FLY_TOML_PATH H rootDirectory)) w
       \/ fails (readFile (README_PATH H rootDirectory)) w
       \/ fails (readFile (DOCKERFILE_PATH H rootDirectory)) w
       \/ fails (readFileIfNotTypeScript isTypeScript
                   (DEPLOY_WORKFLOW_PATH H rootDirectory) (YAML_parse H)) w
       \/ fails (readFileIfNotTypeScript isTypeScript
                   (VITEST_CONFIG_PATH H isTypeScript rootDirectory)
                   (fun s => mret (VStr s))) w
       \/ fails (PackageJson_load H rootDirectory) w)
  /\ (isTypeScript = true ->
      forall path parse, ~ fails (readFileIfNotTypeScript isTypeScript path parse) w).
Proof.
  split; [split|].
  - intros (e & w' & Hrun). unfold read_phase in Hrun.
    do 6 (read_step Hrun). discriminate.
  - apply read_phase_fails.
  - intros -> path parse (e & w' & Hrun). discriminate.
Qed.

(** X19: up to the await of line 185 a run writes or removes no file
    besides the eight it is about: any other file, the template
    [remix.init/gitignore] among them, is as it was, whether the run gets
    that far or throws on the way. *)
Theorem write_phase_touches_only_its_files (H : Host) (isTypeScript : bool) (pm : profile)
    (rootDirectory : string) (r : reads) (w : world) (p : string) :
  ~ In p (touched H isTypeScript rootDirectory r) ->
  fs (snd (fileOperationPromises H isTypeScript pm rootDirectory r w)) !! p = fs w !! p.
Proof.
  revert w p. change (within (touched H isTypeScript rootDirectory r)
                        (fileOperationPromises H isTypeScript pm rootDirectory r)).
  unfold fileOperationPromises.
  do 3 (apply within_bind_lift; intros ? _).
  apply within_bind_lift; intros pj Hpj.
  apply updatePackageJson_filename in Hpj.
  apply within_bind.
  - apply within_start_all. intros op Hop. unfold fileOperations in Hop.
    simpl in Hop. unfold touched.
    repeat destruct Hop as [<-|Hop]; simpl; rewrite ?Hpj;
      first [contradiction | auto 10].
  - intros ps. apply within_bind; [|intros; apply within_ret].
    destruct isTypeScript; [apply within_ret|].
    apply within_bind.
    + apply within_cleanupDeployWorkflow. unfold touched. simpl. auto 10.
    + intros [? ?]. apply within_bind; [|intros; apply within_ret].
      apply within_cleanupVitestConfig. unfold touched. simpl. auto 10.
Qed.

Lemma write_phase_touches_only_its_files_witness :
  fs (snd (fileOperationPromises (Fixture.host "8.6.2") false Fixture.yarn_profile
             "/tmp/my-app" Fixture.untyped_reads Fixture.initial))
    !! "/tmp/my-app/remix.init/gitignore" = Some "node_modules".
Proof.
  rewrite (write_phase_touches_only_its_files (Fixture.host "8.6.2") false
             Fixture.yarn_profile "/tmp/my-app" Fixture.untyped_reads Fixture.initial
             "/tmp/my-app/remix.init/gitignore").
  - reflexivity.
  - vm_compute. intuition discriminate.
Defined.

(** X20: a run that returns has gone through every phase in order: the
    resolver returned a profile, the six reads succeeded, every operation of
    the array settled well, then the formatter ran once, in the root
    directory, as the manager's [format] script with [--loglevel warn], on
    the files as the operations left them, and the files at the end are
    those the formatter left. *)
Theorem main_success (H : Host) (isTypeScript : bool) (packageManager : PackageManager)
    (rootDirectory : string) (w w' : world) :
  main H isTypeScript packageManager rootDirectory w = (Ok (), w') ->
  exists pm r ps w1,
    getPackageManagerCommand H packageManager = Ok pm
    /\ read_phase H isTypeScript rootDirectory w = (Ok r, w)
    /\ fileOperationPromises H isTypeScript pm rootDirectory r w = (Ok ps, w1)
    /\ Forall (fun p => snd p = Ok ()) ps
    /\ execSync_inherit H (run pm "format" (Some "--loglevel warn")) rootDirectory (fs w1)
       = Ok (fs w').
Proof.
  unfold main. intros Hrun.
  apply bind_Ok in Hrun as (pm & w0 & [Hpm ->]%lift_Ok & Hrun).
  apply bind_Ok in Hrun as (r & w0 & Hread & Hrun).
  pose proof (pure_read_phase H isTypeScript rootDirectory w) as Hpure.
  rewrite Hread in Hpure. simpl in Hpure. subst w0.
  apply bind_Ok in Hrun as (ps & w1 & Hops & Hrun).
  apply bind_Ok in Hrun as (u & w2 & [-> Hall]%Promise_all_Ok & Hrun).
  apply bind_Ok in Hrun as (u' & w3 & Hformat & Hlog).
  unfold execSync in Hformat.
  destruct (execSync_inherit H _ rootDirectory (fs w1)) as [fs'|e] eqn:Hexec;
    [|discriminate].
  injection Hformat as _ <-. unfold console_log in Hlog. injection Hlog as <-.
  exists pm, r, ps, w1. simpl. repeat split; assumption.
Qed.

Lemma main_success_witness :
  exists pm r ps w1 w',
    getPackageManagerCommand (Fixture.host "8.6.2") npm = Ok pm
    /\ read_phase (Fixture.host "8.6.2") true "/tmp/my-app" Fixture.initial
       = (Ok r, Fixture.initial)
    /\ fileOperationPromises (Fixture.host "8.6.2") true pm "/tmp/my-app" r Fixture.initial
       = (Ok ps, w1)
    /\ Forall (fun p => snd p = Ok ()) ps
    /\ main (Fixture.host "8.6.2") true npm "/tmp/my-app" Fixture.initial = (Ok (), w')
    /\ fs w' = fs w1.
Proof.
  destruct (main (Fixture.host "8.6.2") true npm "/tmp/my-app" Fixture.initial)
    as [[[]|e] w'] eqn:Hrun.
  - destruct (main_success _ _ _ _ _ _ Hrun)
      as (pm & r & ps & w1 & Hpm & Hread & Hops & Hall & Hformat).
    exists pm, r, ps, w1, w'. repeat split; try assumption.
    simpl in Hformat. now injection Hformat as <-.
  - exfalso. apply (f_equal fst) in Hrun. vm_compute in Hrun. discriminate.
Defined.

(** X21: the script calls [console.log] once, at the end of a run that
    returns, and never in a run that throws: the completion message is
    logged only after the formatter has returned.  (This is about the
    script's own call of [console.log]; what a command run by [execSync]
    writes to the terminal it inherits is not the script's message and is
    not part of this.) *)
Theorem main_logs_once_on_success_only (H : Host) (isTypeScript : bool)
    (packageManager : PackageManager) (rootDirectory : string) (w : world)
    (res : result unit) (w' : world) :
  main H isTypeScript packageManager rootDirectory w = (res, w') ->
  match res with
  | Ok _ => exists message, console w' = (console w ++ [message])%list
  | Throw _ => console w' = console w
  end.
Proof.
  unfold main. intros Hrun.
  assert (Hstep : forall {A} (m : M A) a w1 w2, silent m -> m w1 = (a, w2) ->
                    console w2 = console w1).
  { intros A m a w1 w2 Hm Heq. specialize (Hm w1). now rewrite Heq in Hm. }
  destruct res as [u|e].
  - apply bind_Ok in Hrun as (pm & w0 & [Hpm ->]%lift_Ok & Hrun).
    apply bind_Ok in Hrun as (r & w0 & Hread & Hrun).
    apply (Hstep _ _ _ _ _ (pure_silent _ (pure_read_phase H _ _))) in Hread.
    apply bind_Ok in Hrun as (ps & w1 & Hops & Hrun).
    apply (Hstep _ _ _ _ _ (silent_fileOperationPromises H _ _ _ _)) in Hops.
    apply bind_Ok in Hrun as (u0 & w2 & Hall & Hrun).
    apply (Hstep _ _ _ _ _ (pure_silent _ (pure_Promise_all ps))) in Hall.
    apply bind_Ok in Hrun as (u' & w3 & Hformat & Hlog).
    apply (Hstep _ _ _ _ _ (silent_execSync H _ _)) in Hformat.
    unfold console_log in Hlog. injection Hlog as _ <-.
    exists (banner pm). simpl. now rewrite Hformat, Hall, Hops, Hread.
  - apply bind_Throw_inv in Hrun as [Hrun | (pm & w0 & [_ ->]%lift_Ok & Hrun)];
      [now injection Hrun as _ <-|].
    apply bind_Throw_inv in Hrun as [Hrun | (r & w1 & Hread & Hrun)].
    { eapply Hstep; [apply pure_silent, pure_read_phase | exact Hrun]. }
    apply (Hstep _ _ _ _ _ (pure_silent _ (pure_read_phase H _ _))) in Hread.
    apply bind_Throw_inv in Hrun as [Hrun | (ps & w2 & Hops & Hrun)].
    { rewrite <- Hread. eapply Hstep; [apply silent_fileOperationPromises | exact Hrun]. }
    apply (Hstep _ _ _ _ _ (silent_fileOperationPromises H _ _ _ _)) in Hops.
    apply bind_Throw_inv in Hrun as [Hrun | (u & w3 & Hall & Hrun)].
    { rewrite <- Hread, <- Hops.
      eapply Hstep; [apply pure_silent, pure_Promise_all | exact Hrun]. }
    apply (Hstep _ _ _ _ _ (pure_silent _ (pure_Promise_all ps))) in Hall.
    apply bind_Throw_inv in Hrun as [Hrun | (u' & w4 & Hformat & Hlog)].
    { rewrite <- Hread, <- Hops, <- Hall.
      eapply Hstep; [apply silent_execSync | exact Hrun]. }
    unfold console_log in Hlog. discriminate.
Qed.

Lemma main_logs_once_on_success_only_witness :
  (exists w',
     main (Fixture.host "8.6.2") true npm "/tmp/my-app" Fixture.initial = (Ok (), w')
     /\ length (console w') = 1)
  /\ (exists e w',
        main (Fixture.host "8.6.2") true yarn "/tmp/my-app"
          {| fs := delete "/tmp/my-app/.github/dependabot.yml" Fixture.project;
             console := ["yarn create remix"] |} = (Throw e, w')
        /\ console w' = ["yarn create remix"]).
Proof.
  split.
  - destruct (main (Fixture.host "8.6.2") true npm "/tmp/my-app" Fixture.initial)
      as [[[]|e] w'] eqn:Hrun.
    + exists w'. split; [reflexivity|].
      destruct (main_logs_once_on_success_only _ _ _ _ _ _ _ Hrun) as [message ->].
      reflexivity.
    + exfalso. apply (f_equal fst) in Hrun. vm_compute in Hrun. discriminate.
  - destruct (main (Fixture.host "8.6.2") true yarn "/tmp/my-app"
                {| fs := delete "/tmp/my-app/.github/dependabot.yml" Fixture.project;
                   console := ["yarn create remix"] |}) as [[u|e] w'] eqn:Hrun.
    + exfalso. apply (f_equal fst) in Hrun. vm_compute in Hrun. discriminate.
    + exists e, w'. split; [reflexivity|].
      exact (main_logs_once_on_success_only _ _ _ _ _ _ _ Hrun).
Defined.

(** X22: a failure before the array is built leaves the files as they
    were: when the resolver throws, when the TOML patch throws (a syntax
    error, no [app] text) or when [updatePackageJson] throws, [main] throws
    the same error and nothing was written, copied or removed. *)
Theorem failure_before_the_writes (H : Host) (isTypeScript : bool)
    (packageManager : PackageManager) (rootDirectory : string) (w : world) (e : error) :
  (getPackageManagerCommand H packageManager = Throw e ->
   main H isTypeScript packageManager rootDirectory w = (Throw e, w))
  /\ (forall pm r,
        getPackageManagerCommand H packageManager = Ok pm ->
        read_phase H isTypeScript rootDirectory w = (Ok r, w) ->
        prodToml H (prodContent r) (APP_NAME H rootDirectory) = Throw e
        \/ (exists toml, prodToml H (prodContent r) (APP_NAME H rootDirectory) = Ok toml)
           /\ updatePackageJson H (APP_NAME H rootDirectory) isTypeScript (packageJson r)
              = Throw e ->
        main H isTypeScript packageManager rootDirectory w = (Throw e, w)).
Proof.
  split.
  - intros Hpm. unfold main. rewrite bind_lift. now rewrite Hpm.
  - intros pm r Hpm Hread Hfail. unfold main. rewrite bind_lift, Hpm.
    rewrite (bind_Ok_intro _ _ _ _ _ Hread).
    apply bind_Throw. unfold fileOperationPromises. rewrite bind_lift.
    destruct Hfail as [-> | [[toml ->] Hupdate]]; [reflexivity|].
    rewrite bind_lift. unfold newReadme at 1. rewrite new_RegExp_escapeRegExp. simpl.
    rewrite bind_lift.
    destruct (newDockerfile_total pm (dockerfile r)) as [text ->].
    rewrite bind_lift. now rewrite Hupdate.
Qed.

Lemma failure_before_the_writes_witness :
  main (Fixture.host_with_toml (VObj [("primary_region", VStr "ams")])) false yarn
    "/tmp/my-app" Fixture.initial
  = (Throw (TypeError "Cannot read properties of undefined or null: replace"),
     Fixture.initial).
Proof.
  destruct (failure_before_the_writes
              (Fixture.host_with_toml (VObj [("primary_region", VStr "ams")])) false yarn
              "/tmp/my-app" Fixture.initial
              (TypeError "Cannot read properties of undefined or null: replace"))
    as [_ Hlater].
  apply (Hlater Fixture.yarn_profile Fixture.untyped_reads); [reflexivity | | left; reflexivity].
  assert (Hpure := pure_read_phase
            (Fixture.host_with_toml (VObj [("primary_region", VStr "ams")])) false
            "/tmp/my-app" Fixture.initial).
  destruct (read_phase _ false "/tmp/my-app" Fixture.initial) as [res w1] eqn:Hread.
  simpl in Hpure. subst w1. f_equal.
  apply (f_equal fst) in Hread. vm_compute in Hread. now rewrite <- Hread.
Defined.

(** X23: there is no rollback and no formatting after a failed operation:
    when one of the started operations fails, [main] throws its error (that
    of the first failed promise of the array), the formatter is not run and
    [console.log] is not reached; the files are as the started operations
    left them. *)
Theorem batch_failure_stops_before_the_formatter (H : Host) (isTypeScript : bool)
    (packageManager : PackageManager) (rootDirectory : string) (w : world)
    (pm : profile) (r : reads) (ps : list promise) (w1 : world) (e : error) :
  getPackageManagerCommand H packageManager = Ok pm ->
  read_phase H isTypeScript rootDirectory w = (Ok r, w) ->
  fileOperationPromises H isTypeScript pm rootDirectory r w = (Ok ps, w1) ->
  fst (Promise_all ps w1) = Throw e ->
  main H isTypeScript packageManager rootDirectory w = (Throw e, w1)
  /\ exists op, In (op, Throw e) ps.
Proof.
  intros Hpm Hread Hops Hall. split.
  - unfold main. rewrite bind_lift, Hpm.
    rewrite (bind_Ok_intro _ _ _ _ _ Hread), (bind_Ok_intro _ _ _ _ _ Hops).
    apply bind_Throw.
    pose proof (pure_Promise_all ps w1) as Hpure.
    destruct (Promise_all ps w1) as [res w2]. simpl in *. now subst.
  - clear Hops. induction ps as [|[op [[]|e0]] ps IH]; simpl in Hall.
    + discriminate.
    + destruct (IH Hall) as [op' Hin]. exists op'. now right.
    + injection Hall as ->. exists op. now left.
Qed.

Lemma batch_failure_stops_before_the_formatter_witness :
  exists w1,
    main (Fixture.host "8.6.2") true yarn "/tmp/my-app"
      {| fs := delete "/tmp/my-app/.github/dependabot.yml" Fixture.project;
         console := [] |}
    = (Throw (ENOENT "/tmp/my-app/.github/dependabot.yml"), w1)
    /\ fs w1 !! "/tmp/my-app/README.md" = Some "# my-app-ab12, a my-app-ab12".
Proof.
  set (w0 := {| fs := delete "/tmp/my-app/.github/dependabot.yml" Fixture.project;
                console := [] |}).
  destruct (read_phase (Fixture.host "8.6.2") true "/tmp/my-app" w0) as [res w0'] eqn:Hread.
  assert (Hpure := pure_read_phase (Fixture.host "8.6.2") true "/tmp/my-app" w0).
  rewrite Hread in Hpure. simpl in Hpure. subst w0'.
  destruct res as [r|e]; [|exfalso; apply (f_equal fst) in Hread; vm_compute in Hread;
                           discriminate].
  destruct (fileOperationPromises (Fixture.host "8.6.2") true Fixture.yarn_profile
              "/tmp/my-app" r w0) as [[ps|e] w1] eqn:Hops.
  - exists w1. split.
    + apply (batch_failure_stops_before_the_formatter (Fixture.host "8.6.2") true yarn
               "/tmp/my-app" w0 Fixture.yarn_profile r ps w1); try assumption; [reflexivity|].
      apply (f_equal fst) in Hread. vm_compute in Hread. injection Hread as <-.
      assert (Hps := f_equal fst Hops). vm_compute in Hps. injection Hps as <-.
      reflexivity.
    + apply (f_equal fst) in Hread. vm_compute in Hread. injection Hread as <-.
      apply (f_equal (fun x => fs (snd x) !! "/tmp/my-app/README.md")) in Hops.
      simpl in Hops. rewrite <- Hops. vm_compute. reflexivity.
  - exfalso. apply (f_equal fst) in Hread. vm_compute in Hread. injection Hread as <-.
    apply (f_equal fst) in Hops. vm_compute in Hops. discriminate.
Defined.
